(** * Commerce ledger of the quimexar back office

    A shallow embedding of the business rules that live inside the page
    components of the application (cash drawer, point of sale, invoicing,
    consignment sellers, supplier orders), together with the properties the
    specification states about them.

    Conventions of the embedding.
    - A JavaScript [number] that the form schemas validate as an integer
      (stock levels, line quantities) is an integer of [Z].  Amounts of
      money are binary64 numbers in the program, entered with cents.  The
      handlers of the first part take them as integers of [Z], which is
      what the program computes on whole amounts; the functions whose
      results depend on the rounding of cents (the expected totals and
      differences of the cash drawer, the registration of a payment) are
      embedded on binary64 numbers, in the module [Binary64].
    - A Firestore collection is a finite map from document ids to the
      fields of the document.  A write that the SDK rejects (an [update] of
      a document that does not exist) is an explicit failure.
    - React state that a handler closes over (the arrays filled by the
      [onSnapshot] listeners, the open dialog, the form values) is passed to
      the handler as arguments; the clock and the ids that the SDK
      generates are arguments as well. *)

From stdpp Require Import gmap strings list fin_maps pretty.
From Stdlib Require Import ZArith Lia Ascii Floats.

Local Open Scope Z_scope.

(** How a handler ended: it ran to its end, it returned early on a guard, or
    a promise was rejected (caught by the handler, or thrown out of it). *)
Inductive Outcome := Completed | Aborted | Failed.

(** [x || 0] on a possibly undefined number. *)
Definition or0 (x : option Z) : Z := default 0 x.

(** [xs.reduce((sum, x) => sum + f(x), 0)] *)
Definition reduce_sum {A : Type} (f : A → Z) (xs : list A) : Z :=
  foldl (λ sum x, sum + f x) 0 xs.

(** ** The document store *)
Module Firestore.

Section Collection.
Context {A : Type}.

(** [addDoc(collection, data)]: the SDK picks the document id [autoId]. *)
Definition addDoc (autoId : string) (data : A) (c : gmap string A) : gmap string A :=
  <[autoId := data]> c.

(** [setDoc(doc(collection, id), data)] creates or overwrites. *)
Definition setDoc (id : string) (data : A) (c : gmap string A) : gmap string A :=
  <[id := data]> c.

(** [updateDoc(doc(collection, id), patch)] is rejected when the document
    does not exist; [patch] rewrites some fields and keeps the others. *)
Definition updateDoc (id : string) (patch : A → A) (c : gmap string A) : option (gmap string A) :=
  match c !! id with
  | Some d => Some (<[id := patch d]> c)
  | None => None
  end.

(** [deleteDoc(doc(collection, id))] *)
Definition deleteDoc (id : string) (c : gmap string A) : gmap string A :=
  delete id c.

(** The [update] calls queued on a [writeBatch], committed together: they
    apply in order, and one rejected update rejects the whole batch. *)
Fixpoint batchUpdate (ups : list (string * (A → A))) (c : gmap string A) : option (gmap string A) :=
  match ups with
  | [] => Some c
  | (id, patch) :: rest =>
      match updateDoc id patch c with
      | Some c' => batchUpdate rest c'
      | None => None
      end
  end.

(** [Promise.all(items.map(item => addDoc(collection, item)))]: the call
    for the item at position [n] gets the id [autoId (i + n)]. *)
Fixpoint addDocs (autoId : nat → string) (i : nat) (items : list A) (c : gmap string A) : gmap string A :=
  match items with
  | [] => c
  | item :: rest => addDocs autoId (S i) rest (addDoc (autoId i) item c)
  end.

(** [snapshot.docs]: the documents of a collection with their ids. *)
Definition docs (c : gmap string A) : list (string * A) := map_to_list c.

End Collection.

(** What a page holds for a document: [id] and the document's fields. *)
Record Mapped (A : Type) := mkMapped { id : string; fields : A }.
#[global] Arguments mkMapped {A} _ _.
#[global] Arguments id {A} _.
#[global] Arguments fields {A} _.

(** [mapDocTo]: [{ id: doc.id, ...data }].  The spread comes second, so a
    field called [id] stored inside the document ([storedId]) replaces the
    document id. *)
Definition mapDocTo {A : Type} (storedId : A → option string) (doc : string * A) : Mapped A :=
  mkMapped (default doc.1 (storedId doc.2)) doc.2.

(** [snapshot.docs.map(doc => mapDocTo(doc))] *)
Definition snapshot {A : Type} (storedId : A → option string) (c : gmap string A) : list (Mapped A) :=
  mapDocTo storedId <$> docs c.

(** [xs.find(x => x.id === key)] *)
Definition findById {A : Type} (key : string) (xs : list (Mapped A)) : option (Mapped A) :=
  find (λ x, bool_decide (id x = key)) xs.

End Firestore.

(** ** Documents

    One module per document type, so that fields keep the names they have
    in the TypeScript interfaces.  Fields that only feed the rendering
    (brand, contact data) are left out. *)

Inductive PaymentMethod := Efectivo | Tarjeta | Transferencia | CuentaCorriente.

#[global] Instance PaymentMethod_eq_dec : EqDecision PaymentMethod.
Proof. solve_decision. Defined.

(** A line as [getSaleItemsForStorage] snapshots it. *)
Module SaleItem.
Record t := {
  productId : string;
  productName : string;
  quantity : Z;
  price : Z;
  originalPrice : Z;
  discountPercentage : Z }.
End SaleItem.

Module Sale.
Record t := {
  id : string;
  total : Z;
  paymentMethod : PaymentMethod;
  timestamp : string;
  items : list SaleItem.t }.
End Sale.

Module Expense.
Record t := {
  id : string;
  description : string;
  amount : Z;
  timestamp : string }.
End Expense.

Module CountedTotals.
Record t := { Efectivo : Z; Tarjeta : Z; Transferencia : Z }.
End CountedTotals.

(** A live session document has no [id] field; a history document is
    written from the page's session object and repeats its id. *)
Module CashSession.
Record t := {
  id : option string;
  user : string;
  openingTime : string;
  initialAmount : Z;
  sales : list Sale.t;
  expenses : list Expense.t;
  closingTime : option string;
  countedTotals : option CountedTotals.t;
  observations : option string }.
End CashSession.

Module Product.
Record t := {
  name : string;
  code : string;
  stock : Z;
  unit : string;
  price : Z;
  image : string;
  dataAiHint : option string }.
End Product.

Module ComboProduct.
Record t := { productId : string; quantity : Z }.
End ComboProduct.

(** [products] may be missing from a combo document. *)
Module Combo.
Record t := {
  name : string;
  price : Z;
  products : option (list ComboProduct.t);
  active : bool }.
End Combo.

Module Order.
Inductive Status := Pendiente | EnReparto | Entregado | Cancelado.
Record t := {
  id : string;
  customerName : string;
  deliveryAddress : string;
  items : list SaleItem.t;
  total : Z;
  status : Status;
  createdAt : string;
  customerId : option string }.
End Order.

(** Both writers of [billable-items] store an [id] field of their own
    ([BS-...] at the point of sale, [BO-...] on the orders page). *)
Module BillableItem.
Inductive Kind := PosSale | DeliveryOrder.
Record t := {
  id : option string;
  date : string;
  customerId : string;
  customerName : string;
  items : list SaleItem.t;
  total : Z;
  type : Kind;
  invoiced : bool;
  invoiceId : option string }.
End BillableItem.

Module Payment.
Inductive Method := Efectivo | Tarjeta | Transferencia | Cheque.
Record t := {
  id : string;
  date : string;
  amount : Z;
  method : Method }.
End Payment.

Module InvoiceItem.
Record t := {
  description : string;
  quantity : Z;
  price : Z;
  total : Z }.
End InvoiceItem.

Module Invoice.
Inductive Kind := A | B | C | Ticket.
Inductive Status := Pendiente | Pagada | Vencida | Anulada.
Record t := {
  type : Kind;
  sequentialId : string;
  customerId : string;
  customerName : string;
  date : string;
  dueDate : string;
  items : list InvoiceItem.t;
  total : Z;
  status : Status;
  payments : list Payment.t;
  sourceSaleIds : list string }.
End Invoice.

Module Client.
Inductive Kind := ConsumidorFinal | Empresa.
Record t := { name : string; type : Kind }.
End Client.

Module AssignedProduct.
Record t := { productId : string; name : string; quantity : Z }.
End AssignedProduct.

Module SellerSaleItem.
Record t := {
  productId : string;
  quantity : Z;
  price : Z;
  originalPrice : Z;
  discountPercentage : Z }.
End SellerSaleItem.

Module SellerSale.
Record t := {
  id : string;
  items : list SellerSaleItem.t;
  total : Z;
  timestamp : string }.
End SellerSale.

Module SellerReturn.
Inductive Reason := NoVendido | Danado.
Record t := {
  id : string;
  productId : string;
  quantity : Z;
  reason : Reason;
  timestamp : string }.
End SellerReturn.

Module Seller.
Record t := {
  name : string;
  address : option string;
  phone : option string;
  assignedStock : list AssignedProduct.t;
  sales : list SellerSale.t;
  returns : list SellerReturn.t;
  balance : Z }.
End Seller.

Module GeneralStockItem.
Inductive Category := Insumo | Envase | Etiqueta.
Record t := {
  name : string;
  quantity : Z;
  unit : string;
  supplier : option string;
  entryDate : string;
  notes : option string;
  category : Category }.
End GeneralStockItem.

Module SupplierOrderItem.
Record t := { name : string; quantity : Z; unit : string; price : Z }.
End SupplierOrderItem.

Module ReceivedItem.
Record t := { name : string; quantity : Z; unit : string }.
End ReceivedItem.

Module SupplierOrder.
Inductive Status := Borrador | Confirmado | EnTransito | Recibido | RecibidoParcial.
Record t := {
  sequentialId : string;
  supplierId : string;
  supplierName : string;
  orderDate : string;
  items : list SupplierOrderItem.t;
  total : Z;
  observations : option string;
  status : Status;
  receivedDate : option string;
  receivedItems : option (list ReceivedItem.t) }.
End SupplierOrder.

(** The collections the handlers write to. *)
Record Db := {
  db_caja_sessions : gmap string CashSession.t;
  db_caja_history : gmap string CashSession.t;
  db_products : gmap string Product.t;
  db_orders : gmap string Order.t;
  db_billable_items : gmap string BillableItem.t;
  db_invoices : gmap string Invoice.t;
  db_sellers : gmap string Seller.t;
  db_general_stock : gmap string GeneralStockItem.t;
  db_supplier_orders : gmap string SupplierOrder.t }.

Definition emptyDb : Db := Build_Db ∅ ∅ ∅ ∅ ∅ ∅ ∅ ∅ ∅.

Definition with_caja_sessions (v : gmap string CashSession.t) (db : Db) : Db :=
  Build_Db v (db_caja_history db) (db_products db) (db_orders db) (db_billable_items db)
    (db_invoices db) (db_sellers db) (db_general_stock db) (db_supplier_orders db).

Definition with_caja_history (v : gmap string CashSession.t) (db : Db) : Db :=
  Build_Db (db_caja_sessions db) v (db_products db) (db_orders db) (db_billable_items db)
    (db_invoices db) (db_sellers db) (db_general_stock db) (db_supplier_orders db).

Definition with_products (v : gmap string Product.t) (db : Db) : Db :=
  Build_Db (db_caja_sessions db) (db_caja_history db) v (db_orders db) (db_billable_items db)
    (db_invoices db) (db_sellers db) (db_general_stock db) (db_supplier_orders db).

Definition with_orders (v : gmap string Order.t) (db : Db) : Db :=
  Build_Db (db_caja_sessions db) (db_caja_history db) (db_products db) v (db_billable_items db)
    (db_invoices db) (db_sellers db) (db_general_stock db) (db_supplier_orders db).

Definition with_billable_items (v : gmap string BillableItem.t) (db : Db) : Db :=
  Build_Db (db_caja_sessions db) (db_caja_history db) (db_products db) (db_orders db) v
    (db_invoices db) (db_sellers db) (db_general_stock db) (db_supplier_orders db).

Definition with_invoices (v : gmap string Invoice.t) (db : Db) : Db :=
  Build_Db (db_caja_sessions db) (db_caja_history db) (db_products db) (db_orders db)
    (db_billable_items db) v (db_sellers db) (db_general_stock db) (db_supplier_orders db).

Definition with_sellers (v : gmap string Seller.t) (db : Db) : Db :=
  Build_Db (db_caja_sessions db) (db_caja_history db) (db_products db) (db_orders db)
    (db_billable_items db) (db_invoices db) v (db_general_stock db) (db_supplier_orders db).

Definition with_general_stock (v : gmap string GeneralStockItem.t) (db : Db) : Db :=
  Build_Db (db_caja_sessions db) (db_caja_history db) (db_products db) (db_orders db)
    (db_billable_items db) (db_invoices db) (db_sellers db) v (db_supplier_orders db).

Definition with_supplier_orders (v : gmap string SupplierOrder.t) (db : Db) : Db :=
  Build_Db (db_caja_sessions db) (db_caja_history db) (db_products db) (db_orders db)
    (db_billable_items db) (db_invoices db) (db_sellers db) (db_general_stock db) v.

(** The shapes the pages give to their state. *)
Abbreviation CashSession := (Firestore.Mapped CashSession.t) (only parsing).
Abbreviation Product := (Firestore.Mapped Product.t) (only parsing).
Abbreviation Combo := (Firestore.Mapped Combo.t) (only parsing).
Abbreviation BillableItem := (Firestore.Mapped BillableItem.t) (only parsing).
Abbreviation Invoice := (Firestore.Mapped Invoice.t) (only parsing).
Abbreviation Client := (Firestore.Mapped Client.t) (only parsing).
Abbreviation Seller := (Firestore.Mapped Seller.t) (only parsing).
Abbreviation SupplierOrder := (Firestore.Mapped SupplierOrder.t) (only parsing).

Definition noStoredId {A : Type} (_ : A) : option string := None.

(** [{ stock: increment(n) }] on a product document. *)
Definition incrementStock (n : Z) (p : Product.t) : Product.t :=
  {| Product.name := Product.name p; Product.code := Product.code p;
     Product.stock := Product.stock p + n;
     Product.unit := Product.unit p; Product.price := Product.price p;
     Product.image := Product.image p; Product.dataAiHint := Product.dataAiHint p |}.

(** ** Cash drawer: caja/page.tsx *)
Module Caja.

Record CloseBoxFormData := {
  countedEfectivo : Z;
  countedTarjeta : Z;
  countedTransferencia : Z;
  observations : option string }.

(** The object [salesByMethod] that the reducer fills: keys in order of
    first assignment. *)
Definition ByMethod := list (PaymentMethod * Z).

Definition get (acc : ByMethod) (m : PaymentMethod) : option Z :=
  snd <$> find (λ kv, bool_decide (fst kv = m)) acc.

Fixpoint set (acc : ByMethod) (m : PaymentMethod) (v : Z) : ByMethod :=
  match acc with
  | [] => [(m, v)]
  | (k, w) :: rest =>
      if bool_decide (k = m) then (k, v) :: rest else (k, w) :: set rest m v
  end.

(** [session.sales.reduce((acc, sale) => { acc[sale.paymentMethod] =
    (acc[sale.paymentMethod] || 0) + sale.total; return acc; }, {})] *)
Definition salesByMethod (ss : list Sale.t) : ByMethod :=
  foldl (λ acc sale,
           set acc (Sale.paymentMethod sale)
               (or0 (get acc (Sale.paymentMethod sale)) + Sale.total sale))
        [] ss.

Record ExpectedTotals := {
  exp_Efectivo : Z;
  exp_Tarjeta : Z;
  exp_Transferencia : Z;
  exp_CuentaCorriente : Z;
  exp_Total : Z;
  exp_Gastos : Z }.

Definition expectedTotals (session : option CashSession) : ExpectedTotals :=
  match session with
  | None => Build_ExpectedTotals 0 0 0 0 0 0
  | Some s =>
      let byMethod := salesByMethod (CashSession.sales (Firestore.fields s)) in
      let totalExpenses :=
        reduce_sum Expense.amount (CashSession.expenses (Firestore.fields s)) in
      {| exp_Efectivo := or0 (get byMethod Efectivo);
         exp_Tarjeta := or0 (get byMethod Tarjeta);
         exp_Transferencia := or0 (get byMethod Transferencia);
         exp_CuentaCorriente := or0 (get byMethod CuentaCorriente);
         exp_Total := reduce_sum snd byMethod;
         exp_Gastos := totalExpenses |}
  end.

(** [session.initialAmount + expectedTotals.Efectivo - expectedTotals.Gastos] *)
Definition expectedCashInBox (s : CashSession) : Z :=
  CashSession.initialAmount (Firestore.fields s)
  + exp_Efectivo (expectedTotals (Some s))
  - exp_Gastos (expectedTotals (Some s)).

Record Differences := {
  diff_Efectivo : Z;
  diff_Tarjeta : Z;
  diff_Transferencia : Z }.

(** The memoised [differences] of the closing dialog; [counted] is
    [closeForm.getValues()]. *)
Definition differences (session : option CashSession) (counted : CloseBoxFormData) : Differences :=
  match session with
  | None => Build_Differences 0 0 0
  | Some s =>
      let expected := expectedTotals (Some s) in
      {| diff_Efectivo := countedEfectivo counted - expectedCashInBox s;
         diff_Tarjeta := countedTarjeta counted - exp_Tarjeta expected;
         diff_Transferencia := countedTransferencia counted - exp_Transferencia expected |}
  end.

(** The listener on [caja-sessions]: the first document of the snapshot,
    mapped.  The order of a snapshot only matters with more than one live
    session. *)
Definition liveSession (db : Db) : option CashSession :=
  match Firestore.docs (db_caja_sessions db) with
  | [] => None
  | sessionDoc :: _ => Some (Firestore.mapDocTo CashSession.id sessionDoc)
  end.

(** [currentUser?.username || "Usuario Desconocido"]: an empty name counts
    as missing. *)
Definition orUnknown (username : option string) : string :=
  match username with
  | Some u => if bool_decide (u = ""%string) then "Usuario Desconocido"%string else u
  | None => "Usuario Desconocido"%string
  end.

(** [username] is the name of the signed-in user, [autoId] the id that
    [addDoc] generates. *)
Definition handleOpenBox (username : option string) (now : string) (autoId : string)
    (amount : Z) (db : Db) : Db * Outcome :=
  if bool_decide (db_caja_sessions db = ∅) then
    let newSession :=
      {| CashSession.id := None;
         CashSession.user := orUnknown username;
         CashSession.openingTime := now;
         CashSession.initialAmount := amount;
         CashSession.sales := [];
         CashSession.expenses := [];
         CashSession.closingTime := None;
         CashSession.countedTotals := None;
         CashSession.observations := None |} in
    (with_caja_sessions (Firestore.addDoc autoId newSession (db_caja_sessions db)) db,
     Completed)
  else (db, Aborted).

Definition handleAddExpense (session : option CashSession) (expenseId now : string)
    (description : string) (amount : Z) (db : Db) : Db * Outcome :=
  match session with
  | None => (db, Aborted)
  | Some s =>
      let newExpense :=
        {| Expense.id := expenseId; Expense.timestamp := now;
           Expense.description := description; Expense.amount := amount |} in
      let patch (d : CashSession.t) :=
        {| CashSession.id := CashSession.id d;
           CashSession.user := CashSession.user d;
           CashSession.openingTime := CashSession.openingTime d;
           CashSession.initialAmount := CashSession.initialAmount d;
           CashSession.sales := CashSession.sales d;
           CashSession.expenses :=
             CashSession.expenses (Firestore.fields s) ++ [newExpense];
           CashSession.closingTime := CashSession.closingTime d;
           CashSession.countedTotals := CashSession.countedTotals d;
           CashSession.observations := CashSession.observations d |} in
      match Firestore.updateDoc (Firestore.id s) patch (db_caja_sessions db) with
      | Some sessions' => (with_caja_sessions sessions' db, Completed)
      | None => (db, Failed)
      end
  end.

(** [setDoc] into the history, then [deleteDoc] of the live session.
    The record carries [observations: data.observations]; the form field is
    optional, and [setDoc] rejects a field whose value is [undefined], so
    without observations nothing is written.  (The closing dialog presets
    the field to the empty string.) *)
Definition handleCloseBox (session : option CashSession) (now : string)
    (data : CloseBoxFormData) (db : Db) : Db * Outcome :=
  match session with
  | None => (db, Aborted)
  | Some s =>
      let d := Firestore.fields s in
      match observations data with
      | None => (db, Failed)
      | Some text =>
          let closedSession :=
            {| CashSession.id := Some (Firestore.id s);
               CashSession.user := CashSession.user d;
               CashSession.openingTime := CashSession.openingTime d;
               CashSession.initialAmount := CashSession.initialAmount d;
               CashSession.sales := CashSession.sales d;
               CashSession.expenses := CashSession.expenses d;
               CashSession.closingTime := Some now;
               CashSession.countedTotals :=
                 Some {| CountedTotals.Efectivo := countedEfectivo data;
                         CountedTotals.Tarjeta := countedTarjeta data;
                         CountedTotals.Transferencia := countedTransferencia data |};
               CashSession.observations := Some text |} in
          let db1 :=
            with_caja_history
              (Firestore.setDoc (Firestore.id s) closedSession (db_caja_history db)) db in
          (with_caja_sessions
             (Firestore.deleteDoc (Firestore.id s) (db_caja_sessions db1)) db1,
           Completed)
      end
  end.

(** The "Diferencia Efectivo" column of the history table. *)
Definition historyDiff (h : CashSession) : Z :=
  let d := Firestore.fields h in
  let expectedCash :=
    reduce_sum Sale.total
      (filter (λ s, Sale.paymentMethod s = Efectivo) (CashSession.sales d))
    + CashSession.initialAmount d
    - reduce_sum Expense.amount (CashSession.expenses d) in
  default 0 (CountedTotals.Efectivo <$> CashSession.countedTotals d) - expectedCash.

End Caja.

(** ** Point of sale: ventas/page.tsx *)
Module Ventas.

(** [SaleableItem]: a product, or an active combo with its computed stock. *)
Inductive SaleableItem :=
| ProductItem (p : Product)
| ComboItem (c : Combo) (stock : Z).

(** The [stock] field of a saleable item. *)
Definition itemStock (i : SaleableItem) : Z :=
  match i with
  | ProductItem p => Product.stock (Firestore.fields p)
  | ComboItem _ stock => stock
  end.

Record CartItem := { item : SaleableItem; quantity : Z }.

(** One entry of [stockLevels].  For a quantity other than zero
    [Math.floor(stock / quantity)] is [Z.div]; the combo form only accepts
    positive integer quantities (a zero quantity would give [Infinity] or
    [NaN] here). *)
Definition stockLevel (products : list Product) (comboProduct : ComboProduct.t) : Z :=
  match Firestore.findById (ComboProduct.productId comboProduct) products with
  | None => 0
  | Some product =>
      if bool_decide (Product.stock (Firestore.fields product)
                      < ComboProduct.quantity comboProduct)
      then 0
      else Product.stock (Firestore.fields product) / ComboProduct.quantity comboProduct
  end.

(** [Math.min(...stockLevels)] is only taken of a non-empty array. *)
Definition calculateComboStock (products : list Product) (combo : Combo) : Z :=
  match Combo.products (Firestore.fields combo) with
  | None => 0
  | Some [] => 0
  | Some (first :: rest) =>
      foldl Z.min (stockLevel products first) (stockLevel products <$> rest)
  end.

Definition saleableItems (products : list Product) (combos : list Combo) : list SaleableItem :=
  let activeProducts := ProductItem <$> products in
  let activeCombos :=
    filter (λ c, 0 < itemStock c)
      ((λ c, ComboItem c (calculateComboStock products c))
         <$> filter (λ c, Combo.active (Firestore.fields c) = true) combos) in
  activeProducts ++ activeCombos.

(** The updates one cart line queues on the batch.  A combo line whose
    [products] is missing throws before anything is committed. *)
Definition stockUpdates (cartItem : CartItem) : option (list (string * (Product.t → Product.t))) :=
  match item cartItem with
  | ComboItem combo _ =>
      match Combo.products (Firestore.fields combo) with
      | None => None
      | Some comboProducts =>
          Some ((λ comboProduct,
                   (ComboProduct.productId comboProduct,
                    incrementStock (- (ComboProduct.quantity comboProduct * quantity cartItem))))
                  <$> comboProducts)
      end
  | ProductItem p => Some [(Firestore.id p, incrementStock (- quantity cartItem))]
  end.

Definition updateStock (cart : list CartItem) (c : gmap string Product.t) : option (gmap string Product.t) :=
  match mapM stockUpdates cart with
  | Some ups => Firestore.batchUpdate (concat ups) c
  | None => None
  end.

(** The object [billableSale] that [handleAddToCustomerAccount] hands to
    [addDoc]; [millis] is [Date.now()] in decimal. *)
Definition billableSale (millis now : string) (selectedCustomerId : string)
    (customer : Client) (storageItems : list SaleItem.t) (total : Z) : BillableItem.t :=
  {| BillableItem.id := Some ("BS-" +:+ millis);
     BillableItem.date := now;
     BillableItem.customerId := selectedCustomerId;
     BillableItem.customerName := Client.name (Firestore.fields customer);
     BillableItem.items := storageItems;
     BillableItem.total := total;
     BillableItem.type := BillableItem.PosSale;
     BillableItem.invoiced := false;
     BillableItem.invoiceId := None |}.

Record DeliveryInfo := { name : string; address : string; phone : string }.

Definition isWhitespace (a : Ascii.ascii) : bool :=
  bool_decide (Ascii.nat_of_ascii a ∈ [9; 10; 11; 12; 13; 32]%nat).

(** [!s.trim()] on a string of ASCII characters. *)
Definition blank (s : string) : bool :=
  forallb isWhitespace (String.list_ascii_of_string s).

(** [storageItems] and [total] are [getSaleItemsForStorage()] and
    [cartSummary.total]: they apply percentage discounts to prices and are
    taken as given.  [orderId] is [PED-] followed by the last six digits of
    the clock. *)
Definition handleCreateOrder (deliveryInfo : DeliveryInfo) (cart : list CartItem)
    (storageItems : list SaleItem.t) (total : Z) (orderId now autoId : string)
    (db : Db) : Db * Outcome :=
  if blank (name deliveryInfo) then (db, Aborted)
  else if blank (address deliveryInfo) then (db, Aborted)
  else
    let fullAddress :=
      if blank (phone deliveryInfo) then address deliveryInfo
      else address deliveryInfo +:+ " (Tel: " +:+ phone deliveryInfo +:+ ")" in
    let newOrder :=
      {| Order.id := orderId;
         Order.customerName := name deliveryInfo;
         Order.deliveryAddress := fullAddress;
         Order.items := storageItems;
         Order.total := total;
         Order.status := Order.Pendiente;
         Order.createdAt := now;
         Order.customerId := None |} in
    let db1 := with_orders (Firestore.addDoc autoId newOrder (db_orders db)) db in
    match updateStock cart (db_products db1) with
    | Some products' => (with_products products' db1, Completed)
    | None => (db1, Failed)
    end.

(** [item.id] of a saleable item. *)
Definition saleableId (i : SaleableItem) : string :=
  match i with
  | ProductItem p => Firestore.id p
  | ComboItem c _ => Firestore.id c
  end.

(** [handleQuantityChange]: [{ ...prev, [itemId]: Math.max(0, newQuantity) }] *)
Definition handleQuantityChange (itemId : string) (newQuantity : Z) (prev : gmap string Z) : gmap string Z :=
  <[itemId := Z.max 0 newQuantity]> prev.

(** The function [addToCart] hands to [setCart]. *)
Definition cartWith (newItem : SaleableItem) (newQuantity : Z) (prevCart : list CartItem) : list CartItem :=
  match find (λ cartItem, bool_decide (saleableId (item cartItem) = saleableId newItem))
          prevCart with
  | Some existingItem =>
      (λ cartItem,
         if bool_decide (saleableId (item cartItem) = saleableId newItem)
         then {| item := item cartItem; quantity := quantity cartItem + newQuantity |}
         else cartItem) <$> prevCart
  | None => prevCart ++ [ {| item := newItem; quantity := newQuantity |} ]
  end.

(** [addToCart] on the pair of states [cart] and [itemQuantities]. *)
Definition addToCart (newItem : SaleableItem) (newQuantity : Z)
    (st : list CartItem * gmap string Z) : list CartItem * gmap string Z :=
  if bool_decide (newQuantity ≤ 0) then st
  else (cartWith newItem newQuantity st.1, <[saleableId newItem := 0]> st.2).

(** [handleAddToCart]: the quantity is [itemQuantities[item.id] || 0]. *)
Definition handleAddToCart (newItem : SaleableItem)
    (st : list CartItem * gmap string Z) : list CartItem * gmap string Z :=
  addToCart newItem (or0 (st.2 !! saleableId newItem)) st.

End Ventas.

(** ** Invoicing: the page of [FacturacionPage] *)
Module Facturacion.

Record GenerateInvoiceData := {
  customerId : string;
  invoiceType : Invoice.Kind;
  issueDate : string;
  dueDate : string;
  selectedSales : list string }.

Inductive ActionDialog :=
| DialogGenerate
| DialogPayment (invoiceId : string)
| DialogStatement (clientId : string)
| DialogExpense.

(** [s.padStart(n, c)] *)
Definition padStart (n : nat) (c : Ascii.ascii) (s : string) : string :=
  String.string_of_list_ascii (replicate (n - String.length s) c) +:+ s.

Definition invoiceLines (s : BillableItem) : list InvoiceItem.t :=
  (λ i, {| InvoiceItem.description := SaleItem.productName i;
           InvoiceItem.quantity := SaleItem.quantity i;
           InvoiceItem.price := SaleItem.price i;
           InvoiceItem.total := SaleItem.quantity i * SaleItem.price i |})
    <$> BillableItem.items (Firestore.fields s).

(** [{ invoiced: true, invoiceId }] *)
Definition flagInvoiced (invoiceId : string) (d : BillableItem.t) : BillableItem.t :=
  {| BillableItem.id := BillableItem.id d;
     BillableItem.date := BillableItem.date d;
     BillableItem.customerId := BillableItem.customerId d;
     BillableItem.customerName := BillableItem.customerName d;
     BillableItem.items := BillableItem.items d;
     BillableItem.total := BillableItem.total d;
     BillableItem.type := BillableItem.type d;
     BillableItem.invoiced := true;
     BillableItem.invoiceId := Some invoiceId |}.

(** [billableItems], [invoices] and [clients] are the page's snapshots;
    [invoiceDocId] is the id of [doc(collection(db, "invoices"))].  A missing
    customer makes [customer.name] throw before the batch is built. *)
Definition handleGenerateInvoice (data : GenerateInvoiceData)
    (billableItems : list BillableItem) (invoices : list Invoice)
    (clients : list Client) (invoiceDocId : string) (db : Db) : Db * Outcome :=
  let salesToInvoice :=
    filter (λ item, Firestore.id item ∈ selectedSales data) billableItems in
  if bool_decide (length salesToInvoice = 0%nat) then (db, Aborted)
  else
    let total :=
      reduce_sum (λ item, BillableItem.total (Firestore.fields item)) salesToInvoice in
    let items := salesToInvoice ≫= invoiceLines in
    match Firestore.findById (customerId data) clients with
    | None => (db, Failed)
    | Some customer =>
        let newInvoice :=
          {| Invoice.sequentialId := padStart 8 "0"%char (pretty (length invoices + 1)%nat);
             Invoice.type := invoiceType data;
             Invoice.customerId := customerId data;
             Invoice.customerName := Client.name (Firestore.fields customer);
             Invoice.date := issueDate data;
             Invoice.dueDate := dueDate data;
             Invoice.items := items;
             Invoice.total := total;
             Invoice.status := Invoice.Pendiente;
             Invoice.payments := [];
             Invoice.sourceSaleIds := selectedSales data |} in
        match Firestore.batchUpdate
                ((λ saleId, (saleId, flagInvoiced invoiceDocId)) <$> selectedSales data)
                (db_billable_items db) with
        | Some billable' =>
            (with_billable_items billable'
               (with_invoices (Firestore.setDoc invoiceDocId newInvoice (db_invoices db)) db),
             Completed)
        | None => (db, Failed)
        end
    end.

(** [uninvoicedSalesForSelectedCustomer]; no customer chosen is
    [undefined] or the empty string. *)
Definition uninvoicedSalesForSelectedCustomer (customerIdForInvoice : option string)
    (billableItems : list BillableItem) : list BillableItem :=
  match customerIdForInvoice with
  | None => []
  | Some cid =>
      if bool_decide (cid = ""%string) then []
      else
        filter (λ item, BillableItem.customerId (Firestore.fields item) = cid
                        ∧ BillableItem.invoiced (Firestore.fields item) = false)
          billableItems
  end.

(** [inv.status === "Pendiente" || inv.status === "Vencida"] *)
Definition isOpen (status : Invoice.Status) : bool :=
  match status with
  | Invoice.Pendiente | Invoice.Vencida => true
  | _ => false
  end.

(** [customerBalances]: the object [balances], keyed by customer id. *)
Definition customerBalances (invoices : list Invoice) (clients : list Client) : gmap string Z :=
  let balances := foldl (λ balances c, <[Firestore.id c := 0]> balances) ∅ clients in
  foldl (λ balances inv,
           let d := Firestore.fields inv in
           if isOpen (Invoice.status d) then
             let paidAmount := reduce_sum Payment.amount (Invoice.payments d) in
             <[Invoice.customerId d :=
                 or0 (balances !! Invoice.customerId d) + (Invoice.total d - paidAmount)]>
               balances
           else balances)
        balances invoices.

End Facturacion.

(** ** Consignment sellers: the page of [VendedoresPage] *)
Module Vendedores.

(** The values of [stockMap]. *)
Module StockData.
Record t := {
  name : string;
  quantity : Z;
  price : Z;
  image : string;
  dataAiHint : option string }.
End StockData.

(** The elements of the array [calculateSellerStock] returns. *)
Module SellerStock.
Record t := {
  productId : string;
  name : string;
  quantity : Z;
  price : Z;
  image : string;
  dataAiHint : option string }.
End SellerStock.

(** A [Map<string, ...>]: one entry per key, in order of first insertion. *)
Definition StockMap := list (string * StockData.t).

Definition get (m : StockMap) (k : string) : option StockData.t :=
  snd <$> find (λ kv, bool_decide (kv.1 = k)) m.

Fixpoint set (m : StockMap) (k : string) (v : StockData.t) : StockMap :=
  match m with
  | [] => [(k, v)]
  | (k', v') :: rest =>
      if bool_decide (k' = k) then (k', v) :: rest else (k', v') :: set rest k v
  end.

Definition withQuantity (q : Z) (e : StockData.t) : StockData.t :=
  {| StockData.name := StockData.name e; StockData.quantity := q;
     StockData.price := StockData.price e; StockData.image := StockData.image e;
     StockData.dataAiHint := StockData.dataAiHint e |}.

(** The body of [seller.assignedStock.forEach]. *)
Definition assign (localProducts : list Product) (stockMap : StockMap)
    (item : AssignedProduct.t) : StockMap :=
  match Firestore.findById (AssignedProduct.productId item) localProducts with
  | Some productInfo =>
      let currentQty :=
        or0 (StockData.quantity <$> get stockMap (AssignedProduct.productId item)) in
      set stockMap (AssignedProduct.productId item)
        {| StockData.name := AssignedProduct.name item;
           StockData.quantity := currentQty + AssignedProduct.quantity item;
           StockData.price := Product.price (Firestore.fields productInfo);
           StockData.image := Product.image (Firestore.fields productInfo);
           StockData.dataAiHint := Product.dataAiHint (Firestore.fields productInfo) |}
  | None => stockMap
  end.

(** [if (stockMap.has(id)) stockMap.get(id).quantity -= quantity] *)
Definition subtract (stockMap : StockMap) (productId : string) (quantity : Z) : StockMap :=
  match get stockMap productId with
  | Some current => set stockMap productId (withQuantity (StockData.quantity current - quantity) current)
  | None => stockMap
  end.

(** [stockMap] after the three [forEach] loops of [calculateSellerStock]. *)
Definition stockMapOf (s : Seller.t) (localProducts : list Product) : StockMap :=
  let assigned := foldl (assign localProducts) [] (Seller.assignedStock s) in
  let afterSales :=
    foldl (λ stockMap sale,
             foldl (λ stockMap item,
                      subtract stockMap (SellerSaleItem.productId item)
                        (SellerSaleItem.quantity item))
                   stockMap (SellerSale.items sale))
          assigned (Seller.sales s) in
  foldl (λ stockMap ret,
           subtract stockMap (SellerReturn.productId ret) (SellerReturn.quantity ret))
        afterSales (Seller.returns s).

(** [([productId, data]) => ({ productId, ...data })] *)
Definition toSellerStock (entry : string * StockData.t) : SellerStock.t :=
  {| SellerStock.productId := entry.1;
     SellerStock.name := StockData.name entry.2;
     SellerStock.quantity := StockData.quantity entry.2;
     SellerStock.price := StockData.price entry.2;
     SellerStock.image := StockData.image entry.2;
     SellerStock.dataAiHint := StockData.dataAiHint entry.2 |}.

(** The loops, then
    [Array.from(stockMap.entries()).map(...).filter(p => p.quantity > 0)]. *)
Definition calculateSellerStock (seller : option Seller) (localProducts : list Product) : list SellerStock.t :=
  match seller with
  | None => []
  | Some s =>
      filter (λ p, 0 < SellerStock.quantity p)
        (toSellerStock <$> stockMapOf (Firestore.fields s) localProducts)
  end.

(** [calculateSellerStock(seller, products).find(p => p.productId ===
    productId)?.quantity || 0] *)
Definition availableQuantity (seller : Seller) (products : list Product) (productId : string) : Z :=
  or0 (SellerStock.quantity
         <$> find (λ p, bool_decide (SellerStock.productId p = productId))
               (calculateSellerStock (Some seller) products)).

Record ReturnData := {
  productId : string;
  quantity : Z;
  reason : SellerReturn.Reason }.

(** [{ returns: [...sellerForAction.returns, newReturn] }] *)
Definition returnsPatch (returns : list SellerReturn.t) (d : Seller.t) : Seller.t :=
  {| Seller.name := Seller.name d; Seller.address := Seller.address d;
     Seller.phone := Seller.phone d;
     Seller.assignedStock := Seller.assignedStock d;
     Seller.sales := Seller.sales d;
     Seller.returns := returns;
     Seller.balance := Seller.balance d |}.

(** [sellerForAction] is the seller the dialog was opened for; [products]
    and [sellers] are the page's snapshots; [returnId] is [RET-] followed
    by the clock. *)
Definition handleRegisterReturn (sellerForAction : option Seller) (data : ReturnData)
    (returnId now : string) (products : list Product) (sellers : list Seller)
    (db : Db) : Db * Outcome :=
  match sellerForAction with
  | None => (db, Aborted)
  | Some forAction =>
      match Firestore.findById (productId data) products with
      | None => (db, Aborted)
      | Some product =>
          match Firestore.findById (Firestore.id forAction) sellers with
          | None => (db, Aborted)
          | Some sellerToUpdate =>
              let availableToReturn :=
                availableQuantity sellerToUpdate products (productId data) in
              if bool_decide (availableToReturn < quantity data) then (db, Aborted)
              else
                let incremented :=
                  match reason data with
                  | SellerReturn.NoVendido =>
                      Firestore.updateDoc (productId data)
                        (incrementStock (quantity data)) (db_products db)
                  | SellerReturn.Danado => Some (db_products db)
                  end in
                match incremented with
                | None => (db, Failed)
                | Some products' =>
                    let db1 := with_products products' db in
                    let newReturn :=
                      {| SellerReturn.id := returnId;
                         SellerReturn.productId := productId data;
                         SellerReturn.quantity := quantity data;
                         SellerReturn.reason := reason data;
                         SellerReturn.timestamp := now |} in
                    match Firestore.updateDoc (Firestore.id forAction)
                            (returnsPatch
                               (Seller.returns (Firestore.fields forAction) ++ [newReturn]))
                            (db_sellers db1) with
                    | Some sellers' => (with_sellers sellers' db1, Completed)
                    | None => (db1, Failed)
                    end
                end
          end
      end
  end.

(** [handleQuantityChange] and [handleSaleQuantityChange]: the quantity is
    clamped below by 0 and above by [maxStock] when one is given. *)
Definition handleQuantityChange (itemId : string) (newQuantity : Z) (maxStock : option Z)
    (prev : gmap string Z) : gmap string Z :=
  let quantity0 := Z.max 0 newQuantity in
  let quantity1 :=
    match maxStock with
    | Some maxStock => Z.min quantity0 maxStock
    | None => quantity0
    end in
  <[itemId := quantity1]> prev.

Module AssignmentCartItem.
Record t := { item : Product; quantity : Z }.
End AssignmentCartItem.

Module SaleCartItem.
Record t := { item : SellerStock.t; quantity : Z }.
End SaleCartItem.

(** [handleAddToCart] on the pair of states [assignmentCart] and
    [itemQuantities]. *)
Definition handleAddToCart (newItem : Product)
    (st : list AssignmentCartItem.t * gmap string Z) : list AssignmentCartItem.t * gmap string Z :=
  let newQuantity := or0 (st.2 !! Firestore.id newItem) in
  if bool_decide (newQuantity ≤ 0) then st
  else
    (match find (λ cartItem,
                   bool_decide (Firestore.id (AssignmentCartItem.item cartItem)
                                = Firestore.id newItem)) st.1 with
     | Some existingItem =>
         (λ cartItem,
            if bool_decide (Firestore.id (AssignmentCartItem.item cartItem)
                            = Firestore.id newItem)
            then {| AssignmentCartItem.item := AssignmentCartItem.item cartItem;
                    AssignmentCartItem.quantity :=
                      AssignmentCartItem.quantity cartItem + newQuantity |}
            else cartItem) <$> st.1
     | None =>
         st.1 ++ [ {| AssignmentCartItem.item := newItem;
                      AssignmentCartItem.quantity := newQuantity |} ]
     end,
     <[Firestore.id newItem := 0]> st.2).

(** [handleAddToSaleCart] on the pair of states [saleCart] and
    [saleItemQuantities]. *)
Definition handleAddToSaleCart (newItem : SellerStock.t)
    (st : list SaleCartItem.t * gmap string Z) : list SaleCartItem.t * gmap string Z :=
  let newQuantity := or0 (st.2 !! SellerStock.productId newItem) in
  if bool_decide (newQuantity ≤ 0) then st
  else
    (match find (λ cartItem,
                   bool_decide (SellerStock.productId (SaleCartItem.item cartItem)
                                = SellerStock.productId newItem)) st.1 with
     | Some existingItem =>
         (λ cartItem,
            if bool_decide (SellerStock.productId (SaleCartItem.item cartItem)
                            = SellerStock.productId newItem)
            then {| SaleCartItem.item := SaleCartItem.item cartItem;
                    SaleCartItem.quantity := SaleCartItem.quantity cartItem + newQuantity |}
            else cartItem) <$> st.1
     | None =>
         st.1 ++ [ {| SaleCartItem.item := newItem;
                      SaleCartItem.quantity := newQuantity |} ]
     end,
     <[SellerStock.productId newItem := 0]> st.2).

(** [newBalance] of the sellers listener: the stock held, valued at the
    catalog price ([product?.price || 0]). *)
Definition newBalance (products : list Product) (seller : Seller) : Z :=
  foldl (λ acc stockItem,
           acc + SellerStock.quantity stockItem
                 * or0 ((λ p, Product.price (Firestore.fields p))
                          <$> Firestore.findById (SellerStock.productId stockItem) products))
        0 (calculateSellerStock (Some seller) products).

(** [{ balance: newBalance }] *)
Definition balancePatch (balance : Z) (d : Seller.t) : Seller.t :=
  {| Seller.name := Seller.name d; Seller.address := Seller.address d;
     Seller.phone := Seller.phone d;
     Seller.assignedStock := Seller.assignedStock d;
     Seller.sales := Seller.sales d;
     Seller.returns := Seller.returns d;
     Seller.balance := balance |}.

(** The writes of the sellers listener over a snapshot [sellersData]: a
    seller whose stored balance differs from the recomputed one is
    updated.  The updates are independent promises: one that is rejected
    leaves the others in place. *)
Definition recalculateBalances (products : list Product) (sellersData : list Seller)
    (db : Db) : Db * Outcome :=
  let r :=
    foldl (λ (acc : gmap string Seller.t * bool) seller,
             if bool_decide (Seller.balance (Firestore.fields seller)
                             = newBalance products seller)
             then acc
             else
               match Firestore.updateDoc (Firestore.id seller)
                       (balancePatch (newBalance products seller)) acc.1 with
               | Some sellers' => (sellers', acc.2)
               | None => (acc.1, false)
               end)
          (db_sellers db, true) sellersData in
  (with_sellers r.1 db, if r.2 then Completed else Failed).

(** [sellersWithRecalculatedBalance], which the listener hands to
    [setSellers]. *)
Definition sellersWithRecalculatedBalance (products : list Product)
    (sellersData : list Seller) : list Seller :=
  (λ seller,
     Firestore.mkMapped (Firestore.id seller)
       (balancePatch (newBalance products seller) (Firestore.fields seller)))
    <$> sellersData.

(** The loop "Deduct from general stock": one [updateDoc] after the
    other; a rejected one stops the loop and keeps the earlier ones. *)
Fixpoint deductEach (cart : list AssignmentCartItem.t) (c : gmap string Product.t) : gmap string Product.t * bool :=
  match cart with
  | [] => (c, true)
  | cartItem :: rest =>
      match Firestore.updateDoc (Firestore.id (AssignmentCartItem.item cartItem))
              (incrementStock (- AssignmentCartItem.quantity cartItem)) c with
      | Some c' => deductEach rest c'
      | None => (c, false)
      end
  end.

(** [{ assignedStock: [...] }] and [{ sales: [...] }] *)
Definition assignedStockPatch (assignedStock : list AssignedProduct.t) (d : Seller.t) : Seller.t :=
  {| Seller.name := Seller.name d; Seller.address := Seller.address d;
     Seller.phone := Seller.phone d;
     Seller.assignedStock := assignedStock;
     Seller.sales := Seller.sales d;
     Seller.returns := Seller.returns d;
     Seller.balance := Seller.balance d |}.

Definition salesPatch (sales : list SellerSale.t) (d : Seller.t) : Seller.t :=
  {| Seller.name := Seller.name d; Seller.address := Seller.address d;
     Seller.phone := Seller.phone d;
     Seller.assignedStock := Seller.assignedStock d;
     Seller.sales := sales;
     Seller.returns := Seller.returns d;
     Seller.balance := Seller.balance d |}.

(** [reduce((acc, item) => acc + item.price * item.quantity, 0)] *)
Definition calculatedTotal (saleItems : list SellerSaleItem.t) : Z :=
  reduce_sum (λ item, SellerSaleItem.price item * SellerSaleItem.quantity item) saleItems.

(** [discounted price pct] stands for [price * (1 - pct / 100)], which
    leaves the integers and is taken as given.  [saleId] is [SELLSALE-]
    followed by the clock.  A product that [find] does not return makes the
    [!] dereference throw. *)
Definition handleConfirmAssignment (assigningToSeller : option Seller)
    (assignmentCart : list AssignmentCartItem.t) (isDirectSale : bool)
    (assignmentDiscounts : gmap string Z) (discounted : Z → Z → Z)
    (saleId now : string) (products : list Product) (db : Db) : Db * Outcome :=
  match assigningToSeller with
  | None => (db, Aborted)
  | Some seller =>
      if bool_decide (length assignmentCart = 0%nat) then (db, Aborted)
      else if existsb
                (λ cartItem,
                   match Firestore.findById
                           (Firestore.id (AssignmentCartItem.item cartItem)) products with
                   | None => true
                   | Some productInDb =>
                       bool_decide (Product.stock (Firestore.fields productInDb)
                                    < AssignmentCartItem.quantity cartItem)
                   end) assignmentCart
      then (db, Aborted)
      else
        match deductEach assignmentCart (db_products db) with
        | (products', false) => (with_products products' db, Failed)
        | (products', true) =>
            let db1 := with_products products' db in
            if isDirectSale then
              match mapM (λ cartItem,
                            match Firestore.findById
                                    (Firestore.id (AssignmentCartItem.item cartItem))
                                    products with
                            | None => None
                            | Some product =>
                                let discountPercentage :=
                                  or0 (assignmentDiscounts !! Firestore.id product) in
                                Some {| SellerSaleItem.productId := Firestore.id product;
                                        SellerSaleItem.quantity :=
                                          AssignmentCartItem.quantity cartItem;
                                        SellerSaleItem.price :=
                                          discounted (Product.price (Firestore.fields product))
                                            discountPercentage;
                                        SellerSaleItem.originalPrice :=
                                          Product.price (Firestore.fields product);
                                        SellerSaleItem.discountPercentage :=
                                          discountPercentage |}
                            end) assignmentCart with
              | None => (db1, Failed)
              | Some saleItems =>
                  let newSale :=
                    {| SellerSale.id := saleId; SellerSale.items := saleItems;
                       SellerSale.total := calculatedTotal saleItems;
                       SellerSale.timestamp := now |} in
                  match Firestore.updateDoc (Firestore.id seller)
                          (salesPatch (Seller.sales (Firestore.fields seller) ++ [newSale]))
                          (db_sellers db1) with
                  | Some sellers' => (with_sellers sellers' db1, Completed)
                  | None => (db1, Failed)
                  end
              end
            else
              match mapM (λ c,
                            match Firestore.findById
                                    (Firestore.id (AssignmentCartItem.item c)) products with
                            | None => None
                            | Some p =>
                                Some {| AssignedProduct.productId :=
                                          Firestore.id (AssignmentCartItem.item c);
                                        AssignedProduct.name :=
                                          Product.name (Firestore.fields p);
                                        AssignedProduct.quantity :=
                                          AssignmentCartItem.quantity c |}
                            end) assignmentCart with
              | None => (db1, Failed)
              | Some assignmentsWithNames =>
                  match Firestore.updateDoc (Firestore.id seller)
                          (assignedStockPatch
                             (Seller.assignedStock (Firestore.fields seller)
                              ++ assignmentsWithNames))
                          (db_sellers db1) with
                  | Some sellers' => (with_sellers sellers' db1, Completed)
                  | None => (db1, Failed)
                  end
              end
        end
  end.

(** The sale items are built before the [try]: a cart product that the
    catalog does not have makes the handler throw with nothing written. *)
Definition handleConfirmSale (sellingForSeller : option Seller)
    (saleCart : list SaleCartItem.t) (saleDiscounts : gmap string Z)
    (discounted : Z → Z → Z) (saleId now : string) (products : list Product)
    (db : Db) : Db * Outcome :=
  match sellingForSeller with
  | None => (db, Aborted)
  | Some seller =>
      if bool_decide (length saleCart = 0%nat) then (db, Aborted)
      else
        match mapM (λ cartItem,
                      match Firestore.findById
                              (SellerStock.productId (SaleCartItem.item cartItem))
                              products with
                      | None => None
                      | Some baseProductInfo =>
                          let discountPercentage :=
                            or0 (saleDiscounts !! Firestore.id baseProductInfo) in
                          Some {| SellerSaleItem.productId := Firestore.id baseProductInfo;
                                  SellerSaleItem.quantity := SaleCartItem.quantity cartItem;
                                  SellerSaleItem.price :=
                                    discounted
                                      (Product.price (Firestore.fields baseProductInfo))
                                      discountPercentage;
                                  SellerSaleItem.originalPrice :=
                                    Product.price (Firestore.fields baseProductInfo);
                                  SellerSaleItem.discountPercentage := discountPercentage |}
                      end) saleCart with
        | None => (db, Failed)
        | Some saleItems =>
            let newSale :=
              {| SellerSale.id := saleId; SellerSale.items := saleItems;
                 SellerSale.total := calculatedTotal saleItems;
                 SellerSale.timestamp := now |} in
            match Firestore.updateDoc (Firestore.id seller)
                    (salesPatch (Seller.sales (Firestore.fields seller) ++ [newSale]))
                    (db_sellers db) with
            | Some sellers' => (with_sellers sellers' db, Completed)
            | None => (db, Failed)
            end
        end
  end.

End Vendedores.

(** ** Supplier orders: the page of [PedidosProveedoresPage] *)
Module Proveedores.

Record ReceiveOrderItem := {
  name : string;
  unit : string;
  orderedQuantity : Z;
  receivedQuantity : Z }.

(** [{ status, receivedDate, receivedItems }] *)
Definition receiptPatch (newStatus : SupplierOrder.Status) (now : string)
    (receivedItems : list ReceivedItem.t) (d : SupplierOrder.t) : SupplierOrder.t :=
  {| SupplierOrder.sequentialId := SupplierOrder.sequentialId d;
     SupplierOrder.supplierId := SupplierOrder.supplierId d;
     SupplierOrder.supplierName := SupplierOrder.supplierName d;
     SupplierOrder.orderDate := SupplierOrder.orderDate d;
     SupplierOrder.items := SupplierOrder.items d;
     SupplierOrder.total := SupplierOrder.total d;
     SupplierOrder.observations := SupplierOrder.observations d;
     SupplierOrder.status := newStatus;
     SupplierOrder.receivedDate := Some now;
     SupplierOrder.receivedItems := Some receivedItems |}.

Definition newStockItem (order : SupplierOrder) (today : string) (item : ReceiveOrderItem) : GeneralStockItem.t :=
  {| GeneralStockItem.name := name item;
     GeneralStockItem.quantity := receivedQuantity item;
     GeneralStockItem.unit := unit item;
     GeneralStockItem.supplier := Some (SupplierOrder.supplierName (Firestore.fields order));
     GeneralStockItem.entryDate := today;
     GeneralStockItem.notes :=
       Some ("Ingreso desde pedido a proveedor #"
             +:+ SupplierOrder.sequentialId (Firestore.fields order));
     GeneralStockItem.category := GeneralStockItem.Insumo |}.

(** [items] is [data.items], the quantities entered in the receive
    dialog; [today] and [now] are the date and the instant of the clock;
    [autoId n] is the id of the [n]-th stock document created. *)
Definition handleReceiveOrderSubmit (orderToReceive : option SupplierOrder)
    (items : list ReceiveOrderItem) (today now : string) (autoId : nat → string)
    (db : Db) : Db * Outcome :=
  match orderToReceive with
  | None => (db, Aborted)
  | Some order =>
      let receivedItemsForStock := filter (λ item, 0 < receivedQuantity item) items in
      let receivedItemsForHistory :=
        (λ item, {| ReceivedItem.name := name item;
                    ReceivedItem.quantity := receivedQuantity item;
                    ReceivedItem.unit := unit item |}) <$> items in
      let isPartial :=
        existsb (λ item, bool_decide (receivedQuantity item < orderedQuantity item)) items in
      let newStockItems := newStockItem order today <$> receivedItemsForStock in
      let db1 :=
        with_general_stock
          (Firestore.addDocs autoId 0 newStockItems (db_general_stock db)) db in
      let newStatus :=
        if isPartial then SupplierOrder.RecibidoParcial else SupplierOrder.Recibido in
      match Firestore.updateDoc (Firestore.id order)
              (receiptPatch newStatus now receivedItemsForHistory)
              (db_supplier_orders db1) with
      | Some orders' => (with_supplier_orders orders' db1, Completed)
      | None => (db1, Failed)
      end
  end.

(** [{ status: newStatus }] *)
Definition statusPatch (newStatus : SupplierOrder.Status) (d : SupplierOrder.t) : SupplierOrder.t :=
  {| SupplierOrder.sequentialId := SupplierOrder.sequentialId d;
     SupplierOrder.supplierId := SupplierOrder.supplierId d;
     SupplierOrder.supplierName := SupplierOrder.supplierName d;
     SupplierOrder.orderDate := SupplierOrder.orderDate d;
     SupplierOrder.items := SupplierOrder.items d;
     SupplierOrder.total := SupplierOrder.total d;
     SupplierOrder.observations := SupplierOrder.observations d;
     SupplierOrder.status := newStatus;
     SupplierOrder.receivedDate := SupplierOrder.receivedDate d;
     SupplierOrder.receivedItems := SupplierOrder.receivedItems d |}.

(** The receive dialog once opened: [orderToReceive] and the rows of the
    form. *)
Record ReceiveDialog := {
  orderToReceive : SupplierOrder;
  formItems : list ReceiveOrderItem }.

(** [handleOrderStatusChange]: choosing "Recibido" writes nothing and opens
    the receive dialog (if the page has the order); any other status is
    written to the order.  The third component is the dialog it opens. *)
Definition handleOrderStatusChange (orderId : string) (newStatus : SupplierOrder.Status)
    (supplierOrders : list SupplierOrder) (db : Db) : Db * Outcome * option ReceiveDialog :=
  match newStatus with
  | SupplierOrder.Recibido =>
      match Firestore.findById orderId supplierOrders with
      | Some order =>
          (db, Completed,
           Some {| orderToReceive := order;
                   formItems :=
                     (λ item, {| name := SupplierOrderItem.name item;
                                 unit := SupplierOrderItem.unit item;
                                 orderedQuantity := SupplierOrderItem.quantity item;
                                 receivedQuantity := SupplierOrderItem.quantity item |})
                       <$> SupplierOrder.items (Firestore.fields order) |})
      | None => (db, Completed, None)
      end
  | _ =>
      match Firestore.updateDoc orderId (statusPatch newStatus) (db_supplier_orders db) with
      | Some orders' => (with_supplier_orders orders' db, Completed, None)
      | None => (db, Failed, None)
      end
  end.

End Proveedores.

(** ** Delivery orders: the page of [PedidosPage] *)
Module Pedidos.

(** An order document carries the [PED-...] id among its fields. *)
Definition storedOrderId (o : Order.t) : option string := Some (Order.id o).

(** The object [billableItem] handed to [addDoc]. *)
Definition billableItem (order : Firestore.Mapped Order.t) (now selectedCustomerId : string)
    (customer : Client) : BillableItem.t :=
  {| BillableItem.id := Some ("BO-" +:+ Firestore.id order);
     BillableItem.date := now;
     BillableItem.customerId := selectedCustomerId;
     BillableItem.customerName := Client.name (Firestore.fields customer);
     BillableItem.items := Order.items (Firestore.fields order);
     BillableItem.total := Order.total (Firestore.fields order);
     BillableItem.type := BillableItem.DeliveryOrder;
     BillableItem.invoiced := false;
     BillableItem.invoiceId := None |}.

(** [{ status: "Entregado", customerId: selectedCustomerId }] *)
Definition deliveredPatch (selectedCustomerId : string) (o : Order.t) : Order.t :=
  {| Order.id := Order.id o;
     Order.customerName := Order.customerName o;
     Order.deliveryAddress := Order.deliveryAddress o;
     Order.items := Order.items o;
     Order.total := Order.total o;
     Order.status := Order.Entregado;
     Order.createdAt := Order.createdAt o;
     Order.customerId := Some selectedCustomerId |}.

(** [handleAddToCustomerAccount] of the orders page: the billable item is
    added first, then the order is updated.  A customer that [find] does
    not return throws inside the [try]. *)
Definition handleAddToCustomerAccount (selectedCustomerId : option string)
    (orderForCtaCte : option (Firestore.Mapped Order.t)) (customers : list Client)
    (now autoId : string) (db : Db) : Db * Outcome :=
  match selectedCustomerId, orderForCtaCte with
  | Some cid, Some order =>
      if bool_decide (cid = ""%string) then (db, Aborted)
      else
        match Firestore.findById cid customers with
        | None => (db, Failed)
        | Some customer =>
            let db1 :=
              with_billable_items
                (Firestore.addDoc autoId (billableItem order now cid customer)
                   (db_billable_items db)) db in
            match Firestore.updateDoc (Firestore.id order) (deliveredPatch cid)
                    (db_orders db1) with
            | Some orders' => (with_orders orders' db1, Completed)
            | None => (db1, Failed)
            end
        end
  | _, _ => (db, Aborted)
  end.

End Pedidos.

(** * Amounts of money as binary64 numbers

    The functions of the cash drawer and of the invoicing page whose
    results depend on how sums of amounts with cents are rounded, on the
    numbers the program computes with: a JavaScript [number] is a binary64
    floating-point number, [+] and [-] round to nearest, ties to even. *)
Module Binary64.

Definition number := float.

Definition isNaN (x : number) : bool := negb (x =? x)%float.

(** [Number.isFinite(x)] *)
Definition isFinite (x : number) : bool :=
  match Prim2SF x with
  | S754_zero _ | S754_finite _ _ _ => true
  | _ => false
  end.

(** [x || 0] on a possibly undefined number: [0], [-0] and [NaN] are falsy. *)
Definition or0 (x : option number) : number :=
  match x with
  | Some x => if (x =? 0)%float || isNaN x then 0%float else x
  | None => 0%float
  end.

(** [xs.reduce((sum, x) => sum + f(x), 0)] *)
Definition reduce_sum {A : Type} (f : A → number) (xs : list A) : number :=
  foldl (λ sum x, (sum + f x)%float) 0%float xs.

(** ** The interfaces of caja/page.tsx *)

Module Sale.
Record t := {
  id : string;
  total : number;
  paymentMethod : PaymentMethod;
  timestamp : string }.
End Sale.

Module Expense.
Record t := {
  id : string;
  description : string;
  amount : number;
  timestamp : string }.
End Expense.

Module CountedTotals.
Record t := { Efectivo : number; Tarjeta : number; Transferencia : number }.
End CountedTotals.

Module CashSession.
Record t := {
  id : string;
  user : string;
  openingTime : string;
  initialAmount : number;
  sales : list Sale.t;
  expenses : list Expense.t;
  closingTime : option string;
  countedTotals : option CountedTotals.t;
  observations : option string }.
End CashSession.

(** ** Cash drawer: caja/page.tsx *)
Module Caja.

Record CloseBoxFormData := {
  countedEfectivo : number;
  countedTarjeta : number;
  countedTransferencia : number;
  observations : option string }.

(** The object [salesByMethod]: keys in order of first assignment. *)
Definition ByMethod := list (PaymentMethod * number).

Definition get (acc : ByMethod) (m : PaymentMethod) : option number :=
  snd <$> find (λ kv, bool_decide (fst kv = m)) acc.

Fixpoint set (acc : ByMethod) (m : PaymentMethod) (v : number) : ByMethod :=
  match acc with
  | [] => [(m, v)]
  | (k, w) :: rest =>
      if bool_decide (k = m) then (k, v) :: rest else (k, w) :: set rest m v
  end.

(** [session.sales.reduce((acc, sale) => { acc[sale.paymentMethod] =
    (acc[sale.paymentMethod] || 0) + sale.total; return acc; }, {})] *)
Definition salesByMethod (ss : list Sale.t) : ByMethod :=
  foldl (λ acc sale,
           set acc (Sale.paymentMethod sale)
               (or0 (get acc (Sale.paymentMethod sale)) + Sale.total sale)%float)
        [] ss.

Record ExpectedTotals := {
  exp_Efectivo : number;
  exp_Tarjeta : number;
  exp_Transferencia : number;
  exp_CuentaCorriente : number;
  exp_Total : number;
  exp_Gastos : number }.

Definition expectedTotals (session : option CashSession.t) : ExpectedTotals :=
  match session with
  | None => Build_ExpectedTotals 0%float 0%float 0%float 0%float 0%float 0%float
  | Some s =>
      let byMethod := salesByMethod (CashSession.sales s) in
      let totalExpenses := reduce_sum Expense.amount (CashSession.expenses s) in
      {| exp_Efectivo := or0 (get byMethod Efectivo);
         exp_Tarjeta := or0 (get byMethod Tarjeta);
         exp_Transferencia := or0 (get byMethod Transferencia);
         exp_CuentaCorriente := or0 (get byMethod CuentaCorriente);
         exp_Total := reduce_sum snd byMethod;
         exp_Gastos := totalExpenses |}
  end.

(** [session.initialAmount + expectedTotals.Efectivo - expectedTotals.Gastos] *)
Definition expectedCashInBox (s : CashSession.t) : number :=
  (CashSession.initialAmount s
   + exp_Efectivo (expectedTotals (Some s))
   - exp_Gastos (expectedTotals (Some s)))%float.

Record Differences := {
  diff_Efectivo : number;
  diff_Tarjeta : number;
  diff_Transferencia : number }.

(** The memoised [differences] of the closing dialog; [counted] is
    [closeForm.getValues()]. *)
Definition differences (session : option CashSession.t) (counted : CloseBoxFormData) : Differences :=
  match session with
  | None => Build_Differences 0%float 0%float 0%float
  | Some s =>
      let expected := expectedTotals (Some s) in
      {| diff_Efectivo := (countedEfectivo counted - expectedCashInBox s)%float;
         diff_Tarjeta := (countedTarjeta counted - exp_Tarjeta expected)%float;
         diff_Transferencia :=
           (countedTransferencia counted - exp_Transferencia expected)%float |}
  end.

End Caja.

(** ** The interfaces of the invoicing page *)

Module Payment.
Record t := {
  id : string;
  date : string;
  amount : number;
  method : Payment.Method }.
End Payment.

Module InvoiceItem.
Record t := {
  description : string;
  quantity : Z;
  price : number;
  total : number }.
End InvoiceItem.

Module Invoice.
Record t := {
  type : Invoice.Kind;
  sequentialId : string;
  customerId : string;
  customerName : string;
  date : string;
  dueDate : string;
  items : list InvoiceItem.t;
  total : number;
  status : Invoice.Status;
  payments : list Payment.t;
  sourceSaleIds : list string }.
End Invoice.

(** ** Invoicing: the payment dialog of [FacturacionPage] *)
Module Facturacion.

Record RegisterPaymentData := {
  amount : number;
  date : string;
  method : Payment.Method }.

(** [{ payments: updatedPayments, status: newStatus }] *)
Definition paymentPatch (updatedPayments : list Payment.t) (newStatus : Invoice.Status)
    (d : Invoice.t) : Invoice.t :=
  {| Invoice.type := Invoice.type d;
     Invoice.sequentialId := Invoice.sequentialId d;
     Invoice.customerId := Invoice.customerId d;
     Invoice.customerName := Invoice.customerName d;
     Invoice.date := Invoice.date d;
     Invoice.dueDate := Invoice.dueDate d;
     Invoice.items := Invoice.items d;
     Invoice.total := Invoice.total d;
     Invoice.status := newStatus;
     Invoice.payments := updatedPayments;
     Invoice.sourceSaleIds := Invoice.sourceSaleIds d |}.

(** [invoices] is the page's snapshot and [db] the [invoices] collection,
    the only one the handler writes to; [paymentId] is [PAY-] followed by
    the clock.  [totalPaid >= invoiceToUpdate.total] compares two
    numbers. *)
Definition handleRegisterPayment (actionDialog : option Facturacion.ActionDialog)
    (data : RegisterPaymentData) (paymentId : string)
    (invoices : list (Firestore.Mapped Invoice.t))
    (db : gmap string Invoice.t) : gmap string Invoice.t * Outcome :=
  match actionDialog with
  | Some (Facturacion.DialogPayment invoiceId) =>
      match Firestore.findById invoiceId invoices with
      | None => (db, Aborted)
      | Some invoiceToUpdate =>
          let newPayment :=
            {| Payment.id := paymentId; Payment.amount := amount data;
               Payment.date := date data; Payment.method := method data |} in
          let updatedPayments :=
            Invoice.payments (Firestore.fields invoiceToUpdate) ++ [newPayment] in
          let totalPaid := reduce_sum Payment.amount updatedPayments in
          let newStatus :=
            if (Invoice.total (Firestore.fields invoiceToUpdate) <=? totalPaid)%float
            then Invoice.Pagada
            else Invoice.status (Firestore.fields invoiceToUpdate) in
          match Firestore.updateDoc invoiceId (paymentPatch updatedPayments newStatus) db with
          | Some invoices' => (invoices', Completed)
          | None => (db, Failed)
          end
      end
  | _ => (db, Aborted)
  end.

End Facturacion.

End Binary64.

(** * The specification's formulas, and scenarios

    The definitions of this part do not come from the handlers: they say
    in the specification's words what the handlers are compared with, or
    fix the concrete data of a scenario. *)

(** Specification: the sum of the totals of the sales paid with one
    method (the history table computes it the same way: filter, then
    sum). *)
Definition methodTotal (m : PaymentMethod) (ss : list Sale.t) : Z :=
  reduce_sum Sale.total (filter (λ s, Sale.paymentMethod s = m) ss).

(** A drawer opened with a float of 100 and nothing sold or spent. *)
Definition float_only_session : CashSession :=
  Firestore.mkMapped "s1"
    {| CashSession.id := None; CashSession.user := "ana";
       CashSession.openingTime := "t0";
       CashSession.initialAmount := 100;
       CashSession.sales := []; CashSession.expenses := [];
       CashSession.closingTime := None; CashSession.countedTotals := None;
       CashSession.observations := None |}.

(** Scenario A: a session opened with 100 that holds one cash sale of 50
    and one expense of 20, as the page shows it, and the store that holds
    its document. *)
Definition scenarioA_sale : Sale.t :=
  {| Sale.id := "VTA-1"; Sale.total := 50; Sale.paymentMethod := Efectivo;
     Sale.timestamp := "t1"; Sale.items := [] |}.

Definition scenarioA_expense : Expense.t :=
  {| Expense.id := "EXP-1"; Expense.description := "flete";
     Expense.amount := 20; Expense.timestamp := "t2" |}.

Definition scenarioA_session : CashSession :=
  Firestore.mkMapped "s1"
    {| CashSession.id := None; CashSession.user := "ana";
       CashSession.openingTime := "t0";
       CashSession.initialAmount := 100;
       CashSession.sales := [scenarioA_sale];
       CashSession.expenses := [scenarioA_expense];
       CashSession.closingTime := None; CashSession.countedTotals := None;
       CashSession.observations := None |}.

Definition scenarioA_db : Db :=
  with_caja_sessions (<["s1" := Firestore.fields scenarioA_session]> ∅) emptyDb.

(** The closing form as the dialog submits it: 130 counted in cash, the
    observations left at the empty string the dialog presets. *)
Definition scenarioA_counted : Caja.CloseBoxFormData :=
  {| Caja.countedEfectivo := 130; Caja.countedTarjeta := 0;
     Caja.countedTransferencia := 0; Caja.observations := Some ""%string |}.

(** Specification: the stock of a combo component's product, if the
    catalog has the product. *)
Definition componentStock (products : list Product) (cp : ComboProduct.t) : option Z :=
  (λ p, Product.stock (Firestore.fields p))
    <$> Firestore.findById (ComboProduct.productId cp) products.

(** Specification: [floor(stock / quantity)] for each component. *)
Definition floors (products : list Product) (components : list ComboProduct.t) : list Z :=
  (λ cp, or0 (componentStock products cp) / ComboProduct.quantity cp) <$> components.

(** Specification: [r] is the minimum of the numbers [xs]. *)
Definition isMinimumOf (r : Z) (xs : list Z) : Prop :=
  r ∈ xs ∧ ∀ x, x ∈ xs → r ≤ x.

(** Specification: a component the catalog cannot serve; the product is
    missing, or its stock is below the quantity the combo needs. *)
Definition shortComponent (products : list Product) (cp : ComboProduct.t) : Prop :=
  match componentStock products cp with
  | None => True
  | Some st => st < ComboProduct.quantity cp
  end.

(** A small catalog and two combos over it. *)
Definition soap : Product :=
  Firestore.mkMapped "p1"
    {| Product.name := "Jabon"; Product.code := "J1"; Product.stock := 7;
       Product.unit := "u"; Product.price := 50; Product.image := "";
       Product.dataAiHint := None |}.

Definition bleach : Product :=
  Firestore.mkMapped "p2"
    {| Product.name := "Lavandina"; Product.code := "L1"; Product.stock := 3;
       Product.unit := "u"; Product.price := 30; Product.image := "";
       Product.dataAiHint := None |}.

Definition cleaning_kit : Combo :=
  Firestore.mkMapped "c1"
    {| Combo.name := "Kit"; Combo.price := 100;
       Combo.products :=
         Some [ {| ComboProduct.productId := "p1"; ComboProduct.quantity := 2 |};
                {| ComboProduct.productId := "p2"; ComboProduct.quantity := 1 |} ];
       Combo.active := true |}.

Definition empty_kit : Combo :=
  Firestore.mkMapped "c2"
    {| Combo.name := "Vacio"; Combo.price := 10;
       Combo.products := Some []; Combo.active := true |}.

(** Specification: what one cart line takes out of the inventory.  A
    product line takes its quantity of the product; a combo line takes, of
    each component, the component quantity times the line quantity. *)
Definition lineDebits (line : Ventas.CartItem) : list (string * Z) :=
  match Ventas.item line with
  | Ventas.ProductItem p => [(Firestore.id p, Ventas.quantity line)]
  | Ventas.ComboItem c _ =>
      (λ cp, (ComboProduct.productId cp, ComboProduct.quantity cp * Ventas.quantity line))
        <$> default [] (Combo.products (Firestore.fields c))
  end.

(** The sum of the amounts listed for one product. *)
Definition amountFor (pid : string) (ds : list (string * Z)) : Z :=
  reduce_sum snd (filter (λ d, d.1 = pid) ds).

(** Specification: the units of product [pid] that a cart takes out of
    the inventory. *)
Definition debited (cart : list Ventas.CartItem) (pid : string) : Z :=
  amountFor pid (cart ≫= lineDebits).

(** A delivery for two units of soap and one cleaning kit. *)
Definition delivery_cart : list Ventas.CartItem :=
  [ {| Ventas.item := Ventas.ProductItem soap; Ventas.quantity := 2 |};
    {| Ventas.item := Ventas.ComboItem cleaning_kit 3; Ventas.quantity := 1 |} ].

Definition delivery_info : Ventas.DeliveryInfo :=
  {| Ventas.name := "Rosa"; Ventas.address := "Mitre 12"; Ventas.phone := "" |}.

Definition delivery_db : Db :=
  with_products
    (<["p1" := Firestore.fields soap]> (<["p2" := Firestore.fields bleach]> ∅))
    scenarioA_db.

(** The number a form field holds for an amount typed with two decimals,
    [c] being the amount in cents: [Number("240.30")] is the binary64
    number nearest to 24030 / 100. *)
Definition ofCents (c : Z) : Binary64.number :=
  (SF2Prim (binary_normalize prec emax c 0 false) / 100)%float.

(** An invoice that nothing has been paid on, and the [invoices]
    collection that holds it under [inv1]. *)
Definition unpaid_invoice (total : Binary64.number) : Binary64.Invoice.t :=
  {| Binary64.Invoice.type := Invoice.B;
     Binary64.Invoice.sequentialId := "00000001";
     Binary64.Invoice.customerId := "cust1";
     Binary64.Invoice.customerName := "Rosa";
     Binary64.Invoice.date := "2024-05-01";
     Binary64.Invoice.dueDate := "2024-05-31";
     Binary64.Invoice.items := [];
     Binary64.Invoice.total := total;
     Binary64.Invoice.status := Invoice.Pendiente;
     Binary64.Invoice.payments := [];
     Binary64.Invoice.sourceSaleIds := ["b1"; "b2"] |}.

Definition unpaid_invoice_db (total : Binary64.number) : gmap string Binary64.Invoice.t :=
  <["inv1" := unpaid_invoice total]> ∅.

(** One payment on [inv1], entered on the page's current snapshot of the
    collection. *)
Definition payInvoice1 (amount : Binary64.number) (paymentId : string)
    (db : gmap string Binary64.Invoice.t) : gmap string Binary64.Invoice.t :=
  (Binary64.Facturacion.handleRegisterPayment (Some (Facturacion.DialogPayment "inv1"))
     {| Binary64.Facturacion.amount := amount;
        Binary64.Facturacion.date := "2024-05-10";
        Binary64.Facturacion.method := Payment.Efectivo |}
     paymentId (Firestore.snapshot noStoredId db) db).1.

(** Scenario C: an invoice of 240, payments of 100 and of 140.  The same
    with cents: an invoice of 240.30, payments of 100.10 and of 140.20. *)
Definition scenarioC_db : gmap string Binary64.Invoice.t := unpaid_invoice_db 240%float.
Definition scenarioC_cents_db : gmap string Binary64.Invoice.t :=
  unpaid_invoice_db (ofCents 24030).

(** Specification, on binary64 numbers: the sum, from left to right, of
    the totals of the sales paid with one method. *)
Definition methodTotal64 (m : PaymentMethod) (ss : list Binary64.Sale.t) : Binary64.number :=
  Binary64.reduce_sum Binary64.Sale.total
    (filter (λ s, Binary64.Sale.paymentMethod s = m) ss).

(** A number that is not negative: [+0], a positive number or
    [+Infinity]; not [-0], not [NaN]. *)
Definition nonNegative (x : Binary64.number) : bool :=
  match Prim2SF x with
  | S754_zero false | S754_finite false _ _ | S754_infinity false => true
  | _ => false
  end.

(** The same on the specification of binary64 numbers. *)
Definition nonNegativeSF (x : spec_float) : Prop :=
  match x with
  | S754_zero false | S754_finite false _ _ | S754_infinity false => True
  | _ => False
  end.

(** A drawer opened with 100.50 that has taken 0.10 and 0.20 in cash and
    12.30 by card, and paid an expense of 20.25. *)
Definition cents_session : Binary64.CashSession.t :=
  {| Binary64.CashSession.id := "s1"; Binary64.CashSession.user := "ana";
     Binary64.CashSession.openingTime := "t0";
     Binary64.CashSession.initialAmount := ofCents 10050;
     Binary64.CashSession.sales :=
       [ {| Binary64.Sale.id := "VTA-1"; Binary64.Sale.total := ofCents 10;
            Binary64.Sale.paymentMethod := Efectivo; Binary64.Sale.timestamp := "t1" |};
         {| Binary64.Sale.id := "VTA-2"; Binary64.Sale.total := ofCents 1230;
            Binary64.Sale.paymentMethod := Tarjeta; Binary64.Sale.timestamp := "t2" |};
         {| Binary64.Sale.id := "VTA-3"; Binary64.Sale.total := ofCents 20;
            Binary64.Sale.paymentMethod := Efectivo; Binary64.Sale.timestamp := "t3" |} ];
     Binary64.CashSession.expenses :=
       [ {| Binary64.Expense.id := "EXP-1"; Binary64.Expense.description := "flete";
            Binary64.Expense.amount := ofCents 2025; Binary64.Expense.timestamp := "t4" |} ];
     Binary64.CashSession.closingTime := None;
     Binary64.CashSession.countedTotals := None;
     Binary64.CashSession.observations := None |}.

(** The closing form holding, for each method, the expected figure of the
    dialog for [cents_session]. *)
Definition cents_counted_as_expected : Binary64.Caja.CloseBoxFormData :=
  {| Binary64.Caja.countedEfectivo := Binary64.Caja.expectedCashInBox cents_session;
     Binary64.Caja.countedTarjeta :=
       Binary64.Caja.exp_Tarjeta (Binary64.Caja.expectedTotals (Some cents_session));
     Binary64.Caja.countedTransferencia :=
       Binary64.Caja.exp_Transferencia (Binary64.Caja.expectedTotals (Some cents_session));
     Binary64.Caja.observations := Some ""%string |}.

(** An on-account sale of 150 left by the point of sale for customer
    Rosa: the document gets the id the SDK generates, and carries the
    [BS-...] id among its fields. *)
Definition rosa : Client :=
  Firestore.mkMapped "cust1"
    {| Client.name := "Rosa"; Client.type := Client.ConsumidorFinal |}.

Definition pos_billable_db : Db :=
  with_billable_items
    (Firestore.addDoc "Jx3kQ9"
       (Ventas.billableSale "1700000000000" "2024-05-01T10:00:00Z" "cust1" rosa [] 150)
       ∅)
    emptyDb.

Definition pos_invoice_request : Facturacion.GenerateInvoiceData :=
  {| Facturacion.customerId := "cust1";
     Facturacion.invoiceType := Invoice.B;
     Facturacion.issueDate := "2024-05-02";
     Facturacion.dueDate := "2024-06-01";
     Facturacion.selectedSales := ["BS-1700000000000"] |}.

(** Specification: the three sums of the consigned stock of product
    [pid]. *)
Definition assignedTotal (s : Seller.t) (pid : string) : Z :=
  reduce_sum AssignedProduct.quantity
    (filter (λ a, AssignedProduct.productId a = pid) (Seller.assignedStock s)).

Definition soldTotal (s : Seller.t) (pid : string) : Z :=
  reduce_sum SellerSaleItem.quantity
    (filter (λ i, SellerSaleItem.productId i = pid) (Seller.sales s ≫= SellerSale.items)).

Definition returnedTotal (s : Seller.t) (pid : string) : Z :=
  reduce_sum SellerReturn.quantity
    (filter (λ r, SellerReturn.productId r = pid) (Seller.returns s)).

(** Specification: [Σ assignedStock.quantity − Σ sales.items.quantity −
    Σ returns.quantity]. *)
Definition consigned (s : Seller.t) (pid : string) : Z :=
  assignedTotal s pid - soldTotal s pid - returnedTotal s pid.

(** The product has an entry in the seller's [assignedStock]. *)
Definition isAssigned (s : Seller.t) (pid : string) : Prop :=
  Exists (λ a, AssignedProduct.productId a = pid) (Seller.assignedStock s).

#[global] Instance isAssigned_dec (s : Seller.t) (pid : string) : Decision (isAssigned s pid).
Proof. unfold isAssigned. apply _. Defined.

(** The quantity a stock map holds under a key. *)
Definition heldQty (m : Vendedores.StockMap) (pid : string) : option Z :=
  Vendedores.StockData.quantity <$> Vendedores.get m pid.

(** The entry of product [pid] in a computed seller stock. *)
Definition stockEntry (pid : string) (stock : list Vendedores.SellerStock.t) : option Vendedores.SellerStock.t :=
  find (λ p, bool_decide (Vendedores.SellerStock.productId p = pid)) stock.

(** The product and the seller of the specification's example: ten units
    of [P] assigned, three sold, one returned. *)
Definition productP : Product :=
  Firestore.mkMapped "P"
    {| Product.name := "Detergente"; Product.code := "D1"; Product.stock := 40;
       Product.unit := "u"; Product.price := 25; Product.image := "";
       Product.dataAiHint := None |}.

Definition example_seller : Seller :=
  Firestore.mkMapped "v1"
    {| Seller.name := "Luis"; Seller.address := None; Seller.phone := None;
       Seller.assignedStock :=
         [ {| AssignedProduct.productId := "P"; AssignedProduct.name := "Detergente";
              AssignedProduct.quantity := 10 |} ];
       Seller.sales :=
         [ {| SellerSale.id := "SELLSALE-1";
              SellerSale.items :=
                [ {| SellerSaleItem.productId := "P"; SellerSaleItem.quantity := 3;
                     SellerSaleItem.price := 25; SellerSaleItem.originalPrice := 25;
                     SellerSaleItem.discountPercentage := 0 |} ];
              SellerSale.total := 75; SellerSale.timestamp := "t1" |} ];
       Seller.returns :=
         [ {| SellerReturn.id := "RET-1"; SellerReturn.productId := "P";
              SellerReturn.quantity := 1; SellerReturn.reason := SellerReturn.NoVendido;
              SellerReturn.timestamp := "t2" |} ];
       Seller.balance := 150 |}.

(** A seller holding ten units of a product that has since been deleted
    from the catalog. *)
Definition seller_of_deleted_product : Seller :=
  Firestore.mkMapped "v2"
    {| Seller.name := "Marta"; Seller.address := None; Seller.phone := None;
       Seller.assignedStock :=
         [ {| AssignedProduct.productId := "P"; AssignedProduct.name := "Detergente";
              AssignedProduct.quantity := 10 |} ];
       Seller.sales := []; Seller.returns := []; Seller.balance := 0 |}.

(** The example seller in the store, and a return of two units. *)
Definition sellers_db : Db :=
  with_sellers (<["v1" := Firestore.fields example_seller]> ∅)
    (with_products (<["P" := Firestore.fields productP]> ∅) emptyDb).

Definition return_two (reason : SellerReturn.Reason) : Vendedores.ReturnData :=
  {| Vendedores.productId := "P"; Vendedores.quantity := 2;
     Vendedores.reason := reason |}.

(** A confirmed order for ten bottles and five caps, of which ten bottles
    and three caps arrive. *)
Definition bottles_order : SupplierOrder :=
  Firestore.mkMapped "so1"
    {| SupplierOrder.sequentialId := "000001";
       SupplierOrder.supplierId := "sup1";
       SupplierOrder.supplierName := "Envases SA";
       SupplierOrder.orderDate := "2024-05-01";
       SupplierOrder.items :=
         [ {| SupplierOrderItem.name := "Botella"; SupplierOrderItem.quantity := 10;
              SupplierOrderItem.unit := "u"; SupplierOrderItem.price := 4 |};
           {| SupplierOrderItem.name := "Tapa"; SupplierOrderItem.quantity := 5;
              SupplierOrderItem.unit := "u"; SupplierOrderItem.price := 1 |} ];
       SupplierOrder.total := 45;
       SupplierOrder.observations := None;
       SupplierOrder.status := SupplierOrder.EnTransito;
       SupplierOrder.receivedDate := None;
       SupplierOrder.receivedItems := None |}.

Definition bottles_received : list Proveedores.ReceiveOrderItem :=
  [ {| Proveedores.name := "Botella"; Proveedores.unit := "u";
       Proveedores.orderedQuantity := 10; Proveedores.receivedQuantity := 10 |};
    {| Proveedores.name := "Tapa"; Proveedores.unit := "u";
       Proveedores.orderedQuantity := 5; Proveedores.receivedQuantity := 3 |} ].

(** The stock already holds a row named like one of the received lines. *)
Definition bottles_db : Db :=
  with_supplier_orders (<["so1" := Firestore.fields bottles_order]> ∅)
    (with_general_stock
       (<["g0" := {| GeneralStockItem.name := "Botella"; GeneralStockItem.quantity := 7;
                     GeneralStockItem.unit := "u"; GeneralStockItem.supplier := None;
                     GeneralStockItem.entryDate := "2024-04-01";
                     GeneralStockItem.notes := None;
                     GeneralStockItem.category := GeneralStockItem.Envase |}]> ∅)
       emptyDb).

Definition bottles_ids (n : nat) : string := "g" +:+ pretty (S n).

(** * Further reference definitions *)

(** The record that [handleCloseBox] writes to the history, as the history
    page maps it back. *)
Definition closedSession (s : CashSession) (now : string) (counted : Caja.CloseBoxFormData) : CashSession :=
  Firestore.mkMapped (Firestore.id s)
    {| CashSession.id := Some (Firestore.id s);
       CashSession.user := CashSession.user (Firestore.fields s);
       CashSession.openingTime := CashSession.openingTime (Firestore.fields s);
       CashSession.initialAmount := CashSession.initialAmount (Firestore.fields s);
       CashSession.sales := CashSession.sales (Firestore.fields s);
       CashSession.expenses := CashSession.expenses (Firestore.fields s);
       CashSession.closingTime := Some now;
       CashSession.countedTotals :=
         Some {| CountedTotals.Efectivo := Caja.countedEfectivo counted;
                 CountedTotals.Tarjeta := Caja.countedTarjeta counted;
                 CountedTotals.Transferencia := Caja.countedTransferencia counted |};
       CashSession.observations := Caja.observations counted |}.

(** The session object with one more expense. *)
Definition withExpense (s : CashSession) (e : Expense.t) : CashSession :=
  Firestore.mkMapped (Firestore.id s)
    {| CashSession.id := CashSession.id (Firestore.fields s);
       CashSession.user := CashSession.user (Firestore.fields s);
       CashSession.openingTime := CashSession.openingTime (Firestore.fields s);
       CashSession.initialAmount := CashSession.initialAmount (Firestore.fields s);
       CashSession.sales := CashSession.sales (Firestore.fields s);
       CashSession.expenses := CashSession.expenses (Firestore.fields s) ++ [e];
       CashSession.closingTime := CashSession.closingTime (Firestore.fields s);
       CashSession.countedTotals := CashSession.countedTotals (Firestore.fields s);
       CashSession.observations := CashSession.observations (Firestore.fields s) |}.

(** The ids of the lines of a point-of-sale cart, and the quantity a cart
    holds of one saleable item. *)
Definition cartIds (cart : list Ventas.CartItem) : list string :=
  (λ line, Ventas.saleableId (Ventas.item line)) <$> cart.

Definition cartQuantity (itemId : string) (cart : list Ventas.CartItem) : Z :=
  reduce_sum Ventas.quantity
    (filter (λ line, Ventas.saleableId (Ventas.item line) = itemId) cart).

(** A catalog where the bleach has been deleted from the [products]
    collection while a cart still holds the cleaning kit. *)
Definition db_without_bleach : Db :=
  with_products (<["p1" := Firestore.fields soap]> ∅) emptyDb.

(** The catalog after two units of soap have left the shelf. *)
Definition soap_after_sale : Product :=
  Firestore.mkMapped "p1"
    {| Product.name := "Jabon"; Product.code := "J1"; Product.stock := 5;
       Product.unit := "u"; Product.price := 50; Product.image := "";
       Product.dataAiHint := None |}.

(** What is left to pay on an invoice, and the sum of it over the open
    (Pendiente or Vencida) invoices of one customer. *)
Definition outstanding (inv : Invoice) : Z :=
  Invoice.total (Firestore.fields inv)
  - reduce_sum Payment.amount (Invoice.payments (Firestore.fields inv)).

Definition openBalance (cid : string) (invoices : list Invoice) : Z :=
  reduce_sum outstanding
    (filter (λ inv, Invoice.customerId (Firestore.fields inv) = cid
                    ∧ Facturacion.isOpen (Invoice.status (Firestore.fields inv)) = true)
       invoices).

(** The store right after the drawer has been opened with 100: it holds
    the document of [float_only_session] and nothing else. *)
Definition opened_db : Db :=
  (Caja.handleOpenBox (Some "ana"%string) "t0" "s1" 100 emptyDb).1.

(** The closing form with 100 counted in cash and the observations left
    as the dialog presets them, and the same form with no observations
    field at all. *)
Definition counted_100 : Caja.CloseBoxFormData :=
  {| Caja.countedEfectivo := 100; Caja.countedTarjeta := 0;
     Caja.countedTransferencia := 0; Caja.observations := Some ""%string |}.

Definition counted_100_undefined : Caja.CloseBoxFormData :=
  {| Caja.countedEfectivo := 100; Caja.countedTarjeta := 0;
     Caja.countedTransferencia := 0; Caja.observations := None |}.

(** Two invoices of one customer, as the page shows them: one of 240 with
    100 paid, still Pendiente, and one of 90, paid. *)
Definition invoice_of (docId : string) (total : Z) (paid : list Z)
    (status : Invoice.Status) : Invoice :=
  Firestore.mkMapped docId
    {| Invoice.type := Invoice.B;
       Invoice.sequentialId := "00000001";
       Invoice.customerId := "cust1";
       Invoice.customerName := "Rosa";
       Invoice.date := "2024-05-01";
       Invoice.dueDate := "2024-05-31";
       Invoice.items := [];
       Invoice.total := total;
       Invoice.status := status;
       Invoice.payments :=
         (λ a, {| Payment.id := "PAY-1"; Payment.date := "2024-05-10";
                  Payment.amount := a; Payment.method := Payment.Efectivo |}) <$> paid;
       Invoice.sourceSaleIds := [] |}.

Definition rosa_invoices : list Invoice :=
  [ invoice_of "inv1" 240 [100] Invoice.Pendiente;
    invoice_of "inv2" 90 [90] Invoice.Pagada ].

(** What an assignment cart takes from the warehouse, and what a sale
    cart takes from a seller: product id and quantity of each line. *)
Definition assignmentDebits (cart : list Vendedores.AssignmentCartItem.t) : list (string * Z) :=
  (λ c, (Firestore.id (Vendedores.AssignmentCartItem.item c),
         Vendedores.AssignmentCartItem.quantity c)) <$> cart.

Definition saleDebits (cart : list Vendedores.SaleCartItem.t) : list (string * Z) :=
  (λ c, (Vendedores.SellerStock.productId (Vendedores.SaleCartItem.item c),
         Vendedores.SaleCartItem.quantity c)) <$> cart.

(** Four units of the example product for the example seller. *)
Definition four_of_P : list Vendedores.AssignmentCartItem.t :=
  [ {| Vendedores.AssignmentCartItem.item := productP;
       Vendedores.AssignmentCartItem.quantity := 4 |} ].

(** Two units of the example seller's stock of [P], sold by the seller. *)
Definition two_of_P_sold : list Vendedores.SaleCartItem.t :=
  [ {| Vendedores.SaleCartItem.item :=
         {| Vendedores.SellerStock.productId := "P";
            Vendedores.SellerStock.name := "Detergente";
            Vendedores.SellerStock.quantity := 6;
            Vendedores.SellerStock.price := 25;
            Vendedores.SellerStock.image := "";
            Vendedores.SellerStock.dataAiHint := None |};
       Vendedores.SaleCartItem.quantity := 2 |} ].

(** No discount: [price * (1 - 0 / 100)]. *)
Definition no_discount (price pct : Z) : Z := price.

(** The stock database of the example seller with the product document
    deleted, while the page still lists the product. *)
Definition sellers_db_without_P : Db :=
  with_sellers (<["v1" := Firestore.fields example_seller]> ∅) emptyDb.

(** The store after the point of sale has created the delivery order. *)
Definition delivery_order_db : Db :=
  (Ventas.handleCreateOrder delivery_info delivery_cart [] 200 "PED-000001" "t4" "o1"
     delivery_db).1.

(** * Properties *)

(** ** Sums *)

Lemma foldl_sum_shift {A : Type} (f : A → Z) (xs : list A) (a : Z) :
  foldl (λ sum x, sum + f x) a xs = a + reduce_sum f xs.
Proof.
  unfold reduce_sum. revert a.
  induction xs as [|x xs IH]; intros a; simpl; [lia|].
  rewrite (IH (a + f x)), (IH (0 + f x)). lia.
Qed.

Lemma reduce_sum_nil {A : Type} (f : A → Z) : reduce_sum f [] = 0.
Proof. reflexivity. Qed.

Lemma reduce_sum_cons {A : Type} (f : A → Z) (x : A) (xs : list A) :
  reduce_sum f (x :: xs) = f x + reduce_sum f xs.
Proof. unfold reduce_sum at 1. simpl. rewrite foldl_sum_shift. lia. Qed.

Lemma reduce_sum_app {A : Type} (f : A → Z) (xs ys : list A) :
  reduce_sum f (xs ++ ys) = reduce_sum f xs + reduce_sum f ys.
Proof.
  induction xs as [|x xs IH]; simpl.
  - rewrite reduce_sum_nil. lia.
  - rewrite !reduce_sum_cons, IH. lia.
Qed.

(** ** Cash drawer *)

Lemma Caja_get_set (acc : Caja.ByMethod) (m m' : PaymentMethod) (v : Z) :
  Caja.get (Caja.set acc m v) m' = if decide (m = m') then Some v else Caja.get acc m'.
Proof.
  unfold Caja.get.
  induction acc as [|[k w] rest IH]; simpl.
  - destruct (decide (m = m')) as [->|Hne].
    + rewrite bool_decide_eq_true_2 by done. reflexivity.
    + rewrite bool_decide_eq_false_2 by done. reflexivity.
  - destruct (decide (k = m)) as [->|Hkm].
    + rewrite bool_decide_eq_true_2 by done. simpl.
      destruct (decide (m = m')) as [->|Hne].
      * rewrite bool_decide_eq_true_2 by done. reflexivity.
      * rewrite !bool_decide_eq_false_2 by done. reflexivity.
    + rewrite bool_decide_eq_false_2 by done. simpl.
      destruct (decide (k = m')) as [->|Hkm'].
      * rewrite bool_decide_eq_true_2 by done.
        destruct (decide (m = m')); [congruence | reflexivity].
      * rewrite bool_decide_eq_false_2 by done. apply IH.
Qed.

(** The reducer groups by payment method: what it leaves under a key is
    what was there plus the totals of the sales paid that way. *)
Lemma salesByMethod_fold (ss : list Sale.t) (acc : Caja.ByMethod) (m : PaymentMethod) :
  or0 (Caja.get
         (foldl (λ acc sale,
                   Caja.set acc (Sale.paymentMethod sale)
                     (or0 (Caja.get acc (Sale.paymentMethod sale)) + Sale.total sale))
                acc ss) m)
  = or0 (Caja.get acc m) + methodTotal m ss.
Proof.
  unfold methodTotal. revert acc.
  induction ss as [|s ss IH]; intros acc; simpl.
  - rewrite filter_nil, reduce_sum_nil. lia.
  - rewrite IH, Caja_get_set, filter_cons.
    destruct (decide (Sale.paymentMethod s = m)) as [Hm|Hm].
    + rewrite reduce_sum_cons, Hm. simpl. lia.
    + reflexivity.
Qed.

Lemma salesByMethod_total (ss : list Sale.t) (m : PaymentMethod) :
  or0 (Caja.get (Caja.salesByMethod ss) m) = methodTotal m ss.
Proof. unfold Caja.salesByMethod. rewrite salesByMethod_fold. reflexivity. Qed.

Lemma expectedCashInBox_eq (s : CashSession) :
  Caja.expectedCashInBox s
  = CashSession.initialAmount (Firestore.fields s)
    + methodTotal Efectivo (CashSession.sales (Firestore.fields s))
    - reduce_sum Expense.amount (CashSession.expenses (Firestore.fields s)).
Proof.
  unfold Caja.expectedCashInBox. simpl. rewrite salesByMethod_total. reflexivity.
Qed.

(** C1, as stated, fails: counting exactly the per-method sales sums (all
    three are 0 here) leaves an Efectivo difference of -100, because the
    Efectivo difference is taken against the expected cash in the drawer,
    which includes the opening float. *)
Lemma close_with_sales_sums_not_balanced :
  let s := float_only_session in
  let ss := CashSession.sales (Firestore.fields s) in
  let counted :=
    {| Caja.countedEfectivo := methodTotal Efectivo ss;
       Caja.countedTarjeta := methodTotal Tarjeta ss;
       Caja.countedTransferencia := methodTotal Transferencia ss;
       Caja.observations := None |} in
  Caja.countedEfectivo counted = Caja.exp_Efectivo (Caja.expectedTotals (Some s))
  ∧ Caja.countedTarjeta counted = Caja.exp_Tarjeta (Caja.expectedTotals (Some s))
  ∧ Caja.countedTransferencia counted
    = Caja.exp_Transferencia (Caja.expectedTotals (Some s))
  ∧ Caja.diff_Efectivo (Caja.differences (Some s) counted) = -100
  ∧ Caja.differences (Some s) counted ≠ Caja.Build_Differences 0 0 0.
Proof. vm_compute. repeat split; discriminate. Qed.

(** *** Binary64 numbers *)

(** A finite number minus itself is [+0]. *)
Lemma sub_diag_finite (x : Binary64.number) :
  Binary64.isFinite x = true → (x - x)%float = 0%float.
Proof.
  intros H. rewrite <- (SF2Prim_Prim2SF (x - x)), sub_spec.
  unfold Binary64.isFinite in H.
  destruct (Prim2SF x) as [s|s| |s m e]; try discriminate.
  - destruct s; reflexivity.
  - unfold SF64sub, SFsub. rewrite Z.sub_diag. reflexivity.
Qed.

Lemma shr_1_nonneg (mrs : shr_record) : 0 ≤ shr_m mrs → 0 ≤ shr_m (shr_1 mrs).
Proof.
  destruct mrs as [m r s]. simpl. intros H.
  destruct m as [|p|p]; [simpl; lia | destruct p; simpl; lia | lia].
Qed.

Lemma iter_shr_1_nonneg (p : positive) (mrs : shr_record) :
  0 ≤ shr_m mrs → 0 ≤ shr_m (iter_pos shr_1 p mrs).
Proof.
  revert mrs. induction p as [p IH|p IH|]; intros mrs H; simpl.
  - apply IH, IH, shr_1_nonneg, H.
  - apply IH, IH, H.
  - apply shr_1_nonneg, H.
Qed.

Lemma shr_fexp_nonneg (m e : Z) (l : location) :
  0 ≤ m → 0 ≤ shr_m (shr_fexp prec emax m e l).1.
Proof.
  intros H. unfold shr_fexp, shr.
  assert (H0 : 0 ≤ shr_m (shr_record_of_loc m l)).
  { destruct l as [|[]]; exact H. }
  destruct (_ - e); simpl; [exact H0 | apply iter_shr_1_nonneg, H0 | exact H0].
Qed.

Lemma round_nearest_even_nonneg (m : Z) (l : location) :
  0 ≤ m → 0 ≤ round_nearest_even m l.
Proof.
  intros H. destruct l as [|[]]; simpl; try lia. destruct (Z.even m); lia.
Qed.

(** Rounding a magnitude with the sign bit clear gives [+0], a positive
    number or [+Infinity]. *)
Lemma binary_round_aux_nonNegative (m e : Z) (l : location) :
  0 ≤ m → nonNegativeSF (binary_round_aux prec emax false m e l).
Proof.
  intros H. unfold binary_round_aux.
  pose proof (shr_fexp_nonneg m e l H) as H1.
  destruct (shr_fexp prec emax m e l) as [mrs' e']. simpl in H1.
  pose proof (shr_fexp_nonneg _ e' loc_Exact
                (round_nearest_even_nonneg _ (loc_of_shr_record mrs') H1)) as H2.
  destruct (shr_fexp prec emax _ e' loc_Exact) as [mrs'' e'']. simpl in H2.
  destruct (shr_m mrs'') as [|p|p]; [exact I | | lia].
  destruct (e'' <=? emax - prec); exact I.
Qed.

Lemma binary_round_nonNegative (m : positive) (e : Z) :
  nonNegativeSF (binary_round prec emax false m e).
Proof.
  unfold binary_round. destruct (shl_align _ _ _) as [mz ez].
  apply binary_round_aux_nonNegative. lia.
Qed.

Lemma SF64add_nonNegative (x y : spec_float) :
  nonNegativeSF x → nonNegativeSF y → nonNegativeSF (SF64add x y).
Proof.
  intros Hx Hy.
  destruct x as [[]|[]| |[] mx ex]; try contradiction;
    destruct y as [[]|[]| |[] my ey]; try contradiction; try exact I.
  unfold SF64add, SFadd, binary_normalize, cond_Zopp.
  destruct (_ + _) as [|p|p] eqn:Hs; [exact I | apply binary_round_nonNegative | lia].
Qed.

(** The sum of two numbers that are not negative is not negative: it is
    not [NaN] and not [-0]. *)
Lemma add_nonNegative (x y : Binary64.number) :
  nonNegative x = true → nonNegative y = true → nonNegative (x + y)%float = true.
Proof.
  unfold nonNegative. rewrite add_spec. intros Hx Hy.
  assert (Hn : nonNegativeSF (SF64add (Prim2SF x) (Prim2SF y))).
  { apply SF64add_nonNegative.
    - destruct (Prim2SF x) as [[]|[]| |[] ? ?]; try discriminate; exact I.
    - destruct (Prim2SF y) as [[]|[]| |[] ? ?]; try discriminate; exact I. }
  destruct (SF64add _ _) as [[]|[]| |[] ? ?]; try destruct Hn; reflexivity.
Qed.

(** [x || 0] is [x] for a number that is not negative. *)
Lemma or0_nonNegative (x : Binary64.number) :
  nonNegative x = true → Binary64.or0 (Some x) = x.
Proof.
  unfold nonNegative, Binary64.or0, Binary64.isNaN. rewrite !eqb_spec.
  change (Prim2SF 0) with (S754_zero false).
  intros H. destruct (Prim2SF x) as [[]|[]| |[] m e] eqn:Hx; try discriminate; simpl.
  - rewrite <- (SF2Prim_Prim2SF x), Hx. reflexivity.
  - reflexivity.
  - unfold SFeqb, SFcompare. rewrite Z.compare_refl, Pos.compare_cont_refl. reflexivity.
Qed.

Lemma foldl_add_nonNegative {A : Type} (f : A → Binary64.number) (xs : list A)
    (a : Binary64.number) :
  nonNegative a = true → Forall (λ x, nonNegative (f x) = true) xs →
  nonNegative (foldl (λ sum x, (sum + f x)%float) a xs) = true.
Proof.
  revert a. induction xs as [|x xs IH]; intros a Ha Hxs; simpl; [exact Ha|].
  apply Forall_cons in Hxs as [Hx Hxs]. apply IH; [|exact Hxs].
  apply add_nonNegative; assumption.
Qed.

Lemma methodTotal64_nonNegative (m : PaymentMethod) (ss : list Binary64.Sale.t) :
  Forall (λ s, nonNegative (Binary64.Sale.total s) = true) ss →
  nonNegative (methodTotal64 m ss) = true.
Proof.
  intros Hnn. apply foldl_add_nonNegative; [reflexivity|].
  apply Forall_forall. intros x Hx. apply list_elem_of_filter in Hx as [_ Hx].
  rewrite Forall_forall in Hnn. apply Hnn, Hx.
Qed.

(** *** The expected totals on binary64 numbers *)

Lemma Caja64_get_set (acc : Binary64.Caja.ByMethod) (m m' : PaymentMethod)
    (v : Binary64.number) :
  Binary64.Caja.get (Binary64.Caja.set acc m v) m'
  = if decide (m = m') then Some v else Binary64.Caja.get acc m'.
Proof.
  unfold Binary64.Caja.get.
  induction acc as [|[k w] rest IH]; simpl.
  - destruct (decide (m = m')) as [->|Hne].
    + rewrite bool_decide_eq_true_2 by done. reflexivity.
    + rewrite bool_decide_eq_false_2 by done. reflexivity.
  - destruct (decide (k = m)) as [->|Hkm].
    + rewrite bool_decide_eq_true_2 by done. simpl.
      destruct (decide (m = m')) as [->|Hne].
      * rewrite bool_decide_eq_true_2 by done. reflexivity.
      * rewrite !bool_decide_eq_false_2 by done. reflexivity.
    + rewrite bool_decide_eq_false_2 by done. simpl.
      destruct (decide (k = m')) as [->|Hkm'].
      * rewrite bool_decide_eq_true_2 by done.
        destruct (decide (m = m')); [congruence | reflexivity].
      * rewrite bool_decide_eq_false_2 by done. apply IH.
Qed.

(** The reducer keeps, under each method, nothing as long as no sale was
    paid that way, and then the running sum of the sales paid that way. *)
Lemma salesByMethod64_running (ss : list Binary64.Sale.t) (m : PaymentMethod) :
  Forall (λ s, nonNegative (Binary64.Sale.total s) = true) ss →
  Binary64.Caja.get (Binary64.Caja.salesByMethod ss) m
  = if decide (filter (λ s, Binary64.Sale.paymentMethod s = m) ss = [])
    then None else Some (methodTotal64 m ss).
Proof.
  induction ss as [|s ss IH] using rev_ind; intros Hnn; [reflexivity|].
  apply Forall_app in Hnn as [Hnn Hs]. apply Forall_singleton in Hs.
  specialize (IH Hnn). pose proof (methodTotal64_nonNegative m ss Hnn) as Hsum.
  unfold Binary64.Caja.salesByMethod, methodTotal64, Binary64.reduce_sum in *.
  rewrite foldl_app. simpl. rewrite Caja64_get_set, filter_app, filter_cons, filter_nil.
  destruct (decide (Binary64.Sale.paymentMethod s = m)) as [Hm|Hm].
  - rewrite Hm, IH. rewrite foldl_app. simpl.
    destruct (decide (filter (λ s0, Binary64.Sale.paymentMethod s0 = m) ss ++ [s] = []))
      as [H|_]; [apply app_eq_nil in H as [_ H]; discriminate|].
    f_equal. f_equal.
    destruct (decide (filter _ ss = [])) as [->|_]; [reflexivity|].
    apply or0_nonNegative, Hsum.
  - rewrite app_nil_r. exact IH.
Qed.

(** The expected total of a method is the sum, from left to right, of the
    totals of the sales paid that way. *)
Lemma expected64_methodTotal (ss : list Binary64.Sale.t) (m : PaymentMethod) :
  Forall (λ s, nonNegative (Binary64.Sale.total s) = true) ss →
  Binary64.or0 (Binary64.Caja.get (Binary64.Caja.salesByMethod ss) m) = methodTotal64 m ss.
Proof.
  intros Hnn. rewrite (salesByMethod64_running ss m Hnn).
  destruct (decide (filter _ ss = [])) as [Hnil|_].
  - unfold methodTotal64. rewrite Hnil. reflexivity.
  - apply or0_nonNegative, methodTotal64_nonNegative, Hnn.
Qed.

(** C1 (amended), on the numbers the program computes with.  For a session
    whose sale totals are not negative and any counted figures:
    - the Efectivo difference of the closing dialog is the counted cash
      minus the expected cash in the drawer, which is the initial amount
      plus the sum of the cash sales minus the sum of the expenses, added
      in that order; the Tarjeta and Transferencia differences are the
      counted figure minus the sum of the sales paid that way;
    - a counted figure that is the same number as its expected figure, a
      finite number, gives a difference of exactly zero; so counting the
      expected cash in the drawer, the Tarjeta sum and the Transferencia
      sum gives three differences of zero. *)
Theorem differences_counted_minus_expected
    (s : Binary64.CashSession.t) (counted : Binary64.Caja.CloseBoxFormData) :
  Forall (λ sale, nonNegative (Binary64.Sale.total sale) = true)
    (Binary64.CashSession.sales s) →
  let ss := Binary64.CashSession.sales s in
  let expectedCash :=
    (Binary64.CashSession.initialAmount s + methodTotal64 Efectivo ss
     - Binary64.reduce_sum Binary64.Expense.amount (Binary64.CashSession.expenses s))%float in
  let d := Binary64.Caja.differences (Some s) counted in
  d = {| Binary64.Caja.diff_Efectivo :=
           (Binary64.Caja.countedEfectivo counted - expectedCash)%float;
         Binary64.Caja.diff_Tarjeta :=
           (Binary64.Caja.countedTarjeta counted - methodTotal64 Tarjeta ss)%float;
         Binary64.Caja.diff_Transferencia :=
           (Binary64.Caja.countedTransferencia counted
            - methodTotal64 Transferencia ss)%float |}
  ∧ (Binary64.isFinite expectedCash = true →
     Binary64.Caja.countedEfectivo counted = expectedCash →
     Binary64.Caja.diff_Efectivo d = 0%float)
  ∧ (Binary64.isFinite (methodTotal64 Tarjeta ss) = true →
     Binary64.Caja.countedTarjeta counted = methodTotal64 Tarjeta ss →
     Binary64.Caja.diff_Tarjeta d = 0%float)
  ∧ (Binary64.isFinite (methodTotal64 Transferencia ss) = true →
     Binary64.Caja.countedTransferencia counted = methodTotal64 Transferencia ss →
     Binary64.Caja.diff_Transferencia d = 0%float).
Proof.
  intros Hnn ss expectedCash d.
  assert (Hd : d = {| Binary64.Caja.diff_Efectivo :=
                        (Binary64.Caja.countedEfectivo counted - expectedCash)%float;
                      Binary64.Caja.diff_Tarjeta :=
                        (Binary64.Caja.countedTarjeta counted
                         - methodTotal64 Tarjeta ss)%float;
                      Binary64.Caja.diff_Transferencia :=
                        (Binary64.Caja.countedTransferencia counted
                         - methodTotal64 Transferencia ss)%float |}).
  { unfold d, expectedCash, Binary64.Caja.differences, Binary64.Caja.expectedCashInBox.
    cbn [Binary64.Caja.expectedTotals Binary64.Caja.exp_Efectivo Binary64.Caja.exp_Tarjeta
         Binary64.Caja.exp_Transferencia Binary64.Caja.exp_Gastos].
    rewrite !(expected64_methodTotal _ _ Hnn). reflexivity. }
  split; [exact Hd|]. rewrite Hd. cbn [Binary64.Caja.diff_Efectivo
    Binary64.Caja.diff_Tarjeta Binary64.Caja.diff_Transferencia].
  split; [|split]; intros Hfin ->; apply sub_diag_finite, Hfin.
Qed.

Lemma differences_counted_minus_expected_witness :
  Binary64.Caja.differences (Some cents_session) cents_counted_as_expected
  = {| Binary64.Caja.diff_Efectivo := 0%float; Binary64.Caja.diff_Tarjeta := 0%float;
       Binary64.Caja.diff_Transferencia := 0%float |}
  ∧ Binary64.Caja.diff_Efectivo
      (Binary64.Caja.differences (Some cents_session)
         {| Binary64.Caja.countedEfectivo := ofCents 8055;
            Binary64.Caja.countedTarjeta := ofCents 1230;
            Binary64.Caja.countedTransferencia := 0%float;
            Binary64.Caja.observations := Some ""%string |})
    = (ofCents 8055
       - (ofCents 10050 + (0 + ofCents 10 + ofCents 20) - (0 + ofCents 2025)))%float.
Proof.
  assert (Hnn : Forall (λ sale, nonNegative (Binary64.Sale.total sale) = true)
                  (Binary64.CashSession.sales cents_session)).
  { repeat (apply Forall_cons; split; [vm_compute; reflexivity|]). apply Forall_nil_2. }
  split.
  - destruct (differences_counted_minus_expected cents_session cents_counted_as_expected Hnn)
      as (Hd & HE & HT & HR).
    assert (H1 := HE ltac:(vm_compute; reflexivity) ltac:(vm_compute; reflexivity)).
    assert (H2 := HT ltac:(vm_compute; reflexivity) ltac:(vm_compute; reflexivity)).
    assert (H3 := HR ltac:(vm_compute; reflexivity) ltac:(vm_compute; reflexivity)).
    destruct (Binary64.Caja.differences (Some cents_session) cents_counted_as_expected).
    simpl in H1, H2, H3. rewrite H1, H2, H3. reflexivity.
  - destruct (differences_counted_minus_expected cents_session
                {| Binary64.Caja.countedEfectivo := ofCents 8055;
                   Binary64.Caja.countedTarjeta := ofCents 1230;
                   Binary64.Caja.countedTransferencia := 0%float;
                   Binary64.Caja.observations := Some ""%string |} Hnn) as (Hd & _).
    rewrite Hd. reflexivity.
Defined.

(** C2: scenario A.  A session opened with 100 that holds exactly one
    sale, of 50 in cash, and exactly one expense, of 20, has an expected
    cash in the drawer of 100 + 50 - 20 = 130; closing it with 130 counted
    gives an Efectivo difference of 0 in the closing dialog, and, the form
    carrying its observations, the close goes through and the history row
    it writes shows an Efectivo difference of 0 as well. *)
Theorem scenario_A_expected_130_difference_0
    (s : CashSession) (sale : Sale.t) (expense : Expense.t)
    (counted : Caja.CloseBoxFormData) (text now : string) (db : Db) :
  CashSession.initialAmount (Firestore.fields s) = 100 →
  CashSession.sales (Firestore.fields s) = [sale] →
  Sale.total sale = 50 →
  Sale.paymentMethod sale = Efectivo →
  CashSession.expenses (Firestore.fields s) = [expense] →
  Expense.amount expense = 20 →
  Caja.countedEfectivo counted = 130 →
  Caja.observations counted = Some text →
  Caja.exp_Efectivo (Caja.expectedTotals (Some s)) = 50
  ∧ Caja.exp_Gastos (Caja.expectedTotals (Some s)) = 20
  ∧ Caja.expectedCashInBox s = 130
  ∧ Caja.diff_Efectivo (Caja.differences (Some s) counted) = 0
  ∧ ∃ db' h,
      Caja.handleCloseBox (Some s) now counted db = (db', Completed)
      ∧ db_caja_history db' !! Firestore.id s = Some h
      ∧ Caja.historyDiff (Firestore.mapDocTo CashSession.id (Firestore.id s, h)) = 0.
Proof.
  intros Hinit Hsales Htotal Hmethod Hexp Hamount Hcounted Hobs.
  assert (HE : Caja.exp_Efectivo (Caja.expectedTotals (Some s)) = 50).
  { simpl. rewrite salesByMethod_total, Hsales. unfold methodTotal.
    rewrite (filter_cons_True (λ s, Sale.paymentMethod s = Efectivo) sale [] Hmethod).
    rewrite filter_nil, reduce_sum_cons, reduce_sum_nil. lia. }
  assert (HG : Caja.exp_Gastos (Caja.expectedTotals (Some s)) = 20).
  { simpl. rewrite Hexp, reduce_sum_cons, reduce_sum_nil. lia. }
  assert (HC : Caja.expectedCashInBox s = 130).
  { unfold Caja.expectedCashInBox. rewrite HE, HG, Hinit. reflexivity. }
  split; [exact HE|]. split; [exact HG|]. split; [exact HC|]. split.
  - simpl. rewrite HC, Hcounted. reflexivity.
  - unfold Caja.handleCloseBox. rewrite Hobs.
    eexists _, _. split; [reflexivity|]. split; [simpl; apply lookup_insert_eq|].
    unfold Caja.historyDiff. simpl. rewrite Hsales, Hexp, Hinit, Hcounted.
    rewrite (filter_cons_True (λ s, Sale.paymentMethod s = Efectivo) sale [] Hmethod).
    rewrite filter_nil, !reduce_sum_cons, !reduce_sum_nil. lia.
Qed.

Lemma scenario_A_expected_130_difference_0_witness :
  Caja.liveSession scenarioA_db = Some scenarioA_session
  ∧ Caja.expectedCashInBox scenarioA_session = 130
  ∧ Caja.diff_Efectivo (Caja.differences (Some scenarioA_session) scenarioA_counted) = 0
  ∧ ∃ db' h,
      Caja.handleCloseBox (Some scenarioA_session) "t3" scenarioA_counted scenarioA_db
      = (db', Completed)
      ∧ db_caja_history db' !! "s1" = Some h
      ∧ Caja.historyDiff (Firestore.mapDocTo CashSession.id ("s1"%string, h)) = 0.
Proof.
  split; [vm_compute; reflexivity|].
  exact (proj2 (proj2 (scenario_A_expected_130_difference_0 scenarioA_session
                         scenarioA_sale scenarioA_expense scenarioA_counted "" "t3"
                         scenarioA_db
                         eq_refl eq_refl eq_refl eq_refl eq_refl eq_refl eq_refl eq_refl))).
Defined.

(** ** Combo stock *)

Lemma foldl_min_le (xs : list Z) (x : Z) : foldl Z.min x xs ≤ x.
Proof.
  revert x. induction xs as [|y ys IH]; intros x; simpl; [lia|].
  specialize (IH (Z.min x y)). lia.
Qed.

Lemma foldl_min_is_minimum (xs : list Z) (x : Z) :
  isMinimumOf (foldl Z.min x xs) (x :: xs).
Proof.
  revert x. induction xs as [|y ys IH]; intros x; simpl.
  - split; [left|]. intros z Hz. apply list_elem_of_singleton in Hz. lia.
  - destruct (IH (Z.min x y)) as [Hin Hle]. split.
    + apply elem_of_cons in Hin as [Hin|Hin].
      * rewrite Hin. destruct (Z.min_spec x y) as [[_ ->]|[_ ->]].
        -- left.
        -- right. left.
      * right. right. exact Hin.
    + intros z Hz.
      apply elem_of_cons in Hz as [->|Hz].
      * pose proof (foldl_min_le ys (Z.min x y)). lia.
      * apply elem_of_cons in Hz as [->|Hz].
        -- pose proof (foldl_min_le ys (Z.min x y)). lia.
        -- apply Hle. right. exact Hz.
Qed.

Lemma calculateComboStock_levels (products : list Product) (combo : Combo)
    (first : ComboProduct.t) (rest : list ComboProduct.t) :
  Combo.products (Firestore.fields combo) = Some (first :: rest) →
  isMinimumOf (Ventas.calculateComboStock products combo)
    (Ventas.stockLevel products <$> first :: rest).
Proof.
  intros H. unfold Ventas.calculateComboStock. rewrite H.
  apply foldl_min_is_minimum.
Qed.

Lemma stockLevel_sufficient (products : list Product) (cp : ComboProduct.t) (st : Z) :
  componentStock products cp = Some st → ComboProduct.quantity cp ≤ st →
  Ventas.stockLevel products cp = st / ComboProduct.quantity cp.
Proof.
  unfold componentStock, Ventas.stockLevel. intros H Hle.
  destruct (Firestore.findById _ products) as [p|]; [|discriminate].
  simpl in H. injection H as H. rewrite H.
  rewrite bool_decide_eq_false_2 by lia. reflexivity.
Qed.

Lemma stockLevel_short (products : list Product) (cp : ComboProduct.t) :
  shortComponent products cp → Ventas.stockLevel products cp = 0.
Proof.
  unfold shortComponent, componentStock, Ventas.stockLevel.
  destruct (Firestore.findById _ products) as [p|]; simpl; [|reflexivity].
  intros H. rewrite bool_decide_eq_true_2 by exact H. reflexivity.
Qed.

Lemma stockLevel_nonneg (products : list Product) (cp : ComboProduct.t) :
  0 < ComboProduct.quantity cp → 0 ≤ Ventas.stockLevel products cp.
Proof.
  intros Hq. unfold Ventas.stockLevel.
  destruct (Firestore.findById _ products) as [p|]; [|lia].
  case_bool_decide; [lia|]. apply Z.div_pos; lia.
Qed.

Lemma stockLevel_floor_nonneg (products : list Product) (cp : ComboProduct.t) (st : Z) :
  0 < ComboProduct.quantity cp →
  componentStock products cp = Some st → 0 ≤ st →
  Ventas.stockLevel products cp = st / ComboProduct.quantity cp.
Proof.
  intros Hq H Hst.
  destruct (decide (st < ComboProduct.quantity cp)) as [Hlt|Hge].
  - rewrite stockLevel_short by (unfold shortComponent; rewrite H; exact Hlt).
    symmetry. apply Z.div_small. lia.
  - apply stockLevel_sufficient; [exact H | lia].
Qed.

(** C6: for a combo with a non-empty component list (quantities are
    positive integers, as the combo form validates them) and any catalog:
    - when every component is in the catalog with stock at least the
      quantity needed, the available stock is the minimum over the
      components of floor(stock / quantity);
    - when some component is missing from the catalog or has stock below
      the quantity needed, the available stock is 0;
    - with every component in the catalog at a stock that is not negative,
      the two cases agree: the available stock is the minimum of the
      floors.
    [calculateComboStock] is a function of the catalog snapshot and the
    combo that returns a number: it has no store to write to. *)
Theorem comboStock_min_floor (products : list Product) (combo : Combo)
    (components : list ComboProduct.t) :
  Combo.products (Firestore.fields combo) = Some components →
  components ≠ [] →
  (∀ cp, cp ∈ components → 0 < ComboProduct.quantity cp) →
  ((∀ cp, cp ∈ components →
      ∃ st, componentStock products cp = Some st ∧ ComboProduct.quantity cp ≤ st) →
   isMinimumOf (Ventas.calculateComboStock products combo) (floors products components))
  ∧ ((∃ cp, cp ∈ components ∧ shortComponent products cp) →
     Ventas.calculateComboStock products combo = 0)
  ∧ ((∀ cp, cp ∈ components → ∃ st, componentStock products cp = Some st ∧ 0 ≤ st) →
     isMinimumOf (Ventas.calculateComboStock products combo) (floors products components)).
Proof.
  intros Hcombo Hne Hq.
  destruct components as [|first rest]; [congruence|].
  pose proof (calculateComboStock_levels products combo first rest Hcombo) as Hmin.
  split; [|split].
  - intros Hall.
    replace (floors products (first :: rest))
      with (Ventas.stockLevel products <$> first :: rest); [exact Hmin|].
    unfold floors. apply list_fmap_ext. intros i cp Hi.
    apply list_elem_of_lookup_2 in Hi.
    destruct (Hall cp Hi) as (st & Hst & Hle).
    rewrite Hst. simpl. apply stockLevel_sufficient; assumption.
  - intros (cp & Hin & Hshort).
    destruct Hmin as [Hmem Hle].
    apply Z.le_antisymm.
    + rewrite <- (stockLevel_short products cp Hshort).
      apply Hle. apply list_elem_of_fmap. exists cp. split; [reflexivity | exact Hin].
    + apply list_elem_of_fmap in Hmem as (cp' & -> & Hin').
      apply stockLevel_nonneg. apply Hq. exact Hin'.
  - intros Hall.
    replace (floors products (first :: rest))
      with (Ventas.stockLevel products <$> first :: rest); [exact Hmin|].
    unfold floors. apply list_fmap_ext. intros i cp Hi.
    apply list_elem_of_lookup_2 in Hi.
    destruct (Hall cp Hi) as (st & Hst & Hle).
    rewrite Hst. simpl. apply stockLevel_floor_nonneg; auto.
Qed.

Lemma comboStock_min_floor_witness :
  Ventas.calculateComboStock [soap; bleach] cleaning_kit = 3
  ∧ isMinimumOf (Ventas.calculateComboStock [soap; bleach] cleaning_kit)
      (floors [soap; bleach]
         [ {| ComboProduct.productId := "p1"; ComboProduct.quantity := 2 |};
           {| ComboProduct.productId := "p2"; ComboProduct.quantity := 1 |} ]).
Proof.
  split; [reflexivity|].
  refine (proj1 (comboStock_min_floor [soap; bleach] cleaning_kit _ eq_refl _ _) _).
  - discriminate.
  - intros cp Hin. apply elem_of_cons in Hin as [->|Hin]; [reflexivity|].
    apply list_elem_of_singleton in Hin as ->. reflexivity.
  - intros cp Hin. apply elem_of_cons in Hin as [->|Hin].
    + exists 7. split; [reflexivity | simpl; lia].
    + apply list_elem_of_singleton in Hin as ->.
      exists 3. split; [reflexivity | simpl; lia].
Defined.

(** C10: a combo whose component list is empty or absent has available
    stock 0, and the list of saleable items never contains it. *)
Theorem empty_combo_never_saleable (products : list Product) (combos : list Combo)
    (combo : Combo) :
  Combo.products (Firestore.fields combo) = None
  ∨ Combo.products (Firestore.fields combo) = Some [] →
  Ventas.calculateComboStock products combo = 0
  ∧ ∀ stock, Ventas.ComboItem combo stock ∉ Ventas.saleableItems products combos.
Proof.
  intros Hempty.
  assert (Hzero : Ventas.calculateComboStock products combo = 0).
  { unfold Ventas.calculateComboStock. destruct Hempty as [-> | ->]; reflexivity. }
  split; [exact Hzero|].
  intros stock Hin. unfold Ventas.saleableItems in Hin.
  apply elem_of_app in Hin as [Hin|Hin].
  - apply list_elem_of_fmap in Hin as (p & Hp & _). discriminate.
  - apply list_elem_of_filter in Hin as [Hpos Hin].
    apply list_elem_of_fmap in Hin as (c & Hc & _).
    injection Hc as -> ->. simpl in Hpos. lia.
Qed.

Lemma empty_combo_never_saleable_witness :
  Ventas.calculateComboStock [soap; bleach] empty_kit = 0
  ∧ ∀ stock,
      Ventas.ComboItem empty_kit stock
      ∉ Ventas.saleableItems [soap; bleach] [cleaning_kit; empty_kit].
Proof.
  apply (empty_combo_never_saleable [soap; bleach] [cleaning_kit; empty_kit] empty_kit).
  right. reflexivity.
Defined.

(** ** Stock debits *)

Lemma incrementStock_0 (p : Product.t) : incrementStock 0 p = p.
Proof. destruct p. unfold incrementStock. simpl. f_equal. lia. Qed.

Lemma incrementStock_twice (a b : Z) (p : Product.t) :
  incrementStock b (incrementStock a p) = incrementStock (a + b) p.
Proof. unfold incrementStock. simpl. f_equal. lia. Qed.

Lemma amountFor_nil (pid : string) : amountFor pid [] = 0.
Proof. reflexivity. Qed.

Lemma amountFor_cons (pid : string) (d : string * Z) (ds : list (string * Z)) :
  amountFor pid (d :: ds)
  = (if decide (d.1 = pid) then d.2 else 0) + amountFor pid ds.
Proof.
  unfold amountFor. rewrite filter_cons.
  destruct (decide (d.1 = pid)); [rewrite reduce_sum_cons|]; lia.
Qed.

(** A batch of stock decrements on documents that all exist commits, and
    leaves every product with its stock less the amounts listed for it. *)
Lemma batchUpdate_decrements (ds : list (string * Z)) (c : gmap string Product.t) :
  (∀ d, d ∈ ds → is_Some (c !! d.1)) →
  ∃ c', Firestore.batchUpdate ((λ d, (d.1, incrementStock (- d.2))) <$> ds) c = Some c'
        ∧ ∀ pid, c' !! pid = incrementStock (- amountFor pid ds) <$> c !! pid.
Proof.
  revert c. induction ds as [|[id n] ds IH]; intros c Hall.
  - exists c. split; [reflexivity|]. intros pid. rewrite amountFor_nil. simpl.
    destruct (c !! pid) as [p|]; simpl; [|reflexivity].
    rewrite incrementStock_0. reflexivity.
  - destruct (Hall (id, n)) as [p Hp]; [left|]. simpl in Hp.
    destruct (IH (<[id := incrementStock (- n) p]> c)) as (c' & Hc' & Hlook).
    { intros d Hd. destruct (decide (id = d.1)) as [->|Hne].
      - rewrite lookup_insert_eq. eauto.
      - rewrite lookup_insert_ne by exact Hne. apply Hall. right. exact Hd. }
    exists c'. split.
    + simpl. unfold Firestore.updateDoc. rewrite Hp. exact Hc'.
    + intros pid. rewrite Hlook, amountFor_cons. simpl.
      destruct (decide (id = pid)) as [->|Hne].
      * rewrite lookup_insert_eq, Hp. simpl. rewrite incrementStock_twice.
        do 2 f_equal. lia.
      * rewrite lookup_insert_ne by exact Hne. reflexivity.
Qed.

Lemma stockUpdates_lineDebits (line : Ventas.CartItem) :
  (∀ c st, Ventas.item line = Ventas.ComboItem c st →
           is_Some (Combo.products (Firestore.fields c))) →
  Ventas.stockUpdates line
  = Some ((λ d, (d.1, incrementStock (- d.2))) <$> lineDebits line).
Proof.
  intros Hcombo. unfold Ventas.stockUpdates, lineDebits.
  destruct (Ventas.item line) as [p|c st]; [reflexivity|].
  destruct (Hcombo c st eq_refl) as [cps ->]. simpl. f_equal.
  rewrite <- list_fmap_compose. reflexivity.
Qed.

Lemma mapM_stockUpdates (cart : list Ventas.CartItem) :
  (∀ line, line ∈ cart → ∀ c st, Ventas.item line = Ventas.ComboItem c st →
           is_Some (Combo.products (Firestore.fields c))) →
  ∃ ups, mapM Ventas.stockUpdates cart = Some ups
         ∧ concat ups = (λ d, (d.1, incrementStock (- d.2))) <$> (cart ≫= lineDebits).
Proof.
  induction cart as [|line cart IH]; intros Hcombo.
  - exists []. split; reflexivity.
  - destruct IH as (ups & Hups & Hcat).
    { intros l Hl. apply Hcombo. right. exact Hl. }
    eexists. split.
    + simpl. rewrite stockUpdates_lineDebits by (apply Hcombo; left).
      simpl. rewrite Hups. simpl. reflexivity.
    + simpl. rewrite Hcat, fmap_app. reflexivity.
Qed.

Lemma updateStock_debits (cart : list Ventas.CartItem) (c : gmap string Product.t) :
  (∀ line, line ∈ cart → ∀ combo st, Ventas.item line = Ventas.ComboItem combo st →
           is_Some (Combo.products (Firestore.fields combo))) →
  (∀ d, d ∈ cart ≫= lineDebits → is_Some (c !! d.1)) →
  ∃ c', Ventas.updateStock cart c = Some c'
        ∧ ∀ pid, c' !! pid = incrementStock (- debited cart pid) <$> c !! pid.
Proof.
  intros Hcombo Hall.
  destruct (mapM_stockUpdates cart Hcombo) as (ups & Hups & Hcat).
  destruct (batchUpdate_decrements (cart ≫= lineDebits) c Hall) as (c' & Hc' & Hlook).
  exists c'. split; [|exact Hlook].
  unfold Ventas.updateStock. rewrite Hups, Hcat. exact Hc'.
Qed.

(** C8: creating a delivery order (name and address filled in, every
    product the cart draws on present in the [products] collection) stores
    the order with status Pendiente and, in the same run, takes the cart
    out of the product stocks: each product ends with its stock less its
    line quantity, a combo line counting as component quantity times line
    quantity for each of its components.  The cash session collections are
    not written: no sale is recorded. *)
Theorem create_order_debits_stock_at_creation
    (deliveryInfo : Ventas.DeliveryInfo) (cart : list Ventas.CartItem)
    (storageItems : list SaleItem.t) (total : Z) (orderId now autoId : string) (db : Db) :
  Ventas.blank (Ventas.name deliveryInfo) = false →
  Ventas.blank (Ventas.address deliveryInfo) = false →
  (∀ line, line ∈ cart → ∀ combo st, Ventas.item line = Ventas.ComboItem combo st →
           is_Some (Combo.products (Firestore.fields combo))) →
  (∀ d, d ∈ cart ≫= lineDebits → is_Some (db_products db !! d.1)) →
  ∃ db',
    Ventas.handleCreateOrder deliveryInfo cart storageItems total orderId now autoId db
    = (db', Completed)
    ∧ (∃ order, db_orders db' !! autoId = Some order
                ∧ Order.status order = Order.Pendiente
                ∧ Order.items order = storageItems
                ∧ Order.total order = total)
    ∧ (∀ pid, db_products db' !! pid
              = incrementStock (- debited cart pid) <$> db_products db !! pid)
    ∧ (∀ pid p, db_products db !! pid = Some p →
                Product.stock <$> db_products db' !! pid
                = Some (Product.stock p - debited cart pid))
    ∧ db_caja_sessions db' = db_caja_sessions db
    ∧ db_caja_history db' = db_caja_history db.
Proof.
  intros Hname Haddr Hcombo Hall.
  destruct (updateStock_debits cart (db_products db) Hcombo Hall) as (c' & Hc' & Hlook).
  eexists. split.
  - unfold Ventas.handleCreateOrder. rewrite Hname, Haddr. simpl.
    rewrite Hc'. reflexivity.
  - simpl. split; [|split; [|split; [|split]]].
    + eexists. split; [apply lookup_insert_eq|]. simpl. auto.
    + exact Hlook.
    + intros pid p Hp. rewrite Hlook, Hp. simpl. f_equal; lia.
    + reflexivity.
    + reflexivity.
Qed.

Lemma create_order_debits_stock_at_creation_witness :
  ∃ db',
    Ventas.handleCreateOrder delivery_info delivery_cart [] 200 "PED-000001" "t4" "o1"
      delivery_db = (db', Completed)
    ∧ Product.stock <$> db_products db' !! "p1" = Some (7 - 4)
    ∧ Product.stock <$> db_products db' !! "p2" = Some (3 - 1)
    ∧ Order.status <$> db_orders db' !! "o1" = Some Order.Pendiente
    ∧ db_caja_sessions db' = db_caja_sessions delivery_db.
Proof.
  destruct (create_order_debits_stock_at_creation delivery_info delivery_cart [] 200
              "PED-000001" "t4" "o1" delivery_db)
    as (db' & Hrun & (order & Horder & Hstatus & _) & _ & Hstock & Hsessions & _).
  - reflexivity.
  - reflexivity.
  - intros line Hin combo st Hitem.
    apply elem_of_cons in Hin as [->|Hin]; [discriminate|].
    apply list_elem_of_singleton in Hin as ->.
    injection Hitem as <- _. eexists. reflexivity.
  - intros d Hd. vm_compute in Hd.
    repeat (apply elem_of_cons in Hd as [->|Hd]; [eexists; vm_compute; reflexivity|]).
    apply elem_of_nil in Hd. destruct Hd.
  - exists db'. split; [exact Hrun|].
    split; [exact (Hstock "p1"%string _ eq_refl)|].
    split; [exact (Hstock "p2"%string _ eq_refl)|].
    split; [rewrite Horder; simpl; f_equal; exact Hstatus | exact Hsessions].
Defined.

(** ** Payments on invoices *)

(** C4: registering a payment on an invoice that the page shows as it is
    stored appends the payment to the invoice's payments and writes the
    status: Pagada when the invoice total is at most [totalPaid], the
    binary64 sum of the payments added from left to right, the new one
    last, and the prior status otherwise; no other field and no other
    invoice changes.  On an invoice of 240 with no payments, a payment of
    100 leaves it Pendiente and a further payment of 140 makes it Pagada.
    On an invoice of 240.30 with no payments, a payment of 100.10 and a
    further payment of 140.20 both leave it Pendiente, although the
    payments are the total to the cent: the sum the handler compares is
    the number just below the number that stands for 240.30. *)
Theorem register_payment_compares_rounded_sum :
  (∀ (invoiceId paymentId : string) (data : Binary64.Facturacion.RegisterPaymentData)
     (invoices : list (Firestore.Mapped Binary64.Invoice.t))
     (inv : Firestore.Mapped Binary64.Invoice.t) (db : gmap string Binary64.Invoice.t),
     Firestore.findById invoiceId invoices = Some inv →
     db !! invoiceId = Some (Firestore.fields inv) →
     let prior := Firestore.fields inv in
     let newPayment :=
       {| Binary64.Payment.id := paymentId;
          Binary64.Payment.amount := Binary64.Facturacion.amount data;
          Binary64.Payment.date := Binary64.Facturacion.date data;
          Binary64.Payment.method := Binary64.Facturacion.method data |} in
     let totalPaid :=
       Binary64.reduce_sum Binary64.Payment.amount
         (Binary64.Invoice.payments prior ++ [newPayment]) in
     ∃ db' stored,
       Binary64.Facturacion.handleRegisterPayment
         (Some (Facturacion.DialogPayment invoiceId)) data paymentId invoices db
       = (db', Completed)
       ∧ db' !! invoiceId = Some stored
       ∧ Binary64.Invoice.payments stored = Binary64.Invoice.payments prior ++ [newPayment]
       ∧ Binary64.Invoice.status stored
         = (if (Binary64.Invoice.total prior <=? totalPaid)%float
            then Invoice.Pagada else Binary64.Invoice.status prior)
       ∧ stored = Binary64.Facturacion.paymentPatch (Binary64.Invoice.payments stored)
                    (Binary64.Invoice.status stored) prior
       ∧ ∀ other, other ≠ invoiceId → db' !! other = db !! other)
  ∧ (let db1 := payInvoice1 100%float "PAY-1" scenarioC_db in
     let db2 := payInvoice1 140%float "PAY-2" db1 in
     Binary64.Invoice.status <$> scenarioC_db !! "inv1" = Some Invoice.Pendiente
     ∧ Binary64.Invoice.total <$> scenarioC_db !! "inv1" = Some 240%float
     ∧ Binary64.Invoice.payments <$> scenarioC_db !! "inv1" = Some []
     ∧ Binary64.Invoice.status <$> db1 !! "inv1" = Some Invoice.Pendiente
     ∧ fmap (M := list) Binary64.Payment.amount
         <$> (Binary64.Invoice.payments <$> db1 !! "inv1")
       = Some [100%float]
     ∧ Binary64.Invoice.status <$> db2 !! "inv1" = Some Invoice.Pagada
     ∧ fmap (M := list) Binary64.Payment.amount
         <$> (Binary64.Invoice.payments <$> db2 !! "inv1")
       = Some [100%float; 140%float])
  ∧ (let db1 := payInvoice1 (ofCents 10010) "PAY-1" scenarioC_cents_db in
     let db2 := payInvoice1 (ofCents 14020) "PAY-2" db1 in
     (10010 + 14020 = 24030)%Z
     ∧ Binary64.Invoice.status <$> scenarioC_cents_db !! "inv1" = Some Invoice.Pendiente
     ∧ Binary64.Invoice.total <$> scenarioC_cents_db !! "inv1" = Some (ofCents 24030)
     ∧ Binary64.Invoice.payments <$> scenarioC_cents_db !! "inv1" = Some []
     ∧ Binary64.Invoice.status <$> db1 !! "inv1" = Some Invoice.Pendiente
     ∧ Binary64.Invoice.status <$> db2 !! "inv1" = Some Invoice.Pendiente
     ∧ fmap (M := list) Binary64.Payment.amount
         <$> (Binary64.Invoice.payments <$> db2 !! "inv1")
       = Some [ofCents 10010; ofCents 14020]
     ∧ (0 + ofCents 10010 + ofCents 14020 <? ofCents 24030)%float = true
     ∧ (ofCents 24030 <=? next_up (0 + ofCents 10010 + ofCents 14020))%float = true).
Proof.
  split; [|split].
  - intros invoiceId paymentId data invoices inv db Hfind Hstored prior newPayment totalPaid.
    eexists. eexists. split; [|split].
    + unfold Binary64.Facturacion.handleRegisterPayment. rewrite Hfind.
      unfold Firestore.updateDoc. rewrite Hstored. reflexivity.
    + apply lookup_insert_eq.
    + repeat split. intros other Hne. apply lookup_insert_ne. congruence.
  - vm_compute. repeat split.
  - vm_compute. repeat split.
Qed.

Lemma register_payment_compares_rounded_sum_witness :
  ∃ db' stored,
    Binary64.Facturacion.handleRegisterPayment (Some (Facturacion.DialogPayment "inv1"))
      {| Binary64.Facturacion.amount := ofCents 10010;
         Binary64.Facturacion.date := "2024-05-10";
         Binary64.Facturacion.method := Payment.Efectivo |}
      "PAY-1" [Firestore.mkMapped "inv1" (unpaid_invoice (ofCents 24030))] scenarioC_cents_db
    = (db', Completed)
    ∧ db' !! "inv1" = Some stored
    ∧ Binary64.Payment.amount <$> Binary64.Invoice.payments stored = [ofCents 10010]
    ∧ Binary64.Invoice.status stored = Invoice.Pendiente.
Proof.
  destruct (proj1 register_payment_compares_rounded_sum "inv1" "PAY-1"
              {| Binary64.Facturacion.amount := ofCents 10010;
                 Binary64.Facturacion.date := "2024-05-10";
                 Binary64.Facturacion.method := Payment.Efectivo |}
              [Firestore.mkMapped "inv1" (unpaid_invoice (ofCents 24030))]
              (Firestore.mkMapped "inv1" (unpaid_invoice (ofCents 24030))) scenarioC_cents_db
              eq_refl eq_refl)
    as (db' & stored & Hrun & Hlook & Hpay & Hstatus & _).
  exists db', stored. split; [exact Hrun|]. split; [exact Hlook|].
  split; [rewrite Hpay; reflexivity|].
  rewrite Hstatus. vm_compute. reflexivity.
Defined.

(** ** Invoice generation *)

Lemma updateDoc_lookup_None {A : Type} (id k : string) (f : A → A) (c c' : gmap string A) :
  Firestore.updateDoc id f c = Some c' → c !! k = None → c' !! k = None.
Proof.
  unfold Firestore.updateDoc. destruct (c !! id) as [d|] eqn:Hd; [|discriminate].
  intros [= <-] Hk. rewrite lookup_insert_ne; [exact Hk | congruence].
Qed.

(** One update aimed at a document that does not exist rejects the batch. *)
Lemma batchUpdate_missing {A : Type} (ups : list (string * (A → A))) (c : gmap string A) :
  (∃ u, u ∈ ups ∧ c !! u.1 = None) → Firestore.batchUpdate ups c = None.
Proof.
  revert c. induction ups as [|[id f] ups IH]; intros c (u & Hin & Hnone).
  - apply elem_of_nil in Hin. destruct Hin.
  - simpl. destruct (Firestore.updateDoc id f c) as [c'|] eqn:Hup; [|reflexivity].
    apply elem_of_cons in Hin as [->|Hin].
    + unfold Firestore.updateDoc in Hup. simpl in Hnone. rewrite Hnone in Hup. discriminate.
    + apply IH. exists u. split; [exact Hin|].
      eapply updateDoc_lookup_None; eassumption.
Qed.

(** The same idempotent patch on a list of existing documents. *)
Lemma batchUpdate_same_patch {A : Type} (f : A → A) (ids : list string) (c : gmap string A) :
  (∀ x, f (f x) = f x) →
  (∀ i, i ∈ ids → is_Some (c !! i)) →
  ∃ c', Firestore.batchUpdate ((λ i, (i, f)) <$> ids) c = Some c'
        ∧ ∀ k, c' !! k = if decide (k ∈ ids) then f <$> c !! k else c !! k.
Proof.
  intros Hidem. revert c. induction ids as [|i ids IH]; intros c Hall.
  - exists c. split; [reflexivity|]. intros k.
    destruct (decide (k ∈ [])) as [Hin|_]; [|reflexivity].
    apply elem_of_nil in Hin. destruct Hin.
  - destruct (Hall i) as [d Hd]; [left|].
    destruct (IH (<[i := f d]> c)) as (c' & Hc' & Hlook).
    { intros j Hj. destruct (decide (i = j)) as [->|Hne].
      - rewrite lookup_insert_eq. eauto.
      - rewrite lookup_insert_ne by exact Hne. apply Hall. right. exact Hj. }
    exists c'. split.
    + simpl. unfold Firestore.updateDoc. rewrite Hd. exact Hc'.
    + intros k. rewrite Hlook.
      destruct (decide (k = i)) as [->|Hne].
      * rewrite lookup_insert_eq, Hd.
        destruct (decide (i ∈ i :: ids)) as [_|Hn]; [|exfalso; apply Hn; left].
        destruct (decide (i ∈ ids)); simpl; [rewrite Hidem|]; reflexivity.
      * rewrite lookup_insert_ne by congruence.
        destruct (decide (k ∈ ids)) as [Hin|Hnin];
          destruct (decide (k ∈ i :: ids)) as [Hin'|Hnin']; try reflexivity.
        -- exfalso. apply Hnin'. right. exact Hin.
        -- exfalso. apply elem_of_cons in Hin' as [?|?]; [congruence | contradiction].
Qed.

Lemma flagInvoiced_idempotent (invoiceId : string) (d : BillableItem.t) :
  Facturacion.flagInvoiced invoiceId (Facturacion.flagInvoiced invoiceId d)
  = Facturacion.flagInvoiced invoiceId d.
Proof. reflexivity. Qed.

(** The handler past its two guards: some item of the page is selected
    and the customer is on the page. *)
Section GenerateInvoice.

Context (data : Facturacion.GenerateInvoiceData) (billableItems : list BillableItem)
  (invoices : list Invoice) (clients : list Client) (customer : Client)
  (invoiceDocId : string) (db : Db).

Hypothesis some_selected :
  ∃ item, item ∈ billableItems ∧ Firestore.id item ∈ Facturacion.selectedSales data.

Hypothesis customer_found :
  Firestore.findById (Facturacion.customerId data) clients = Some customer.

Lemma salesToInvoice_not_empty :
  length (filter (λ item, Firestore.id item ∈ Facturacion.selectedSales data)
            billableItems) ≠ 0%nat.
Proof.
  destruct some_selected as (item & Hitem & Hsel).
  intros Hlen. apply length_zero_iff_nil in Hlen.
  assert (Hin : item ∈ filter
            (λ item, Firestore.id item ∈ Facturacion.selectedSales data) billableItems).
  { apply list_elem_of_filter. split; assumption. }
  rewrite Hlen in Hin. apply elem_of_nil in Hin. exact Hin.
Qed.

(** When every selected id is the id of a document, the batch commits:
    each selected document is flagged with the id of the new invoice, the
    other documents are left as they were, and the invoice carries the
    selected ids and the sum of the selected items' totals. *)
Lemma generate_invoice_on_document_ids :
  (∀ sid, sid ∈ Facturacion.selectedSales data → is_Some (db_billable_items db !! sid)) →
  ∃ db' invoice,
    Facturacion.handleGenerateInvoice data billableItems invoices clients invoiceDocId db
    = (db', Completed)
    ∧ db_invoices db' !! invoiceDocId = Some invoice
    ∧ Invoice.sourceSaleIds invoice = Facturacion.selectedSales data
    ∧ Invoice.total invoice
      = reduce_sum (λ item, BillableItem.total (Firestore.fields item))
          (filter (λ item, Firestore.id item ∈ Facturacion.selectedSales data)
             billableItems)
    ∧ (∀ sid, sid ∈ Facturacion.selectedSales data →
         db_billable_items db' !! sid
         = Facturacion.flagInvoiced invoiceDocId <$> db_billable_items db !! sid)
    ∧ (∀ docId, docId ∉ Facturacion.selectedSales data →
         db_billable_items db' !! docId = db_billable_items db !! docId).
Proof.
  intros Hdocs.
  destruct (batchUpdate_same_patch (Facturacion.flagInvoiced invoiceDocId)
              (Facturacion.selectedSales data) (db_billable_items db)
              (flagInvoiced_idempotent invoiceDocId) Hdocs) as (b' & Hb' & Hlook).
  eexists. eexists. split; [|split; [|split; [|split; [|split]]]].
  - unfold Facturacion.handleGenerateInvoice.
    rewrite bool_decide_eq_false_2 by exact salesToInvoice_not_empty.
    rewrite customer_found, Hb'. reflexivity.
  - simpl. apply lookup_insert_eq.
  - reflexivity.
  - reflexivity.
  - intros sid Hsid. simpl. rewrite Hlook.
    destruct (decide (sid ∈ Facturacion.selectedSales data)); [reflexivity | contradiction].
  - intros docId Hdoc. simpl. rewrite Hlook.
    destruct (decide (docId ∈ Facturacion.selectedSales data)); [contradiction | reflexivity].
Qed.

(** When a selected id is not the id of any document, the batch is
    rejected and nothing is written. *)
Lemma generate_invoice_rejected_off_document_ids :
  (∃ sid, sid ∈ Facturacion.selectedSales data ∧ db_billable_items db !! sid = None) →
  Facturacion.handleGenerateInvoice data billableItems invoices clients invoiceDocId db
  = (db, Failed).
Proof.
  intros (sid & Hsid & Hnone).
  unfold Facturacion.handleGenerateInvoice.
  rewrite bool_decide_eq_false_2 by exact salesToInvoice_not_empty.
  rewrite customer_found, batchUpdate_missing; [reflexivity|].
  exists (sid, Facturacion.flagInvoiced invoiceDocId). split; [|exact Hnone].
  apply list_elem_of_fmap. exists sid. split; [reflexivity | exact Hsid].
Qed.

End GenerateInvoice.

(** C3 does not hold of the code at an input the application produces.
    The claim: after generating an invoice, every selected billable item
    has [invoiced = true] and the id of the new invoice.  The billable item
    that the point of sale stored reaches the invoicing page with its
    [BS-...] field as [id], [mapDocTo] letting the stored field replace
    the document id.
    Selecting it and generating the invoice aims the batch's update at
    [billable-items/BS-...], which is no document: the batch is rejected,
    no invoice is stored, and the item is left with [invoiced = false]. *)
Theorem generate_invoice_rejected_for_stored_billable :
  let billableItems :=
    Firestore.snapshot BillableItem.id (db_billable_items pos_billable_db) in
  Firestore.id <$> billableItems = ["BS-1700000000000"%string]
  ∧ dom (db_billable_items pos_billable_db) = {["Jx3kQ9"%string]}
  ∧ Facturacion.handleGenerateInvoice pos_invoice_request billableItems [] [rosa]
      "inv1" pos_billable_db
    = (pos_billable_db, Failed)
  ∧ (BillableItem.invoiced ∘ Firestore.fields) <$> billableItems = [false]
  ∧ db_invoices pos_billable_db = ∅.
Proof. vm_compute. repeat split. Qed.

(** ** Consigned stock *)

Lemma Vendedores_get_set (m : Vendedores.StockMap) (k k' : string) (v : Vendedores.StockData.t) :
  Vendedores.get (Vendedores.set m k v) k'
  = if decide (k = k') then Some v else Vendedores.get m k'.
Proof.
  unfold Vendedores.get.
  induction m as [|[j w] rest IH]; simpl.
  - destruct (decide (k = k')) as [->|Hne].
    + rewrite bool_decide_eq_true_2 by done. reflexivity.
    + rewrite bool_decide_eq_false_2 by done. reflexivity.
  - destruct (decide (j = k)) as [->|Hjk].
    + rewrite bool_decide_eq_true_2 by done. simpl.
      destruct (decide (k = k')) as [->|Hne].
      * rewrite bool_decide_eq_true_2 by done. reflexivity.
      * rewrite !bool_decide_eq_false_2 by done. reflexivity.
    + rewrite bool_decide_eq_false_2 by done. simpl.
      destruct (decide (j = k')) as [->|Hjk'].
      * rewrite bool_decide_eq_true_2 by done.
        destruct (decide (k = k')); [congruence | reflexivity].
      * rewrite bool_decide_eq_false_2 by done. apply IH.
Qed.

Lemma Vendedores_set_keys (m : Vendedores.StockMap) (k : string) (v : Vendedores.StockData.t) :
  (Vendedores.set m k v).*1 = if decide (k ∈ m.*1) then m.*1 else m.*1 ++ [k].
Proof.
  induction m as [|[j w] rest IH]; csimpl.
  - reflexivity.
  - destruct (decide (j = k)) as [->|Hjk].
    + rewrite bool_decide_eq_true_2 by done. csimpl. clear IH.
      case_decide as Hn; [reflexivity|].
      exfalso. apply Hn. left.
    + rewrite bool_decide_eq_false_2 by done. csimpl. rewrite IH. clear IH.
      case_decide as Hin; case_decide as Hin'; try reflexivity.
      * exfalso. apply Hin'. right. exact Hin.
      * exfalso. apply elem_of_cons in Hin' as [?|?]; [congruence | contradiction].
Qed.

Lemma Vendedores_set_NoDup (m : Vendedores.StockMap) (k : string) (v : Vendedores.StockData.t) :
  NoDup m.*1 → NoDup (Vendedores.set m k v).*1.
Proof.
  intros Hnd. rewrite Vendedores_set_keys.
  destruct (decide (k ∈ m.*1)) as [Hin|Hnin]; [exact Hnd|].
  apply NoDup_app. split; [exact Hnd|]. split; [|apply NoDup_singleton].
  intros x Hx Hx'. apply list_elem_of_singleton in Hx'. congruence.
Qed.

Lemma Vendedores_get_None (m : Vendedores.StockMap) (k : string) :
  k ∉ m.*1 → Vendedores.get m k = None.
Proof.
  unfold Vendedores.get. induction m as [|[j w] rest IH]; simpl; [reflexivity|].
  intros Hnin. rewrite bool_decide_eq_false_2.
  - apply IH. intros Hin. apply Hnin. right. exact Hin.
  - intros ->. apply Hnin. left.
Qed.

Lemma assign_heldQty (products : list Product) (m : Vendedores.StockMap)
    (a : AssignedProduct.t) (pid : string) :
  heldQty (Vendedores.assign products m a) pid
  = if decide (AssignedProduct.productId a = pid
               ∧ is_Some (Firestore.findById pid products))
    then Some (or0 (heldQty m pid) + AssignedProduct.quantity a)
    else heldQty m pid.
Proof.
  unfold heldQty, Vendedores.assign.
  destruct (decide (AssignedProduct.productId a = pid
                    ∧ is_Some (Firestore.findById pid products))) as [[Heq [p Hp]]|Hno].
  - rewrite Heq, Hp. rewrite Vendedores_get_set.
    destruct (decide (pid = pid)); [reflexivity | congruence].
  - destruct (Firestore.findById (AssignedProduct.productId a) products) as [p|] eqn:Hp;
      [|reflexivity].
    rewrite Vendedores_get_set.
    destruct (decide (AssignedProduct.productId a = pid)) as [Heq|Hne]; [|reflexivity].
    exfalso. apply Hno. split; [exact Heq|]. rewrite <- Heq, Hp. eauto.
Qed.

Lemma assign_NoDup (products : list Product) (m : Vendedores.StockMap) (a : AssignedProduct.t) :
  NoDup m.*1 → NoDup (Vendedores.assign products m a).*1.
Proof.
  intros Hnd. unfold Vendedores.assign.
  destruct (Firestore.findById _ products); [apply Vendedores_set_NoDup|]; exact Hnd.
Qed.

Lemma subtract_heldQty (m : Vendedores.StockMap) (k : string) (q : Z) (pid : string) :
  heldQty (Vendedores.subtract m k q) pid
  = if decide (k = pid) then (λ x, x - q) <$> heldQty m pid else heldQty m pid.
Proof.
  unfold heldQty, Vendedores.subtract.
  destruct (Vendedores.get m k) as [cur|] eqn:Hk.
  - rewrite Vendedores_get_set.
    destruct (decide (k = pid)) as [->|Hne]; [|reflexivity].
    rewrite Hk. reflexivity.
  - destruct (decide (k = pid)) as [->|Hne]; [|reflexivity].
    rewrite Hk. reflexivity.
Qed.

Lemma subtract_NoDup (m : Vendedores.StockMap) (k : string) (q : Z) :
  NoDup m.*1 → NoDup (Vendedores.subtract m k q).*1.
Proof.
  intros Hnd. unfold Vendedores.subtract.
  destruct (Vendedores.get m k); [apply Vendedores_set_NoDup|]; exact Hnd.
Qed.

(** After the loop over [assignedStock]. *)
Lemma assigned_loop (products : list Product) (items : list AssignedProduct.t)
    (m : Vendedores.StockMap) (pid : string) :
  NoDup m.*1 →
  NoDup (foldl (Vendedores.assign products) m items).*1
  ∧ heldQty (foldl (Vendedores.assign products) m items) pid
    = if decide (is_Some (Firestore.findById pid products)
                 ∧ filter (λ a, AssignedProduct.productId a = pid) items ≠ [])
      then Some (or0 (heldQty m pid)
                 + reduce_sum AssignedProduct.quantity
                     (filter (λ a, AssignedProduct.productId a = pid) items))
      else heldQty m pid.
Proof.
  revert m. induction items as [|a items IH]; intros m Hnd; simpl.
  - split; [exact Hnd|].
    destruct (decide _) as [[_ Hne]|_]; [|reflexivity].
    rewrite filter_nil in Hne. congruence.
  - destruct (IH (Vendedores.assign products m a) (assign_NoDup products m a Hnd))
      as [Hnd' Hq].
    split; [exact Hnd'|]. rewrite Hq, assign_heldQty. clear Hq IH.
    destruct (decide (AssignedProduct.productId a = pid)) as [Heq|Hne].
    + rewrite (filter_cons_True (λ a, AssignedProduct.productId a = pid) a items Heq).
      destruct (decide (is_Some (Firestore.findById pid products))) as [Hcat|Hcat].
      * rewrite (decide_True _ _ (conj Heq Hcat)).
        assert (Hnn : a :: filter (λ a, AssignedProduct.productId a = pid) items ≠ [])
          by discriminate.
        rewrite (decide_True _ _ (conj Hcat Hnn)).
        rewrite reduce_sum_cons. simpl.
        case_decide as Hd.
        -- f_equal. lia.
        -- f_equal.
           destruct (filter (λ a, AssignedProduct.productId a = pid) items) eqn:Hf.
           ++ rewrite reduce_sum_nil. lia.
           ++ exfalso. apply Hd. split; [exact Hcat | discriminate].
      * assert (Hn1 : ¬ (AssignedProduct.productId a = pid
                         ∧ is_Some (Firestore.findById pid products))) by tauto.
        rewrite !(decide_False _ _ Hn1).
        assert (Hn2 : ¬ (is_Some (Firestore.findById pid products)
                         ∧ a :: filter (λ a, AssignedProduct.productId a = pid) items ≠ []))
          by tauto.
        rewrite (decide_False _ _ Hn2).
        assert (Hn3 : ¬ (is_Some (Firestore.findById pid products)
                         ∧ filter (λ a, AssignedProduct.productId a = pid) items ≠ []))
          by tauto.
        rewrite (decide_False _ _ Hn3). reflexivity.
    + rewrite (filter_cons_False (λ a, AssignedProduct.productId a = pid) a items Hne).
      assert (Hn1 : ¬ (AssignedProduct.productId a = pid
                       ∧ is_Some (Firestore.findById pid products))) by tauto.
      rewrite !(decide_False _ _ Hn1). reflexivity.
Qed.

Lemma subtract_items_loop (items : list SellerSaleItem.t) (m : Vendedores.StockMap) (pid : string) :
  NoDup m.*1 →
  let m' :=
    foldl (λ stockMap item,
             Vendedores.subtract stockMap (SellerSaleItem.productId item)
               (SellerSaleItem.quantity item)) m items in
  NoDup m'.*1
  ∧ heldQty m' pid
    = (λ x, x - reduce_sum SellerSaleItem.quantity
                  (filter (λ i, SellerSaleItem.productId i = pid) items))
        <$> heldQty m pid.
Proof.
  revert m. induction items as [|i items IH]; intros m Hnd; simpl.
  - split; [exact Hnd|]. rewrite filter_nil, reduce_sum_nil.
    destruct (heldQty m pid); simpl; [f_equal; lia | reflexivity].
  - destruct (IH _ (subtract_NoDup m (SellerSaleItem.productId i)
                      (SellerSaleItem.quantity i) Hnd)) as [Hnd' Hq].
    split; [exact Hnd'|]. rewrite Hq, subtract_heldQty, filter_cons.
    destruct (decide (SellerSaleItem.productId i = pid)) as [Heq|Hne].
    + rewrite reduce_sum_cons.
      destruct (heldQty m pid); simpl; [f_equal; lia | reflexivity].
    + reflexivity.
Qed.

Lemma subtract_sales_loop (sales : list SellerSale.t) (m : Vendedores.StockMap) (pid : string) :
  NoDup m.*1 →
  let m' :=
    foldl (λ stockMap sale,
             foldl (λ stockMap item,
                      Vendedores.subtract stockMap (SellerSaleItem.productId item)
                        (SellerSaleItem.quantity item))
                   stockMap (SellerSale.items sale)) m sales in
  NoDup m'.*1
  ∧ heldQty m' pid
    = (λ x, x - reduce_sum SellerSaleItem.quantity
                  (filter (λ i, SellerSaleItem.productId i = pid)
                     (sales ≫= SellerSale.items)))
        <$> heldQty m pid.
Proof.
  revert m. induction sales as [|s sales IH]; intros m Hnd; csimpl.
  - split; [exact Hnd|]. rewrite filter_nil, reduce_sum_nil.
    destruct (heldQty m pid); simpl; [f_equal; lia | reflexivity].
  - destruct (subtract_items_loop (SellerSale.items s) m pid Hnd) as [Hnd1 Hq1].
    destruct (IH _ Hnd1) as [Hnd' Hq].
    split; [exact Hnd'|]. rewrite Hq, Hq1, filter_app, reduce_sum_app.
    destruct (heldQty m pid); simpl; [f_equal; lia | reflexivity].
Qed.

Lemma subtract_returns_loop (returns : list SellerReturn.t) (m : Vendedores.StockMap) (pid : string) :
  NoDup m.*1 →
  let m' :=
    foldl (λ stockMap ret,
             Vendedores.subtract stockMap (SellerReturn.productId ret)
               (SellerReturn.quantity ret)) m returns in
  NoDup m'.*1
  ∧ heldQty m' pid
    = (λ x, x - reduce_sum SellerReturn.quantity
                  (filter (λ r, SellerReturn.productId r = pid) returns))
        <$> heldQty m pid.
Proof.
  revert m. induction returns as [|r returns IH]; intros m Hnd; simpl.
  - split; [exact Hnd|]. rewrite filter_nil, reduce_sum_nil.
    destruct (heldQty m pid); simpl; [f_equal; lia | reflexivity].
  - destruct (IH _ (subtract_NoDup m (SellerReturn.productId r)
                      (SellerReturn.quantity r) Hnd)) as [Hnd' Hq].
    split; [exact Hnd'|]. rewrite Hq, subtract_heldQty, filter_cons.
    destruct (decide (SellerReturn.productId r = pid)) as [Heq|Hne].
    + rewrite reduce_sum_cons.
      destruct (heldQty m pid); simpl; [f_equal; lia | reflexivity].
    + reflexivity.
Qed.

Lemma calculateSellerStock_unfold (seller : Seller) (products : list Product) :
  Vendedores.calculateSellerStock (Some seller) products
  = filter (λ p, 0 < Vendedores.SellerStock.quantity p)
      (Vendedores.toSellerStock <$> Vendedores.stockMapOf (Firestore.fields seller) products).
Proof. reflexivity. Qed.

Lemma isAssigned_filter (s : Seller.t) (pid : string) :
  isAssigned s pid
  ↔ filter (λ a, AssignedProduct.productId a = pid) (Seller.assignedStock s) ≠ [].
Proof.
  unfold isAssigned. rewrite Exists_exists. split.
  - intros (a & Hin & Heq) Hnil.
    assert (Ha : a ∈ filter (λ a, AssignedProduct.productId a = pid) (Seller.assignedStock s)).
    { apply list_elem_of_filter. split; assumption. }
    rewrite Hnil in Ha. apply elem_of_nil in Ha. exact Ha.
  - intros Hne.
    destruct (filter (λ a, AssignedProduct.productId a = pid) (Seller.assignedStock s))
      as [|a l] eqn:Hf; [congruence|].
    assert (Ha : a ∈ filter (λ a, AssignedProduct.productId a = pid) (Seller.assignedStock s)).
    { rewrite Hf. left. }
    apply list_elem_of_filter in Ha as [Heq Hin]. exists a. split; assumption.
Qed.

(** The quantity the three loops leave under a product: the consigned
    stock, for a product of the catalog with an assignment; no entry
    otherwise. *)
Lemma stockMapOf_heldQty (s : Seller.t) (products : list Product) (pid : string) :
  NoDup (Vendedores.stockMapOf s products).*1
  ∧ heldQty (Vendedores.stockMapOf s products) pid
    = if decide (is_Some (Firestore.findById pid products) ∧ isAssigned s pid)
      then Some (consigned s pid) else None.
Proof.
  unfold Vendedores.stockMapOf.
  destruct (assigned_loop products (Seller.assignedStock s) [] pid (NoDup_nil_2))
    as [Hnd1 Hq1].
  destruct (subtract_sales_loop (Seller.sales s) _ pid Hnd1) as [Hnd2 Hq2].
  destruct (subtract_returns_loop (Seller.returns s) _ pid Hnd2) as [Hnd3 Hq3].
  split; [exact Hnd3|].
  rewrite Hq3, Hq2, Hq1. clear Hq1 Hq2 Hq3.
  destruct (decide (is_Some (Firestore.findById pid products) ∧ isAssigned s pid))
    as [[Hcat Hass]|Hno].
  - apply isAssigned_filter in Hass.
    rewrite (decide_True _ _ (conj Hcat Hass)). simpl.
    f_equal; unfold consigned, assignedTotal, soldTotal, returnedTotal; lia.
  - assert (Hn : ¬ (is_Some (Firestore.findById pid products)
                    ∧ filter (λ a, AssignedProduct.productId a = pid)
                        (Seller.assignedStock s) ≠ [])).
    { intros [Hcat Hass]. apply Hno. split; [exact Hcat|].
      apply isAssigned_filter. exact Hass. }
    rewrite (decide_False _ _ Hn). reflexivity.
Qed.

Lemma Vendedores_get_elem (m : Vendedores.StockMap) (k : string) (d : Vendedores.StockData.t) :
  NoDup m.*1 → (k, d) ∈ m → Vendedores.get m k = Some d.
Proof.
  unfold Vendedores.get. induction m as [|[j w] rest IH]; csimpl; intros Hnd Hin.
  - apply elem_of_nil in Hin. destruct Hin.
  - apply NoDup_cons in Hnd as [Hj Hnd].
    apply elem_of_cons in Hin as [Heq|Hin].
    + injection Heq as -> ->. rewrite bool_decide_eq_true_2 by done. reflexivity.
    + rewrite bool_decide_eq_false_2.
      * apply IH; assumption.
      * intros ->. apply Hj. apply list_elem_of_fmap. exists (k, d). split; [reflexivity | exact Hin].
Qed.

Lemma stockEntry_absent (m : Vendedores.StockMap) (pid : string) :
  pid ∉ m.*1 →
  stockEntry pid (filter (λ p, 0 < Vendedores.SellerStock.quantity p) (Vendedores.toSellerStock <$> m))
  = None.
Proof.
  unfold stockEntry. induction m as [|[j w] rest IH]; csimpl; intros Hnin; [reflexivity|].
  assert (Hrest : pid ∉ rest.*1) by (intros H; apply Hnin; right; exact H).
  assert (Hj : j ≠ pid) by (intros ->; apply Hnin; left).
  rewrite filter_cons. case_decide.
  - simpl. rewrite bool_decide_eq_false_2 by exact Hj. apply IH. exact Hrest.
  - apply IH. exact Hrest.
Qed.

(** Looking a product up in the result: its entry in the map, if the
    quantity there is positive. *)
Lemma stockEntry_of_map (m : Vendedores.StockMap) (pid : string) :
  NoDup m.*1 →
  stockEntry pid (filter (λ p, 0 < Vendedores.SellerStock.quantity p) (Vendedores.toSellerStock <$> m))
  = match Vendedores.get m pid with
    | Some d =>
        if decide (0 < Vendedores.StockData.quantity d)
        then Some (Vendedores.toSellerStock (pid, d)) else None
    | None => None
    end.
Proof.
  induction m as [|[j w] rest IH]; intros Hnd; [reflexivity|].
  apply NoDup_cons in Hnd as [Hj Hnd].
  destruct (decide (j = pid)) as [->|Hne].
  - unfold Vendedores.get. csimpl. rewrite bool_decide_eq_true_2 by done. simpl.
    rewrite filter_cons. simpl. case_decide.
    + unfold stockEntry. simpl. rewrite bool_decide_eq_true_2 by done. reflexivity.
    + apply stockEntry_absent. exact Hj.
  - specialize (IH Hnd). unfold Vendedores.get in *. csimpl.
    rewrite bool_decide_eq_false_2 by exact Hne.
    rewrite filter_cons. simpl. case_decide.
    + unfold stockEntry in *. simpl. rewrite bool_decide_eq_false_2 by exact Hne. exact IH.
    + exact IH.
Qed.

(** The entry of a product in the computed seller stock, in closed form. *)
Lemma stockEntry_closed_form (seller : Seller) (products : list Product) (pid : string) :
  Vendedores.SellerStock.quantity
    <$> stockEntry pid (Vendedores.calculateSellerStock (Some seller) products)
  = if decide ((is_Some (Firestore.findById pid products)
                ∧ isAssigned (Firestore.fields seller) pid)
               ∧ 0 < consigned (Firestore.fields seller) pid)
    then Some (consigned (Firestore.fields seller) pid) else None.
Proof.
  rewrite calculateSellerStock_unfold.
  destruct (stockMapOf_heldQty (Firestore.fields seller) products pid) as [Hnd Hq].
  rewrite (stockEntry_of_map _ pid Hnd). unfold heldQty in Hq.
  destruct (Vendedores.get (Vendedores.stockMapOf (Firestore.fields seller) products) pid) as [d|];
    simpl in Hq.
  - destruct (decide (is_Some (Firestore.findById pid products)
                      ∧ isAssigned (Firestore.fields seller) pid)) as [Hc|Hc];
      [|discriminate].
    injection Hq as Hq.
    destruct (decide (0 < Vendedores.StockData.quantity d)) as [Hpos|Hneg].
    + rewrite (decide_True _ _ (conj Hc (eq_ind _ (λ x, 0 < x) Hpos _ Hq))).
      simpl. f_equal. exact Hq.
    + rewrite decide_False; [reflexivity|]. intros [_ H]. lia.
  - destruct (decide (is_Some (Firestore.findById pid products)
                      ∧ isAssigned (Firestore.fields seller) pid)) as [Hc|Hc];
      [discriminate|].
    rewrite decide_False; [reflexivity|]. tauto.
Qed.

Lemma availableQuantity_closed_form (seller : Seller) (products : list Product) (pid : string) :
  Vendedores.availableQuantity seller products pid
  = if decide (is_Some (Firestore.findById pid products)
               ∧ isAssigned (Firestore.fields seller) pid)
    then Z.max 0 (consigned (Firestore.fields seller) pid) else 0.
Proof.
  unfold Vendedores.availableQuantity.
  change (find _ (Vendedores.calculateSellerStock (Some seller) products))
    with (stockEntry pid (Vendedores.calculateSellerStock (Some seller) products)).
  rewrite stockEntry_closed_form.
  destruct (decide (is_Some (Firestore.findById pid products)
                    ∧ isAssigned (Firestore.fields seller) pid)) as [Hc|Hc].
  - destruct (decide (0 < consigned (Firestore.fields seller) pid)) as [Hp|Hp].
    + rewrite (decide_True _ _ (conj Hc Hp)). simpl. lia.
    + rewrite decide_False by tauto. simpl. lia.
  - rewrite decide_False by tauto. reflexivity.
Qed.

(** C5, as stated, fails: the seller holds ten units of [P], nothing sold
    or returned, so the three sums give 10; but [P] is no longer in the
    catalog, and the computed stock has no entry for it. *)
Lemma consigned_stock_of_deleted_product_dropped :
  consigned (Firestore.fields seller_of_deleted_product) "P" = 10
  ∧ Firestore.findById "P" [soap; bleach] = None
  ∧ Vendedores.calculateSellerStock (Some seller_of_deleted_product) [soap; bleach] = []
  ∧ Vendedores.availableQuantity seller_of_deleted_product [soap; bleach] "P" = 0.
Proof. vm_compute. repeat split. Qed.

(** C5 (amended): for every seller, every catalog and every product that
    is found in the catalog and has at least one [assignedStock] entry,
    the derived consigned stock is the sum of the assigned quantities minus
    the sum of the quantities in the sales items minus the sum of the
    returned quantities of the product: the result has the product's entry
    with that quantity when it is positive, and no entry when it is not.
    Every entry of the result has a positive quantity, equal to that
    difference for its product, which is in the catalog and has an
    assignment.  In particular, with 10 of [P] assigned, 3
    sold and 1 returned, and [P] in the catalog, the quantity of [P] is 6. *)
Theorem consigned_stock_fold :
  (∀ (seller : Seller) (products : list Product) (pid : string),
     is_Some (Firestore.findById pid products) →
     isAssigned (Firestore.fields seller) pid →
     let d := consigned (Firestore.fields seller) pid in
     let stock := Vendedores.calculateSellerStock (Some seller) products in
     (0 < d → ∃ e, stockEntry pid stock = Some e
                   ∧ Vendedores.SellerStock.productId e = pid
                   ∧ Vendedores.SellerStock.quantity e = d)
     ∧ (d ≤ 0 → stockEntry pid stock = None)
     ∧ Vendedores.availableQuantity seller products pid = Z.max 0 d)
  ∧ (∀ (seller : Seller) (products : list Product) (e : Vendedores.SellerStock.t),
       e ∈ Vendedores.calculateSellerStock (Some seller) products →
       0 < Vendedores.SellerStock.quantity e
       ∧ Vendedores.SellerStock.quantity e
         = consigned (Firestore.fields seller) (Vendedores.SellerStock.productId e)
       ∧ is_Some (Firestore.findById (Vendedores.SellerStock.productId e) products)
       ∧ isAssigned (Firestore.fields seller) (Vendedores.SellerStock.productId e))
  ∧ (let stock := Vendedores.calculateSellerStock (Some example_seller) [productP] in
     consigned (Firestore.fields example_seller) "P" = 10 - 3 - 1
     ∧ Vendedores.SellerStock.productId <$> stock = ["P"%string]
     ∧ Vendedores.SellerStock.quantity <$> stock = [6]).
Proof.
  split; [|split].
  - intros seller products pid Hcat Hass d stock.
    pose proof (stockEntry_closed_form seller products pid) as Hq.
    fold stock in Hq. fold d in Hq.
    split; [|split].
    + intros Hpos.
      rewrite (decide_True _ _ (conj (conj Hcat Hass) Hpos)) in Hq.
      destruct (stockEntry pid stock) as [e|] eqn:He; [|discriminate].
      exists e. split; [reflexivity|]. split.
      * unfold stockEntry in He. apply find_some in He as [_ He].
        apply bool_decide_eq_true_1 in He. exact He.
      * injection Hq as Hq. exact Hq.
    + intros Hneg. rewrite decide_False in Hq by (intros [_ H]; lia).
      destruct (stockEntry pid stock); [discriminate | reflexivity].
    + rewrite availableQuantity_closed_form.
      rewrite (decide_True _ _ (conj Hcat Hass)). reflexivity.
  - intros seller products e Hin.
    rewrite calculateSellerStock_unfold in Hin.
    apply list_elem_of_filter in Hin as [Hpos Hin].
    split; [exact Hpos|].
    apply list_elem_of_fmap in Hin as ([k d] & -> & Hkd).
    destruct (stockMapOf_heldQty (Firestore.fields seller) products k) as [Hnd Hq].
    unfold heldQty in Hq. rewrite (Vendedores_get_elem _ k d Hnd Hkd) in Hq.
    simpl in Hq. simpl.
    case_decide as Hc; [|discriminate]. injection Hq as Hq.
    split; [exact Hq | exact Hc].
  - vm_compute. repeat split.
Qed.

Lemma consigned_stock_fold_witness :
  Vendedores.availableQuantity example_seller [productP] "P" = Z.max 0 (10 - 3 - 1).
Proof.
  refine (proj2 (proj2 (proj1 consigned_stock_fold example_seller [productP] "P" _ _))).
  - eexists. reflexivity.
  - apply Exists_cons_hd. reflexivity.
Defined.

(** ** Seller returns *)

Lemma returnedTotal_app (s : Seller.t) (r : SellerReturn.t) (pid : string) :
  SellerReturn.productId r = pid →
  returnedTotal (Vendedores.returnsPatch (Seller.returns s ++ [r]) s) pid
  = returnedTotal s pid + SellerReturn.quantity r.
Proof.
  intros Heq. unfold returnedTotal. simpl.
  rewrite filter_app, reduce_sum_app.
  rewrite (filter_cons_True (λ r, SellerReturn.productId r = pid) r [] Heq).
  rewrite filter_nil, reduce_sum_cons, reduce_sum_nil. lia.
Qed.

(** C9: a return of a positive quantity that the seller holds, entered
    for a seller and a product that the page shows as they are stored,
    goes through; the product's stock grows by the returned quantity when
    the reason is "No vendido" and the [products] collection is left as it
    was when the reason is "Dañado"; in both cases the return is appended
    to the seller's [returns] and nothing else of the seller changes, so
    the seller's derived consigned stock of the product, computed against
    any catalog that has the product, is down by the returned quantity. *)
Theorem register_return_restocks_only_unsold
    (forAction : Seller) (data : Vendedores.ReturnData) (returnId now : string)
    (products : list Product) (sellers : list Seller) (product : Product)
    (stored : Product.t) (db : Db) :
  Firestore.findById (Vendedores.productId data) products = Some product →
  Firestore.findById (Firestore.id forAction) sellers = Some forAction →
  db_sellers db !! Firestore.id forAction = Some (Firestore.fields forAction) →
  db_products db !! Vendedores.productId data = Some stored →
  0 < Vendedores.quantity data →
  Vendedores.quantity data
    ≤ Vendedores.availableQuantity forAction products (Vendedores.productId data) →
  let newReturn :=
    {| SellerReturn.id := returnId;
       SellerReturn.productId := Vendedores.productId data;
       SellerReturn.quantity := Vendedores.quantity data;
       SellerReturn.reason := Vendedores.reason data;
       SellerReturn.timestamp := now |} in
  let updated :=
    Vendedores.returnsPatch (Seller.returns (Firestore.fields forAction) ++ [newReturn])
      (Firestore.fields forAction) in
  ∃ db',
    Vendedores.handleRegisterReturn (Some forAction) data returnId now products sellers db
    = (db', Completed)
    ∧ (Vendedores.reason data = SellerReturn.NoVendido →
       db_products db'
       = <[Vendedores.productId data := incrementStock (Vendedores.quantity data) stored]>
           (db_products db)
       ∧ Product.stock <$> db_products db' !! Vendedores.productId data
         = Some (Product.stock stored + Vendedores.quantity data))
    ∧ (Vendedores.reason data = SellerReturn.Danado → db_products db' = db_products db)
    ∧ db_sellers db' = <[Firestore.id forAction := updated]> (db_sellers db)
    ∧ (∀ products' : list Product,
         is_Some (Firestore.findById (Vendedores.productId data) products') →
         Vendedores.availableQuantity (Firestore.mkMapped (Firestore.id forAction) updated)
           products' (Vendedores.productId data)
         = Vendedores.availableQuantity forAction products (Vendedores.productId data)
           - Vendedores.quantity data).
Proof.
  intros Hprod Hseller Hstored Hpstored Hpos Havail newReturn updated.
  assert (Hrun : ∃ db',
    Vendedores.handleRegisterReturn (Some forAction) data returnId now products sellers db
    = (db', Completed)
    ∧ db_products db'
      = match Vendedores.reason data with
        | SellerReturn.NoVendido =>
            <[Vendedores.productId data := incrementStock (Vendedores.quantity data) stored]>
              (db_products db)
        | SellerReturn.Danado => db_products db
        end
    ∧ db_sellers db' = <[Firestore.id forAction := updated]> (db_sellers db)).
  { unfold Vendedores.handleRegisterReturn. rewrite Hprod, Hseller.
    rewrite bool_decide_eq_false_2 by lia.
    unfold Firestore.updateDoc.
    destruct (Vendedores.reason data) eqn:Hreason.
    - rewrite Hpstored. simpl. rewrite Hstored. eexists. split; [reflexivity|].
      split; reflexivity.
    - simpl. rewrite Hstored. eexists. split; [reflexivity|]. split; reflexivity. }
  destruct Hrun as (db' & Hrun & Hproducts & Hsellers).
  exists db'. split; [exact Hrun|]. split; [|split; [|split]].
  - intros Hreason. rewrite Hreason in Hproducts. split; [exact Hproducts|].
    rewrite Hproducts, lookup_insert_eq. reflexivity.
  - intros Hreason. rewrite Hreason in Hproducts. exact Hproducts.
  - exact Hsellers.
  - intros products' Hcat'.
    rewrite !availableQuantity_closed_form in *.
    assert (Hass : isAssigned updated (Vendedores.productId data)
                   ↔ isAssigned (Firestore.fields forAction) (Vendedores.productId data))
      by reflexivity.
    assert (Hcons : consigned updated (Vendedores.productId data)
                    = consigned (Firestore.fields forAction) (Vendedores.productId data)
                      - Vendedores.quantity data).
    { unfold consigned. unfold updated at 3.
      rewrite (returnedTotal_app _ newReturn _ eq_refl).
      unfold assignedTotal, soldTotal. simpl. lia. }
    simpl Firestore.fields.
    destruct (decide (is_Some (Firestore.findById (Vendedores.productId data) products)
                      ∧ isAssigned (Firestore.fields forAction) (Vendedores.productId data)))
      as [[Hcat Ha]|Hno]; [|lia].
    rewrite (decide_True _ _ (conj Hcat' (proj2 Hass Ha))).
    rewrite Hcons. lia.
Qed.

Lemma register_return_restocks_only_unsold_witness :
  ∃ db',
    Vendedores.handleRegisterReturn (Some example_seller) (return_two SellerReturn.Danado)
      "RET-2" "t5" [productP] [example_seller] sellers_db
    = (db', Completed)
    ∧ db_products db' = db_products sellers_db
    ∧ (length ∘ Seller.returns) <$> db_sellers db' !! "v1" = Some 2%nat.
Proof.
  destruct (register_return_restocks_only_unsold example_seller
              (return_two SellerReturn.Danado) "RET-2" "t5" [productP] [example_seller]
              productP (Firestore.fields productP) sellers_db)
    as (db' & Hrun & _ & Hkeep & Hsellers & _).
  - reflexivity.
  - reflexivity.
  - reflexivity.
  - reflexivity.
  - reflexivity.
  - vm_compute. discriminate.
  - exists db'. split; [exact Hrun|]. split; [exact (Hkeep eq_refl)|].
    rewrite Hsellers. reflexivity.
Defined.

(** ** Receiving a supplier order *)

Lemma addDocs_other {A : Type} (autoId : nat → string) (items : list A) (i : nat)
    (c : gmap string A) (k : string) :
  (∀ n, (n < length items)%nat → autoId (i + n)%nat ≠ k) →
  Firestore.addDocs autoId i items c !! k = c !! k.
Proof.
  revert i c. induction items as [|x items IH]; intros i c Hk; simpl; [reflexivity|].
  rewrite IH.
  - unfold Firestore.addDoc. apply lookup_insert_ne.
    specialize (Hk 0%nat). rewrite Nat.add_0_r in Hk. apply Hk. simpl. lia.
  - intros n Hn. replace (S i + n)%nat with (i + S n)%nat by lia.
    apply Hk. simpl. lia.
Qed.

Lemma addDocs_new {A : Type} (autoId : nat → string) (items : list A) (i : nat)
    (c : gmap string A) (n : nat) (x : A) :
  (∀ a b, (a < length items)%nat → (b < length items)%nat →
          autoId (i + a)%nat = autoId (i + b)%nat → a = b) →
  items !! n = Some x →
  Firestore.addDocs autoId i items c !! autoId (i + n)%nat = Some x.
Proof.
  revert i c n. induction items as [|y items IH]; intros i c n Hinj Hn; [discriminate|].
  simpl. destruct n as [|n].
  - injection Hn as ->. rewrite Nat.add_0_r.
    rewrite addDocs_other.
    + unfold Firestore.addDoc. apply lookup_insert_eq.
    + intros m Hm Heq.
      assert (S m = 0)%nat; [|lia].
      apply Hinj; simpl; try lia.
      rewrite Nat.add_0_r. rewrite <- Heq. f_equal. lia.
  - replace (i + S n)%nat with (S i + n)%nat by lia.
    apply IH; [|exact Hn].
    intros a b Ha Hb Heq.
    assert (S a = S b); [|lia].
    apply Hinj; simpl; try lia.
    replace (i + S a)%nat with (S i + a)%nat by lia.
    replace (i + S b)%nat with (S i + b)%nat by lia. exact Heq.
Qed.

Lemma addDocs_size {A : Type} (autoId : nat → string) (items : list A) (i : nat)
    (c : gmap string A) :
  (∀ a b, (a < length items)%nat → (b < length items)%nat →
          autoId (i + a)%nat = autoId (i + b)%nat → a = b) →
  (∀ n, (n < length items)%nat → c !! autoId (i + n)%nat = None) →
  size (Firestore.addDocs autoId i items c) = (size c + length items)%nat.
Proof.
  revert i c. induction items as [|y items IH]; intros i c Hinj Hfresh; simpl; [lia|].
  rewrite IH.
  - unfold Firestore.addDoc. rewrite map_size_insert_None; [lia|].
    specialize (Hfresh 0%nat). rewrite Nat.add_0_r in Hfresh. apply Hfresh. simpl. lia.
  - intros a b Ha Hb Heq.
    assert (S a = S b); [|lia].
    apply Hinj; simpl; try lia.
    replace (i + S a)%nat with (S i + a)%nat by lia.
    replace (i + S b)%nat with (S i + b)%nat by lia. exact Heq.
  - intros n Hn. unfold Firestore.addDoc. rewrite lookup_insert_ne.
    + replace (S i + n)%nat with (i + S n)%nat by lia. apply Hfresh. simpl. lia.
    + intros Heq.
      assert (0 = S n)%nat; [|lia].
      apply Hinj; simpl; try lia.
      rewrite Nat.add_0_r. rewrite Heq. f_equal. lia.
Qed.

Lemma existsb_short (items : list Proveedores.ReceiveOrderItem) :
  existsb (λ item, bool_decide (Proveedores.receivedQuantity item
                                < Proveedores.orderedQuantity item)) items = true
  ↔ Exists (λ item, Proveedores.receivedQuantity item < Proveedores.orderedQuantity item)
      items.
Proof.
  induction items as [|x items IH]; simpl.
  - split; [discriminate | intros H; inversion H].
  - rewrite orb_true_iff, IH, Exists_cons, bool_decide_eq_true. reflexivity.
Qed.

(** C7: receiving an order that the page shows as it is stored, with
    fresh ids for the new documents, goes through and
    - creates one [general-stock] document for each line with a received
      quantity above zero, holding the line's name, unit and received
      quantity; every document that was there before is still there,
      unchanged, whatever its name, and the collection has grown by the
      number of such lines;
    - sets the order's status to Recibido when every line's received
      quantity equals (or reaches) its ordered quantity, and to Recibido
      (Parcial) when some line's received quantity is below its ordered
      quantity;
    - stamps the order with [receivedDate] and with [receivedItems], the
      name, unit and entered quantity of every line. *)
Theorem receive_order_adds_stock_and_stamps
    (order : SupplierOrder) (items : list Proveedores.ReceiveOrderItem)
    (today now : string) (autoId : nat → string) (db : Db) :
  let received := filter (λ item, 0 < Proveedores.receivedQuantity item) items in
  db_supplier_orders db !! Firestore.id order = Some (Firestore.fields order) →
  (∀ a b, (a < length received)%nat → (b < length received)%nat →
          autoId a = autoId b → a = b) →
  (∀ n, (n < length received)%nat → db_general_stock db !! autoId n = None) →
  ∃ db' stored,
    Proveedores.handleReceiveOrderSubmit (Some order) items today now autoId db
    = (db', Completed)
    ∧ (∀ n item, received !! n = Some item →
         db_general_stock db' !! autoId n = Some (Proveedores.newStockItem order today item)
         ∧ GeneralStockItem.name (Proveedores.newStockItem order today item)
           = Proveedores.name item
         ∧ GeneralStockItem.quantity (Proveedores.newStockItem order today item)
           = Proveedores.receivedQuantity item)
    ∧ (∀ k d, db_general_stock db !! k = Some d → db_general_stock db' !! k = Some d)
    ∧ size (db_general_stock db') = (size (db_general_stock db) + length received)%nat
    ∧ db_supplier_orders db' !! Firestore.id order = Some stored
    ∧ (Forall (λ item, Proveedores.receivedQuantity item = Proveedores.orderedQuantity item)
         items →
       SupplierOrder.status stored = SupplierOrder.Recibido)
    ∧ (Forall (λ item, Proveedores.orderedQuantity item ≤ Proveedores.receivedQuantity item)
         items →
       SupplierOrder.status stored = SupplierOrder.Recibido)
    ∧ (Exists (λ item, Proveedores.receivedQuantity item < Proveedores.orderedQuantity item)
         items →
       SupplierOrder.status stored = SupplierOrder.RecibidoParcial)
    ∧ SupplierOrder.receivedDate stored = Some now
    ∧ SupplierOrder.receivedItems stored
      = Some ((λ item, {| ReceivedItem.name := Proveedores.name item;
                          ReceivedItem.quantity := Proveedores.receivedQuantity item;
                          ReceivedItem.unit := Proveedores.unit item |}) <$> items)
    ∧ stored = Proveedores.receiptPatch (SupplierOrder.status stored) now
                 (default [] (SupplierOrder.receivedItems stored)) (Firestore.fields order).
Proof.
  intros received Hstored Hinj Hfresh.
  eexists. eexists. split.
  - unfold Proveedores.handleReceiveOrderSubmit, Firestore.updateDoc. simpl.
    rewrite Hstored. reflexivity.
  - simpl. fold received.
    assert (Hshort : ∀ P : Prop,
      (Forall (λ item, Proveedores.orderedQuantity item ≤ Proveedores.receivedQuantity item)
         items → P) →
      (Forall (λ item, Proveedores.receivedQuantity item = Proveedores.orderedQuantity item)
         items → P)).
    { intros P HP Hall. apply HP. eapply Forall_impl; [exact Hall|].
      intros x Hx. simpl in Hx. lia. }
    assert (Hfull :
      Forall (λ item, Proveedores.orderedQuantity item ≤ Proveedores.receivedQuantity item)
        items →
      existsb (λ item, bool_decide (Proveedores.receivedQuantity item
                                    < Proveedores.orderedQuantity item)) items = false).
    { intros Hall. apply not_true_is_false. intros Hex.
      apply existsb_short in Hex. apply Exists_exists in Hex as (x & Hx & Hlt).
      rewrite Forall_forall in Hall. specialize (Hall x Hx). simpl in Hall. lia. }
    split; [|split; [|split; [|split; [|split; [|split; [|split; [|split; [|split]]]]]]]].
    + intros n item Hn. split; [|split; reflexivity].
      apply (addDocs_new autoId _ 0%nat (db_general_stock db) n).
      * rewrite length_fmap. exact Hinj.
      * rewrite list_lookup_fmap, Hn. reflexivity.
    + intros k d Hk. rewrite addDocs_other; [exact Hk|].
      intros n Hn Heq. rewrite length_fmap in Hn. simpl in Heq.
      rewrite <- Heq, (Hfresh n Hn) in Hk. discriminate.
    + rewrite addDocs_size.
      * rewrite length_fmap. reflexivity.
      * rewrite length_fmap. exact Hinj.
      * rewrite length_fmap. exact Hfresh.
    + apply lookup_insert_eq.
    + apply Hshort. intros Hall. rewrite (Hfull Hall). reflexivity.
    + intros Hall. rewrite (Hfull Hall). reflexivity.
    + intros Hex. apply existsb_short in Hex. rewrite Hex. reflexivity.
    + reflexivity.
    + reflexivity.
    + reflexivity.
Qed.

Lemma receive_order_adds_stock_and_stamps_witness :
  ∃ db' stored,
    Proveedores.handleReceiveOrderSubmit (Some bottles_order) bottles_received
      "2024-05-09" "2024-05-09T12:00:00Z" bottles_ids bottles_db = (db', Completed)
    ∧ size (db_general_stock db') = 3%nat
    ∧ GeneralStockItem.quantity <$> db_general_stock db' !! "g0" = Some 7
    ∧ GeneralStockItem.quantity <$> db_general_stock db' !! "g1" = Some 10
    ∧ GeneralStockItem.quantity <$> db_general_stock db' !! "g2" = Some 3
    ∧ db_supplier_orders db' !! "so1" = Some stored
    ∧ SupplierOrder.status stored = SupplierOrder.RecibidoParcial.
Proof.
  destruct (receive_order_adds_stock_and_stamps bottles_order bottles_received
              "2024-05-09" "2024-05-09T12:00:00Z" bottles_ids bottles_db)
    as (db' & stored & Hrun & Hnew & Hold & Hsize & Hlook & _ & _ & Hpartial & _).
  - reflexivity.
  - intros a b Ha Hb. simpl in Ha, Hb.
    destruct a as [|[|a]]; destruct b as [|[|b]]; try lia; vm_compute; intros; congruence.
  - intros n Hn. simpl in Hn. destruct n as [|[|n]]; try lia; reflexivity.
  - exists db', stored. split; [exact Hrun|].
    split; [rewrite Hsize; reflexivity|].
    split; [erewrite Hold by reflexivity; reflexivity|].
    pose proof (proj1 (Hnew 0%nat _ eq_refl)) as Hg1.
    pose proof (proj1 (Hnew 1%nat _ eq_refl)) as Hg2.
    vm_compute in Hg1, Hg2.
    split; [etransitivity; [exact (f_equal (fmap GeneralStockItem.quantity) Hg1) | reflexivity]|].
    split; [etransitivity; [exact (f_equal (fmap GeneralStockItem.quantity) Hg2) | reflexivity]|].
    split; [exact Hlook|].
    apply Hpartial. apply Exists_cons_tl, Exists_cons_hd. simpl. lia.
Defined.

(** * Further properties of the handlers *)

(** ** Snapshots *)

Lemma find_mapped_elem {A : Type} (l : list (string * A)) (k : string) (v : A) :
  NoDup l.*1 → (k, v) ∈ l →
  Firestore.findById k (Firestore.mapDocTo noStoredId <$> l) = Some (Firestore.mkMapped k v).
Proof.
  unfold Firestore.findById.
  induction l as [|[j w] l IH]; csimpl; intros Hnd Hin.
  - apply elem_of_nil in Hin. destruct Hin.
  - apply NoDup_cons in Hnd as [Hj Hnd].
    apply elem_of_cons in Hin as [Heq|Hin].
    + injection Heq as -> ->. rewrite bool_decide_eq_true_2 by reflexivity. reflexivity.
    + rewrite bool_decide_eq_false_2.
      * apply IH; assumption.
      * simpl. intros ->. apply Hj. apply list_elem_of_fmap.
        exists (k, v). split; [reflexivity | exact Hin].
Qed.

Lemma find_mapped_absent {A : Type} (l : list (string * A)) (k : string) :
  k ∉ l.*1 → Firestore.findById k (Firestore.mapDocTo noStoredId <$> l) = None.
Proof.
  unfold Firestore.findById.
  induction l as [|[j w] l IH]; csimpl; intros Hnin; [reflexivity|].
  rewrite bool_decide_eq_false_2.
  - apply IH. intros Hin. apply Hnin. right. exact Hin.
  - simpl. intros ->. apply Hnin. left.
Qed.

Lemma find_snapshot_lookup {A : Type} (c : gmap string A) (k : string) :
  Firestore.findById k (Firestore.snapshot noStoredId c)
  = Firestore.mkMapped k <$> c !! k.
Proof.
  unfold Firestore.snapshot, Firestore.docs.
  destruct (c !! k) as [v|] eqn:Hk; simpl.
  - apply find_mapped_elem.
    + apply NoDup_fst_map_to_list.
    + apply elem_of_map_to_list. exact Hk.
  - apply find_mapped_absent. intros Hin.
    apply list_elem_of_fmap in Hin as ([j v] & Hj & Hin). simpl in Hj. subst j.
    apply elem_of_map_to_list in Hin. congruence.
Qed.

(** X1: what a page sees of a collection whose documents store no [id]
    field.  Looking an id up in the page's snapshot is looking the
    document up in the collection: the page finds a document exactly under
    its document id, with the stored fields.  So a document just added is
    found under the generated id, a document just deleted is not found,
    and after an accepted update the page finds the patched fields. *)
Theorem snapshot_findById_lookup {A : Type} (c : gmap string A) (k : string) :
  Firestore.findById k (Firestore.snapshot noStoredId c)
  = Firestore.mkMapped k <$> c !! k
  ∧ (∀ d, Firestore.findById k (Firestore.snapshot noStoredId (Firestore.addDoc k d c))
          = Some (Firestore.mkMapped k d))
  ∧ Firestore.findById k (Firestore.snapshot noStoredId (Firestore.deleteDoc k c)) = None
  ∧ (∀ patch c', Firestore.updateDoc k patch c = Some c' →
       Firestore.findById k (Firestore.snapshot noStoredId c')
       = (λ d, Firestore.mkMapped k (patch d)) <$> c !! k).
Proof.
  split; [apply find_snapshot_lookup|]. split; [|split].
  - intros d. rewrite find_snapshot_lookup. unfold Firestore.addDoc.
    rewrite lookup_insert_eq. reflexivity.
  - rewrite find_snapshot_lookup. unfold Firestore.deleteDoc.
    rewrite lookup_delete_eq. reflexivity.
  - intros patch c' Hup. rewrite find_snapshot_lookup.
    unfold Firestore.updateDoc in Hup. destruct (c !! k) as [d|]; [|discriminate].
    injection Hup as <-. rewrite lookup_insert_eq. reflexivity.
Qed.

(** ** Cash drawer: totals *)

(** X3: the closing dialog and the history table agree on the cash
    difference: for any counted figures on a form that carries its
    observations, [handleCloseBox] files a record, and the "Diferencia
    Efectivo" that the history page computes from that record (counted
    cash minus cash sales, initial amount and expenses, summed again from
    the record) is the Efectivo difference the dialog showed before
    closing. *)
Theorem history_difference_is_dialog_difference
    (s : CashSession) (counted : Caja.CloseBoxFormData) (text now : string) (db : Db) :
  Caja.observations counted = Some text →
  ∃ db' h,
    Caja.handleCloseBox (Some s) now counted db = (db', Completed)
    ∧ db_caja_history db' !! Firestore.id s = Some h
    ∧ Firestore.mapDocTo CashSession.id (Firestore.id s, h) = closedSession s now counted
    ∧ Caja.historyDiff (closedSession s now counted)
      = Caja.diff_Efectivo (Caja.differences (Some s) counted).
Proof.
  intros Hobs. unfold Caja.handleCloseBox. rewrite Hobs.
  eexists _, _. split; [reflexivity|].
  split; [simpl; apply lookup_insert_eq|].
  split; [unfold closedSession; rewrite Hobs; reflexivity|].
  unfold Caja.historyDiff, Caja.differences. rewrite expectedCashInBox_eq. simpl.
  unfold methodTotal. lia.
Qed.

Lemma history_difference_is_dialog_difference_witness :
  ∃ db' h,
    Caja.handleCloseBox (Some float_only_session) "t3" counted_100 opened_db
    = (db', Completed)
    ∧ db_caja_history db' !! "s1" = Some h
    ∧ Firestore.mapDocTo CashSession.id ("s1"%string, h)
      = closedSession float_only_session "t3" counted_100
    ∧ Caja.historyDiff (closedSession float_only_session "t3" counted_100)
      = Caja.diff_Efectivo (Caja.differences (Some float_only_session) counted_100).
Proof.
  exact (history_difference_is_dialog_difference float_only_session counted_100 "" "t3"
           opened_db eq_refl).
Defined.

(** ** Cash drawer: opening, expenses, closing *)

(** X4: [handleOpenBox] keeps at most one live session.  With a session
    document present it writes nothing; on an empty collection it creates
    one session, which the page then shows with no sales, no expenses and
    an expected cash equal to the opening amount; and opening again right
    after is refused. *)
Theorem open_box_single_fresh_session
    (username : option string) (now autoId : string) (amount : Z) (db : Db) :
  (db_caja_sessions db ≠ ∅ →
     Caja.handleOpenBox username now autoId amount db = (db, Aborted))
  ∧ (db_caja_sessions db = ∅ →
     ∃ db' s,
       Caja.handleOpenBox username now autoId amount db = (db', Completed)
       ∧ Caja.liveSession db' = Some s
       ∧ Firestore.id s = autoId
       ∧ CashSession.sales (Firestore.fields s) = []
       ∧ CashSession.expenses (Firestore.fields s) = []
       ∧ Caja.expectedCashInBox s = amount
       ∧ Caja.exp_Total (Caja.expectedTotals (Some s)) = 0
       ∧ db_caja_history db' = db_caja_history db
       ∧ ∀ username' now' autoId' amount',
           Caja.handleOpenBox username' now' autoId' amount' db' = (db', Aborted)).
Proof.
  split; intros Hs; unfold Caja.handleOpenBox.
  - rewrite bool_decide_eq_false_2 by exact Hs. reflexivity.
  - rewrite bool_decide_eq_true_2 by exact Hs.
    eexists _, _. split; [reflexivity|].
    split.
    { unfold Caja.liveSession, Firestore.docs, Firestore.addDoc. simpl.
      rewrite Hs, insert_empty, map_to_list_singleton. reflexivity. }
    repeat split.
    + unfold Caja.expectedCashInBox. simpl. rewrite !reduce_sum_nil. lia.
    + intros username' now' autoId' amount'.
      rewrite bool_decide_eq_false_2; [reflexivity|].
      simpl. unfold Firestore.addDoc. apply insert_non_empty.
Qed.

Lemma open_box_single_fresh_session_witness :
  ∃ db' s,
    Caja.handleOpenBox (Some "ana"%string) "t0" "s1" 100 emptyDb = (db', Completed)
    ∧ Caja.liveSession db' = Some s
    ∧ Firestore.id s = "s1"%string
    ∧ CashSession.sales (Firestore.fields s) = []
    ∧ CashSession.expenses (Firestore.fields s) = []
    ∧ Caja.expectedCashInBox s = 100
    ∧ Caja.exp_Total (Caja.expectedTotals (Some s)) = 0
    ∧ db_caja_history db' = db_caja_history emptyDb
    ∧ ∀ username' now' autoId' amount',
        Caja.handleOpenBox username' now' autoId' amount' db' = (db', Aborted).
Proof.
  exact (proj2 (open_box_single_fresh_session (Some "ana"%string) "t0" "s1" 100 emptyDb)
           eq_refl).
Defined.

(** X5: an expense entered on the page goes to the end of the session's
    expense list and touches nothing else: the stored sales and opening
    amount are kept (only the [expenses] field is patched, and it is
    rebuilt from the page's list) and no other session document changes.
    On the page that shows the session as stored, the expense total
    becomes the former expense total plus the amount, the expected cash in
    the drawer becomes the opening amount plus the cash sales minus that
    new expense total, and the sales total stays. *)
Theorem add_expense_lowers_expected_cash
    (s : CashSession) (expenseId now description : string) (amount : Z) (db : Db)
    (d : CashSession.t) :
  db_caja_sessions db !! Firestore.id s = Some d →
  let e := {| Expense.id := expenseId; Expense.timestamp := now;
              Expense.description := description; Expense.amount := amount |} in
  ∃ db' d',
    Caja.handleAddExpense (Some s) expenseId now description amount db = (db', Completed)
    ∧ db_caja_sessions db' !! Firestore.id s = Some d'
    ∧ CashSession.expenses d' = CashSession.expenses (Firestore.fields s) ++ [e]
    ∧ CashSession.sales d' = CashSession.sales d
    ∧ CashSession.initialAmount d' = CashSession.initialAmount d
    ∧ (∀ k, k ≠ Firestore.id s → db_caja_sessions db' !! k = db_caja_sessions db !! k)
    ∧ db_caja_history db' = db_caja_history db
    ∧ (d = Firestore.fields s →
       d' = Firestore.fields (withExpense s e)
       ∧ Caja.exp_Gastos (Caja.expectedTotals (Some (withExpense s e)))
         = Caja.exp_Gastos (Caja.expectedTotals (Some s)) + amount
       ∧ Caja.expectedCashInBox (withExpense s e)
         = CashSession.initialAmount (Firestore.fields s)
           + Caja.exp_Efectivo (Caja.expectedTotals (Some s))
           - (Caja.exp_Gastos (Caja.expectedTotals (Some s)) + amount)
       ∧ Caja.exp_Total (Caja.expectedTotals (Some (withExpense s e)))
         = Caja.exp_Total (Caja.expectedTotals (Some s))).
Proof.
  intros Hd e. unfold Caja.handleAddExpense, Firestore.updateDoc. rewrite Hd.
  eexists _, _. split; [reflexivity|]. simpl.
  split; [apply lookup_insert_eq|].
  split; [reflexivity|]. split; [reflexivity|]. split; [reflexivity|].
  split; [intros k Hk; apply lookup_insert_ne; congruence|].
  split; [reflexivity|].
  intros ->. split; [reflexivity|].
  unfold Caja.expectedCashInBox. simpl.
  rewrite reduce_sum_app, reduce_sum_cons, reduce_sum_nil. simpl.
  repeat split; lia.
Qed.

Lemma add_expense_lowers_expected_cash_witness :
  ∃ db' d',
    Caja.handleAddExpense (Some float_only_session) "EXP-1" "t2" "flete" 20
      (Caja.handleOpenBox (Some "ana"%string) "t0" "s1" 100 emptyDb).1 = (db', Completed)
    ∧ db_caja_sessions db' !! "s1" = Some d'
    ∧ Expense.amount <$> CashSession.expenses d' = [20]
    ∧ Caja.expectedCashInBox (Firestore.mkMapped "s1" d') = 80.
Proof.
  destruct (add_expense_lowers_expected_cash float_only_session "EXP-1" "t2" "flete" 20
              (Caja.handleOpenBox (Some "ana"%string) "t0" "s1" 100 emptyDb).1
              (Firestore.fields float_only_session) eq_refl)
    as (db' & d' & Hrun & Hlook & Hexp & _ & _ & _ & _ & Hsync).
  exists db', d'. split; [exact Hrun|]. split; [exact Hlook|].
  destruct (Hsync eq_refl) as (-> & _ & Hcash & _).
  split; [reflexivity|]. etransitivity; [exact Hcash | reflexivity].
Defined.

(** X6: an expense for a session whose document no longer exists (closed
    from another tab, say) is rejected and nothing is written; with no
    session on the page the handler returns at once. *)
Theorem add_expense_without_session_document
    (s : CashSession) (expenseId now description : string) (amount : Z) (db : Db) :
  db_caja_sessions db !! Firestore.id s = None →
  Caja.handleAddExpense (Some s) expenseId now description amount db = (db, Failed)
  ∧ Caja.handleAddExpense None expenseId now description amount db = (db, Aborted).
Proof.
  intros Hd. unfold Caja.handleAddExpense, Firestore.updateDoc. rewrite Hd.
  split; reflexivity.
Qed.

Lemma add_expense_without_session_document_witness :
  Caja.handleAddExpense (Some float_only_session) "EXP-1" "t2" "flete" 20 emptyDb
  = (emptyDb, Failed)
  ∧ Caja.handleAddExpense None "EXP-1" "t2" "flete" 20 emptyDb = (emptyDb, Aborted).
Proof.
  exact (add_expense_without_session_document float_only_session "EXP-1" "t2" "flete" 20
           emptyDb eq_refl).
Defined.

(** X7: closing the one live session.  A form with no observations field
    is rejected by the history write: the handler fails, nothing is filed
    and the session stays live.  A form that carries its observations
    empties [caja-sessions] and files the session in the history under the
    same id, with its sales, expenses and opening amount and with the
    counted figures, whatever the differences are; the other history
    records are untouched.  The drawer can then be opened again, and the
    new session starts with no sales or expenses of the closed one. *)
Theorem close_then_reopen
    (s : CashSession) (now : string) (counted : Caja.CloseBoxFormData) (db : Db)
    (username : option string) (now' autoId : string) (amount : Z) :
  db_caja_sessions db = {[ Firestore.id s := Firestore.fields s ]} →
  (Caja.observations counted = None →
   Caja.handleCloseBox (Some s) now counted db = (db, Failed))
  ∧ (∀ text, Caja.observations counted = Some text →
     ∃ db1,
       Caja.handleCloseBox (Some s) now counted db = (db1, Completed)
       ∧ db_caja_sessions db1 = ∅
       ∧ Caja.liveSession db1 = None
       ∧ db_caja_history db1 !! Firestore.id s
         = Some (Firestore.fields (closedSession s now counted))
       ∧ (∀ k, k ≠ Firestore.id s → db_caja_history db1 !! k = db_caja_history db !! k)
       ∧ ∃ db2 s2,
           Caja.handleOpenBox username now' autoId amount db1 = (db2, Completed)
           ∧ Caja.liveSession db2 = Some s2
           ∧ CashSession.sales (Firestore.fields s2) = []
           ∧ CashSession.expenses (Firestore.fields s2) = []
           ∧ Caja.expectedCashInBox s2 = amount
           ∧ db_caja_history db2 = db_caja_history db1).
Proof.
  intros Hs. split.
  { intros Hobs. unfold Caja.handleCloseBox. rewrite Hobs. reflexivity. }
  intros text Hobs.
  assert (Hempty : Firestore.deleteDoc (Firestore.id s) (db_caja_sessions db) = ∅).
  { unfold Firestore.deleteDoc. rewrite Hs. apply delete_singleton_eq. }
  unfold Caja.handleCloseBox, closedSession. rewrite Hobs.
  eexists. split; [reflexivity|]. simpl.
  split; [exact Hempty|].
  split; [unfold Caja.liveSession, Firestore.docs; simpl; rewrite Hempty;
          rewrite map_to_list_empty; reflexivity|].
  split; [apply lookup_insert_eq|].
  split; [intros k Hk; apply lookup_insert_ne; congruence|].
  unfold Caja.handleOpenBox. simpl.
  rewrite bool_decide_eq_true_2 by exact Hempty.
  eexists _, _. split; [reflexivity|].
  split.
  { unfold Caja.liveSession, Firestore.docs, Firestore.addDoc. simpl.
    rewrite Hempty, insert_empty, map_to_list_singleton. reflexivity. }
  repeat split.
  unfold Caja.expectedCashInBox. simpl. rewrite !reduce_sum_nil. lia.
Qed.

Lemma close_then_reopen_witness :
  Caja.liveSession opened_db = Some float_only_session
  ∧ Caja.handleCloseBox (Some float_only_session) "t3" counted_100_undefined opened_db
    = (opened_db, Failed)
  ∧ ∃ db1,
      Caja.handleCloseBox (Some float_only_session) "t3" counted_100 opened_db
      = (db1, Completed)
      ∧ db_caja_sessions db1 = ∅
      ∧ Caja.liveSession db1 = None
      ∧ db_caja_history db1 !! "s1"
        = Some (Firestore.fields (closedSession float_only_session "t3" counted_100))
      ∧ (∀ k, k ≠ "s1"%string → db_caja_history db1 !! k = db_caja_history opened_db !! k)
      ∧ ∃ db2 s2,
          Caja.handleOpenBox (Some "ana"%string) "t4" "s2" 50 db1 = (db2, Completed)
          ∧ Caja.liveSession db2 = Some s2
          ∧ CashSession.sales (Firestore.fields s2) = []
          ∧ CashSession.expenses (Firestore.fields s2) = []
          ∧ Caja.expectedCashInBox s2 = 50
          ∧ db_caja_history db2 = db_caja_history db1.
Proof.
  split; [vm_compute; reflexivity|]. split.
  - apply (proj1 (close_then_reopen float_only_session "t3" counted_100_undefined opened_db
                    (Some "ana"%string) "t4" "s2" 50 eq_refl)).
    reflexivity.
  - apply (proj2 (close_then_reopen float_only_session "t3" counted_100 opened_db
                    (Some "ana"%string) "t4" "s2" 50 eq_refl) ""%string).
    reflexivity.
Defined.

(** ** Point of sale: the cart *)

Lemma cartQuantity_nil (itemId : string) : cartQuantity itemId [] = 0.
Proof. reflexivity. Qed.

Lemma cartQuantity_cons (itemId : string) (line : Ventas.CartItem) (cart : list Ventas.CartItem) :
  cartQuantity itemId (line :: cart)
  = (if decide (Ventas.saleableId (Ventas.item line) = itemId)
     then Ventas.quantity line else 0) + cartQuantity itemId cart.
Proof.
  unfold cartQuantity. rewrite filter_cons.
  destruct (decide (Ventas.saleableId (Ventas.item line) = itemId));
    [rewrite reduce_sum_cons|]; lia.
Qed.

Lemma cartQuantity_app (itemId : string) (xs ys : list Ventas.CartItem) :
  cartQuantity itemId (xs ++ ys) = cartQuantity itemId xs + cartQuantity itemId ys.
Proof.
  unfold cartQuantity. rewrite filter_app, reduce_sum_app. reflexivity.
Qed.

Lemma cart_find_None (newItem : Ventas.SaleableItem) (cart : list Ventas.CartItem) :
  find (λ cartItem, bool_decide (Ventas.saleableId (Ventas.item cartItem)
                                 = Ventas.saleableId newItem)) cart = None
  ↔ Ventas.saleableId newItem ∉ cartIds cart.
Proof.
  unfold cartIds. induction cart as [|line cart IH]; csimpl.
  - split; [intros _ Hin; apply elem_of_nil in Hin; destruct Hin | reflexivity].
  - case_bool_decide as Heq.
    + split; [discriminate|]. intros Hnin. exfalso. apply Hnin. rewrite Heq. left.
    + rewrite IH. split.
      * intros Hnin Hin. apply elem_of_cons in Hin as [Hin|Hin]; [congruence|tauto].
      * intros Hnin Hin. apply Hnin. right. exact Hin.
Qed.

(** Adding to the lines of one id: ids are kept, and a cart with distinct
    ids gains the quantity once. *)
Lemma cart_bump_ids (newId : string) (q : Z) (cart : list Ventas.CartItem) :
  cartIds ((λ cartItem,
              if bool_decide (Ventas.saleableId (Ventas.item cartItem) = newId)
              then {| Ventas.item := Ventas.item cartItem;
                      Ventas.quantity := Ventas.quantity cartItem + q |}
              else cartItem) <$> cart)
  = cartIds cart.
Proof.
  unfold cartIds. induction cart as [|line cart IH]; csimpl; [reflexivity|].
  rewrite IH. f_equal. case_bool_decide; reflexivity.
Qed.

Lemma cart_bump_quantity (newId : string) (q : Z) (cart : list Ventas.CartItem) (itemId : string) :
  NoDup (cartIds cart) →
  cartQuantity itemId
    ((λ cartItem,
        if bool_decide (Ventas.saleableId (Ventas.item cartItem) = newId)
        then {| Ventas.item := Ventas.item cartItem;
                Ventas.quantity := Ventas.quantity cartItem + q |}
        else cartItem) <$> cart)
  = cartQuantity itemId cart
    + (if decide (itemId = newId ∧ newId ∈ cartIds cart) then q else 0).
Proof.
  induction cart as [|line cart IH]; intros Hnd.
  - csimpl. rewrite cartQuantity_nil.
    case_decide as H; [|lia]. destruct H as [_ H]. apply elem_of_nil in H. destruct H.
  - unfold cartIds in Hnd. csimpl in Hnd. apply NoDup_cons in Hnd as [Hhd Hnd].
    fold (cartIds cart) in Hhd, Hnd.
    csimpl. rewrite !cartQuantity_cons, (IH Hnd). clear IH.
    unfold cartIds at 2. csimpl. fold (cartIds cart).
    case_bool_decide as Hline; simpl.
    + subst newId.
      destruct (decide (Ventas.saleableId (Ventas.item line) = itemId)) as [<-|Hne].
      * rewrite (decide_False _ _ (λ H, Hhd (proj2 H))).
        rewrite (decide_True _ _ (conj eq_refl (list_elem_of_here _ _))). lia.
      * destruct (decide (itemId = Ventas.saleableId (Ventas.item line)
                          ∧ Ventas.saleableId (Ventas.item line) ∈ cartIds cart))
          as [[? _]|_]; [congruence|].
        destruct (decide (itemId = Ventas.saleableId (Ventas.item line)
                          ∧ Ventas.saleableId (Ventas.item line)
                            ∈ Ventas.saleableId (Ventas.item line) :: cartIds cart))
          as [[? _]|_]; [congruence|]. lia.
    + destruct (decide (itemId = newId ∧ newId ∈ cartIds cart)) as [[-> Hin]|Hn].
      * rewrite (decide_True _ _ (conj eq_refl (list_elem_of_further _ _ _ Hin))). lia.
      * destruct (decide (itemId = newId
                          ∧ newId ∈ Ventas.saleableId (Ventas.item line) :: cartIds cart))
          as [[-> Hin]|_]; [|lia].
        apply elem_of_cons in Hin as [Hin|Hin]; [congruence|].
        exfalso. apply Hn. split; [reflexivity | exact Hin].
Qed.

(** X8: how [addToCart] changes the cart.  A quantity of zero or less
    changes nothing.  A positive quantity keeps the ids of the cart's
    lines distinct (an item already in the cart gets no second line), adds
    exactly that quantity to the item and leaves every other item's
    quantity alone, keeps every line's quantity positive, and resets the
    item's quantity box to 0.  No stock figure is consulted: the cart can
    hold more than the item's stock.  Entering the quantity in the item's
    box and pressing the add button gives the same cart. *)
Theorem addToCart_merges_lines
    (newItem : Ventas.SaleableItem) (newQuantity : Z)
    (cart : list Ventas.CartItem) (itemQuantities : gmap string Z) :
  NoDup (cartIds cart) →
  (newQuantity ≤ 0 →
     Ventas.addToCart newItem newQuantity (cart, itemQuantities) = (cart, itemQuantities))
  ∧ (0 < newQuantity →
     let st' := Ventas.addToCart newItem newQuantity (cart, itemQuantities) in
     NoDup (cartIds st'.1)
     ∧ Ventas.saleableId newItem ∈ cartIds st'.1
     ∧ (∀ itemId, itemId ∈ cartIds cart → itemId ∈ cartIds st'.1)
     ∧ (∀ itemId,
          cartQuantity itemId st'.1
          = cartQuantity itemId cart
            + (if decide (itemId = Ventas.saleableId newItem) then newQuantity else 0))
     ∧ (Forall (λ line, 0 < Ventas.quantity line) cart →
        Forall (λ line, 0 < Ventas.quantity line) st'.1)
     ∧ st'.2 !! Ventas.saleableId newItem = Some 0
     ∧ (∀ k, k ≠ Ventas.saleableId newItem → st'.2 !! k = itemQuantities !! k)
     ∧ (Ventas.handleAddToCart newItem
          (cart, Ventas.handleQuantityChange (Ventas.saleableId newItem) newQuantity
                   itemQuantities)).1 = st'.1).
Proof.
  intros Hnd. unfold Ventas.addToCart. split; intros Hq.
  - rewrite bool_decide_eq_true_2 by exact Hq. reflexivity.
  - assert (Hbox : (Ventas.handleAddToCart newItem
                      (cart, Ventas.handleQuantityChange (Ventas.saleableId newItem)
                               newQuantity itemQuantities)).1
                   = Ventas.cartWith newItem newQuantity cart).
    { unfold Ventas.handleAddToCart, Ventas.handleQuantityChange, Ventas.addToCart. simpl.
      rewrite lookup_insert_eq. simpl.
      rewrite bool_decide_eq_false_2 by lia. simpl.
      replace (Z.max 0 newQuantity) with newQuantity by lia. reflexivity. }
    rewrite Hbox. clear Hbox.
    rewrite bool_decide_eq_false_2 by lia. simpl.
    unfold Ventas.cartWith.
    destruct (find _ cart) as [existing|] eqn:Hfind.
    + assert (Hin : Ventas.saleableId newItem ∈ cartIds cart).
      { destruct (decide (Ventas.saleableId newItem ∈ cartIds cart)) as [H|H]; [exact H|].
        apply cart_find_None in H. congruence. }
      rewrite cart_bump_ids.
      split; [exact Hnd|]. split; [exact Hin|]. split; [auto|].
      split.
      { intros itemId. rewrite cart_bump_quantity by exact Hnd.
        destruct (decide (itemId = Ventas.saleableId newItem)) as [->|Hne].
        - rewrite (decide_True _ _ (conj eq_refl Hin)). reflexivity.
        - rewrite decide_False by (intros [? _]; congruence). reflexivity. }
      split.
      { intros Hpos. apply Forall_fmap. eapply Forall_impl; [exact Hpos|].
        intros line Hline. simpl in *. case_bool_decide; simpl; lia. }
      split; [apply lookup_insert_eq|].
      split; [|reflexivity].
      intros k Hk. apply lookup_insert_ne. congruence.
    + apply cart_find_None in Hfind.
      assert (Hids : cartIds (cart ++ [ {| Ventas.item := newItem;
                                           Ventas.quantity := newQuantity |} ])
                     = cartIds cart ++ [Ventas.saleableId newItem]).
      { unfold cartIds. rewrite fmap_app. reflexivity. }
      rewrite Hids.
      split.
      { apply NoDup_app. split; [exact Hnd|]. split.
        - intros x Hx Hx'. apply list_elem_of_singleton in Hx'. subst x. exact (Hfind Hx).
        - apply NoDup_singleton. }
      split; [apply elem_of_app; right; left|].
      split; [intros itemId Hin; apply elem_of_app; left; exact Hin|].
      split.
      { intros itemId. rewrite cartQuantity_app, cartQuantity_cons, cartQuantity_nil. simpl.
        destruct (decide (Ventas.saleableId newItem = itemId)) as [<-|Hne].
        - rewrite decide_True by reflexivity. lia.
        - rewrite decide_False by congruence. lia. }
      split.
      { intros Hpos. apply Forall_app. split; [exact Hpos|].
        apply Forall_singleton. simpl. exact Hq. }
      split; [apply lookup_insert_eq|].
      split; [|reflexivity].
      intros k Hk. apply lookup_insert_ne. congruence.
Qed.

Lemma addToCart_merges_lines_witness :
  let st' := Ventas.addToCart (Ventas.ProductItem soap) 5 (delivery_cart, ∅) in
  NoDup (cartIds st'.1)
  ∧ cartQuantity "p1" st'.1 = 2 + 5
  ∧ cartQuantity "c1" st'.1 = 1
  ∧ st'.2 !! "p1" = Some 0.
Proof.
  assert (Hnd : NoDup (cartIds delivery_cart)) by (apply (bool_decide_unpack _); vm_compute; exact I).
  destruct (proj2 (addToCart_merges_lines (Ventas.ProductItem soap) 5 delivery_cart ∅ Hnd))
    as (H1 & _ & _ & H2 & _ & H3 & _ & _); [lia|].
  split; [exact H1|]. split; [exact (H2 "p1"%string)|].
  split; [exact (H2 "c1"%string)|]. exact H3.
Defined.

(** ** Point of sale: combos *)

Lemma calculateComboStock_le_level (products : list Product) (combo : Combo)
    (components : list ComboProduct.t) (cp : ComboProduct.t) :
  Combo.products (Firestore.fields combo) = Some components →
  cp ∈ components →
  Ventas.calculateComboStock products combo ≤ Ventas.stockLevel products cp.
Proof.
  intros Hc Hin. destruct components as [|first rest].
  - apply elem_of_nil in Hin. destruct Hin.
  - destruct (calculateComboStock_levels products combo first rest Hc) as [_ Hle].
    apply Hle. apply list_elem_of_fmap. exists cp. split; [reflexivity | exact Hin].
Qed.

Lemma calculateComboStock_is_level (products : list Product) (combo : Combo)
    (first : ComboProduct.t) (rest : list ComboProduct.t) :
  Combo.products (Firestore.fields combo) = Some (first :: rest) →
  ∃ cp, cp ∈ first :: rest
        ∧ Ventas.calculateComboStock products combo = Ventas.stockLevel products cp.
Proof.
  intros Hc.
  destruct (calculateComboStock_levels products combo first rest Hc) as [Hin _].
  apply list_elem_of_fmap in Hin as (cp & Heq & Hin). exists cp. split; assumption.
Qed.


Lemma stockLevel_mono (products products' : list Product) (cp : ComboProduct.t) :
  0 < ComboProduct.quantity cp →
  (∀ p', Firestore.findById (ComboProduct.productId cp) products' = Some p' →
         ∃ p, Firestore.findById (ComboProduct.productId cp) products = Some p
              ∧ Product.stock (Firestore.fields p') ≤ Product.stock (Firestore.fields p)) →
  Ventas.stockLevel products' cp ≤ Ventas.stockLevel products cp.
Proof.
  intros Hq Hless.
  pose proof (stockLevel_nonneg products cp Hq) as Hnn.
  unfold Ventas.stockLevel in *.
  destruct (Firestore.findById _ products') as [p'|]; [|exact Hnn].
  destruct (Hless p' eq_refl) as (p & Hp & Hle). rewrite Hp in *.
  destruct (decide (Product.stock (Firestore.fields p') < ComboProduct.quantity cp))
    as [Hlt|Hge].
  - rewrite (bool_decide_eq_true_2 _ Hlt). exact Hnn.
  - rewrite (bool_decide_eq_false_2 _ Hge).
    rewrite bool_decide_eq_false_2 by lia.
    apply Z.div_le_mono; [exact Hq | exact Hle].
Qed.



(** X10: the available stock of a combo never goes up when stock goes
    down.  If, going from one catalog snapshot to the next, no component
    product gained stock (products may also have disappeared), the number
    [calculateComboStock] gives for the combo did not grow; and it is never
    negative. *)
Theorem comboStock_monotone
    (products products' : list Product) (combo : Combo) :
  (∀ cps cp, Combo.products (Firestore.fields combo) = Some cps → cp ∈ cps →
             0 < ComboProduct.quantity cp) →
  (∀ cps cp p', Combo.products (Firestore.fields combo) = Some cps → cp ∈ cps →
     Firestore.findById (ComboProduct.productId cp) products' = Some p' →
     ∃ p, Firestore.findById (ComboProduct.productId cp) products = Some p
          ∧ Product.stock (Firestore.fields p') ≤ Product.stock (Firestore.fields p)) →
  0 ≤ Ventas.calculateComboStock products' combo
  ∧ Ventas.calculateComboStock products' combo ≤ Ventas.calculateComboStock products combo.
Proof.
  intros Hq Hless.
  destruct (Combo.products (Firestore.fields combo)) as [[|first rest]|] eqn:Hcomps;
    try (unfold Ventas.calculateComboStock; rewrite Hcomps; lia).
  split.
  - destruct (calculateComboStock_is_level products' combo first rest Hcomps)
      as (cp & Hcp & ->).
    apply stockLevel_nonneg. eapply Hq; [reflexivity | exact Hcp].
  - destruct (calculateComboStock_is_level products combo first rest Hcomps)
      as (cp & Hcp & ->).
    etransitivity.
    + exact (calculateComboStock_le_level products' combo _ cp Hcomps Hcp).
    + apply stockLevel_mono.
      * eapply Hq; [reflexivity | exact Hcp].
      * intros p' Hp'. eapply Hless; [reflexivity | exact Hcp | exact Hp'].
Qed.

Lemma comboStock_monotone_witness :
  0 ≤ Ventas.calculateComboStock [soap_after_sale] cleaning_kit
  ∧ Ventas.calculateComboStock [soap_after_sale] cleaning_kit
    ≤ Ventas.calculateComboStock [soap; bleach] cleaning_kit.
Proof.
  apply (comboStock_monotone [soap; bleach] [soap_after_sale] cleaning_kit).
  - intros cps cp Hcps Hcp. injection Hcps as <-.
    apply elem_of_cons in Hcp as [->|Hcp]; [simpl; lia|].
    apply elem_of_cons in Hcp as [->|Hcp]; [simpl; lia|].
    apply elem_of_nil in Hcp. destruct Hcp.
  - intros cps cp p' Hcps Hcp Hp'. injection Hcps as <-.
    apply elem_of_cons in Hcp as [->|Hcp].
    + injection Hp' as <-. exists soap. split; [reflexivity | simpl; lia].
    + apply elem_of_cons in Hcp as [->|Hcp]; [discriminate|].
      apply elem_of_nil in Hcp. destruct Hcp.
Defined.

(** ** Point of sale: a delivery order whose stock update is rejected *)

Lemma updateStock_missing (cart : list Ventas.CartItem) (c : gmap string Product.t) :
  (∀ line, line ∈ cart → ∀ combo st, Ventas.item line = Ventas.ComboItem combo st →
           is_Some (Combo.products (Firestore.fields combo))) →
  (∃ d, d ∈ cart ≫= lineDebits ∧ c !! d.1 = None) →
  Ventas.updateStock cart c = None.
Proof.
  intros Hcombo (d & Hd & Hnone).
  destruct (mapM_stockUpdates cart Hcombo) as (ups & Hups & Hcat).
  unfold Ventas.updateStock. rewrite Hups, Hcat.
  apply batchUpdate_missing. exists (d.1, incrementStock (- d.2)). split; [|exact Hnone].
  apply list_elem_of_fmap. exists d. split; [reflexivity | exact Hd].
Qed.

(** X11: the order is written before the stock and the two writes are not
    tied together.  When the cart draws on a product whose document is
    gone, the batch of stock updates is rejected as a whole: no product's
    stock changes, not even of the products that exist; but the order
    document written just before stays, with status Pendiente, and the
    handler reports the failure. *)
Theorem create_order_keeps_order_when_stock_update_fails
    (deliveryInfo : Ventas.DeliveryInfo) (cart : list Ventas.CartItem)
    (storageItems : list SaleItem.t) (total : Z) (orderId now autoId : string) (db : Db) :
  Ventas.blank (Ventas.name deliveryInfo) = false →
  Ventas.blank (Ventas.address deliveryInfo) = false →
  (∀ line, line ∈ cart → ∀ combo st, Ventas.item line = Ventas.ComboItem combo st →
           is_Some (Combo.products (Firestore.fields combo))) →
  (∃ d, d ∈ cart ≫= lineDebits ∧ db_products db !! d.1 = None) →
  ∃ db',
    Ventas.handleCreateOrder deliveryInfo cart storageItems total orderId now autoId db
    = (db', Failed)
    ∧ db_products db' = db_products db
    ∧ (∃ order, db_orders db' !! autoId = Some order
                ∧ Order.id order = orderId
                ∧ Order.status order = Order.Pendiente
                ∧ Order.items order = storageItems
                ∧ Order.total order = total)
    ∧ (∀ k, k ≠ autoId → db_orders db' !! k = db_orders db !! k).
Proof.
  intros Hname Haddr Hcombo Hmissing.
  unfold Ventas.handleCreateOrder. rewrite Hname, Haddr. simpl.
  rewrite (updateStock_missing cart (db_products db) Hcombo Hmissing).
  eexists. split; [reflexivity|]. simpl.
  split; [reflexivity|]. split.
  - eexists. split; [apply lookup_insert_eq|]. simpl. auto.
  - intros k Hk. apply lookup_insert_ne. congruence.
Qed.

Lemma create_order_keeps_order_when_stock_update_fails_witness :
  ∃ db',
    Ventas.handleCreateOrder delivery_info delivery_cart [] 200 "PED-000001" "t4" "o1"
      db_without_bleach = (db', Failed)
    ∧ db_products db' = db_products db_without_bleach
    ∧ (∃ order, db_orders db' !! "o1" = Some order
                ∧ Order.id order = "PED-000001"%string
                ∧ Order.status order = Order.Pendiente
                ∧ Order.items order = []
                ∧ Order.total order = 200)
    ∧ (∀ k, k ≠ "o1"%string → db_orders db' !! k = db_orders db_without_bleach !! k).
Proof.
  apply (create_order_keeps_order_when_stock_update_fails delivery_info delivery_cart []
           200 "PED-000001" "t4" "o1" db_without_bleach).
  - reflexivity.
  - reflexivity.
  - intros line Hline combo st Hitem.
    apply elem_of_cons in Hline as [->|Hline]; [discriminate|].
    apply elem_of_cons in Hline as [->|Hline].
    + injection Hitem as <- _. eexists. reflexivity.
    + apply elem_of_nil in Hline. destruct Hline.
  - exists ("p2"%string, 1). split; [|reflexivity].
    vm_compute. do 2 right. left.
Defined.

(** ** Invoicing: customer balances *)

Lemma openBalance_nil (cid : string) : openBalance cid [] = 0.
Proof. reflexivity. Qed.

Lemma openBalance_cons (cid : string) (inv : Invoice) (invoices : list Invoice) :
  openBalance cid (inv :: invoices)
  = (if decide (Invoice.customerId (Firestore.fields inv) = cid
                ∧ Facturacion.isOpen (Invoice.status (Firestore.fields inv)) = true)
     then outstanding inv else 0)
    + openBalance cid invoices.
Proof.
  unfold openBalance. rewrite filter_cons.
  destruct (decide _); [rewrite reduce_sum_cons|]; lia.
Qed.

Lemma clients_fold_zero (clients : list Client) (b : gmap string Z) (cid : string) :
  or0 (b !! cid) = 0 →
  or0 (foldl (λ balances c, <[Firestore.id c := 0]> balances) b clients !! cid) = 0.
Proof.
  revert b. induction clients as [|c clients IH]; intros b Hb; simpl; [exact Hb|].
  apply IH. destruct (decide (Firestore.id c = cid)) as [->|Hne].
  - rewrite lookup_insert_eq. reflexivity.
  - rewrite lookup_insert_ne by exact Hne. exact Hb.
Qed.

Lemma invoices_fold_balance (invoices : list Invoice) (b : gmap string Z) (cid : string) :
  or0 (foldl (λ balances inv,
                let d := Firestore.fields inv in
                if Facturacion.isOpen (Invoice.status d) then
                  let paidAmount := reduce_sum Payment.amount (Invoice.payments d) in
                  <[Invoice.customerId d :=
                      or0 (balances !! Invoice.customerId d)
                      + (Invoice.total d - paidAmount)]> balances
                else balances)
             b invoices !! cid)
  = or0 (b !! cid) + openBalance cid invoices.
Proof.
  revert b. induction invoices as [|inv invoices IH]; intros b.
  - simpl. rewrite openBalance_nil. lia.
  - simpl. rewrite IH, openBalance_cons. clear IH.
    destruct (Facturacion.isOpen (Invoice.status (Firestore.fields inv))) eqn:Hopen.
    + destruct (decide (Invoice.customerId (Firestore.fields inv) = cid)) as [Hc|Hc].
      * rewrite (decide_True _ _ (conj Hc eq_refl)). rewrite Hc, lookup_insert_eq.
        unfold outstanding. simpl. lia.
      * rewrite decide_False by (intros [? _]; contradiction).
        rewrite lookup_insert_ne by exact Hc. lia.
    + rewrite decide_False by (intros [_ ?]; discriminate). lia.
Qed.

Lemma customerBalances_openBalance (invoices : list Invoice) (clients : list Client)
    (cid : string) :
  or0 (Facturacion.customerBalances invoices clients !! cid) = openBalance cid invoices.
Proof.
  unfold Facturacion.customerBalances.
  rewrite invoices_fold_balance, clients_fold_zero; [lia | reflexivity].
Qed.

(** X12: the balance the page shows for a customer is what is left to pay
    on that customer's open invoices: the sum, over the invoices of the
    customer with status Pendiente or Vencida, in the order of the
    snapshot, of the total less the payments.  Paid and cancelled invoices
    and other customers' invoices do not count; a customer with no open
    invoice has balance 0. *)
Theorem customer_balance_is_open_outstanding
    (invoices : list Invoice) (clients : list Client) (cid : string) :
  or0 (Facturacion.customerBalances invoices clients !! cid) = openBalance cid invoices
  ∧ ((∀ inv, inv ∈ invoices → Invoice.customerId (Firestore.fields inv) = cid →
             Facturacion.isOpen (Invoice.status (Firestore.fields inv)) = false) →
     or0 (Facturacion.customerBalances invoices clients !! cid) = 0).
Proof.
  split; [apply customerBalances_openBalance|].
  intros Hclosed. rewrite customerBalances_openBalance.
  induction invoices as [|inv invoices IH]; [reflexivity|].
  rewrite openBalance_cons, IH.
  - rewrite decide_False; [reflexivity|].
    intros [Hc Hopen]. rewrite (Hclosed inv (list_elem_of_here _ _) Hc) in Hopen.
    discriminate.
  - intros inv' Hin. apply Hclosed. right. exact Hin.
Qed.

Lemma customer_balance_is_open_outstanding_witness :
  or0 (Facturacion.customerBalances rosa_invoices [rosa] !! "cust1") = 140
  ∧ or0 (Facturacion.customerBalances [invoice_of "inv2" 90 [90] Invoice.Pagada] [rosa]
           !! "cust1") = 0.
Proof.
  split.
  - etransitivity;
      [exact (proj1 (customer_balance_is_open_outstanding rosa_invoices [rosa] "cust1"))|].
    vm_compute. reflexivity.
  - apply (proj2 (customer_balance_is_open_outstanding
                    [invoice_of "inv2" 90 [90] Invoice.Pagada] [rosa] "cust1")).
    intros inv Hin _. apply list_elem_of_singleton in Hin. subst inv. reflexivity.
Defined.

(** ** Sellers: assigning merchandise *)

Lemma findById_id {A : Type} (k : string) (xs : list (Firestore.Mapped A)) (x : Firestore.Mapped A) :
  Firestore.findById k xs = Some x → Firestore.id x = k.
Proof.
  unfold Firestore.findById. induction xs as [|y ys IH]; simpl; [discriminate|].
  case_bool_decide as Hy; [|exact IH].
  intros [= <-]. exact Hy.
Qed.

Lemma deductEach_batch (cart : list Vendedores.AssignmentCartItem.t)
    (c c' : gmap string Product.t) :
  Firestore.batchUpdate ((λ d, (d.1, incrementStock (- d.2))) <$> assignmentDebits cart) c
  = Some c' →
  Vendedores.deductEach cart c = (c', true).
Proof.
  revert c. induction cart as [|ci cart IH]; intros c; csimpl.
  - intros [= <-]. reflexivity.
  - destruct (Firestore.updateDoc _ _ c) as [c1|]; [|discriminate]. apply IH.
Qed.

Lemma deductEach_debits (cart : list Vendedores.AssignmentCartItem.t) (c : gmap string Product.t) :
  (∀ ci, ci ∈ cart → is_Some (c !! Firestore.id (Vendedores.AssignmentCartItem.item ci))) →
  ∃ c', Vendedores.deductEach cart c = (c', true)
        ∧ ∀ pid, c' !! pid = incrementStock (- amountFor pid (assignmentDebits cart)) <$> c !! pid.
Proof.
  intros Hdocs.
  destruct (batchUpdate_decrements (assignmentDebits cart) c) as (c' & Hc' & Hlook).
  { intros d Hd. apply list_elem_of_fmap in Hd as (ci & -> & Hci). simpl.
    apply Hdocs. exact Hci. }
  exists c'. split; [apply deductEach_batch; exact Hc' | exact Hlook].
Qed.

Lemma stock_check_passes (cart : list Vendedores.AssignmentCartItem.t) (products : list Product) :
  (∀ ci, ci ∈ cart →
     ∃ p, Firestore.findById (Firestore.id (Vendedores.AssignmentCartItem.item ci)) products
          = Some p
          ∧ Vendedores.AssignmentCartItem.quantity ci ≤ Product.stock (Firestore.fields p)) →
  existsb
    (λ cartItem,
       match Firestore.findById
               (Firestore.id (Vendedores.AssignmentCartItem.item cartItem)) products with
       | None => true
       | Some productInDb =>
           bool_decide (Product.stock (Firestore.fields productInDb)
                        < Vendedores.AssignmentCartItem.quantity cartItem)
       end) cart = false.
Proof.
  induction cart as [|ci cart IH]; intros Hcat; simpl; [reflexivity|].
  destruct (Hcat ci) as (p & -> & Hle); [left|].
  rewrite bool_decide_eq_false_2 by lia. simpl.
  apply IH. intros cj Hcj. apply Hcat. right. exact Hcj.
Qed.

Lemma stock_check_fails (cart : list Vendedores.AssignmentCartItem.t) (products : list Product)
    (ci : Vendedores.AssignmentCartItem.t) :
  ci ∈ cart →
  (∀ p, Firestore.findById (Firestore.id (Vendedores.AssignmentCartItem.item ci)) products
        = Some p →
        Product.stock (Firestore.fields p) < Vendedores.AssignmentCartItem.quantity ci) →
  existsb
    (λ cartItem,
       match Firestore.findById
               (Firestore.id (Vendedores.AssignmentCartItem.item cartItem)) products with
       | None => true
       | Some productInDb =>
           bool_decide (Product.stock (Firestore.fields productInDb)
                        < Vendedores.AssignmentCartItem.quantity cartItem)
       end) cart = true.
Proof.
  intros Hin Hshort. apply existsb_exists. exists ci.
  split; [apply list_elem_of_In; exact Hin|].
  destruct (Firestore.findById _ products) as [p|]; [|reflexivity].
  apply bool_decide_eq_true_2. apply Hshort. reflexivity.
Qed.

Lemma mapM_cons_Some {A B : Type} (f : A → option B) (x : A) (l : list A) (y : B) (k : list B) :
  f x = Some y → mapM f l = Some k → mapM f (x :: l) = Some (y :: k).
Proof. intros Hx Hl. cbn [mapM]. rewrite Hx. simpl. rewrite Hl. reflexivity. Qed.

Lemma mapM_cons_None {A B : Type} (f : A → option B) (x : A) (l : list A) :
  f x = None ∨ mapM f l = None → mapM f (x :: l) = None.
Proof.
  intros H. cbn [mapM]. destruct (f x) as [y|]; [|reflexivity]. simpl.
  destruct H as [H|H]; [discriminate|]. rewrite H. reflexivity.
Qed.

Lemma assignments_with_names (cart : list Vendedores.AssignmentCartItem.t)
    (products : list Product) :
  (∀ ci, ci ∈ cart →
     is_Some (Firestore.findById (Firestore.id (Vendedores.AssignmentCartItem.item ci))
                products)) →
  ∃ l, mapM (λ c,
               match Firestore.findById
                       (Firestore.id (Vendedores.AssignmentCartItem.item c)) products with
               | None => None
               | Some p =>
                   Some {| AssignedProduct.productId :=
                             Firestore.id (Vendedores.AssignmentCartItem.item c);
                           AssignedProduct.name := Product.name (Firestore.fields p);
                           AssignedProduct.quantity :=
                             Vendedores.AssignmentCartItem.quantity c |}
               end) cart = Some l
       ∧ (λ a, (AssignedProduct.productId a, AssignedProduct.quantity a)) <$> l
         = assignmentDebits cart.
Proof.
  induction cart as [|ci cart IH]; intros Hcat.
  - exists []. split; reflexivity.
  - destruct IH as (l & Hl & Hd); [intros cj Hcj; apply Hcat; right; exact Hcj|].
    destruct (Hcat ci) as [p Hp]; [left|].
    eexists. split.
    + apply mapM_cons_Some; [rewrite Hp; reflexivity | exact Hl].
    + csimpl. rewrite Hd. reflexivity.
Qed.

Lemma assignedTotal_amountFor (l : list AssignedProduct.t) (pid : string) :
  reduce_sum AssignedProduct.quantity (filter (λ a, AssignedProduct.productId a = pid) l)
  = amountFor pid ((λ a, (AssignedProduct.productId a, AssignedProduct.quantity a)) <$> l).
Proof.
  induction l as [|a l IH]; [reflexivity|].
  csimpl. rewrite amountFor_cons, filter_cons, <- IH. simpl.
  destruct (decide (AssignedProduct.productId a = pid)); [rewrite reduce_sum_cons|]; lia.
Qed.

Lemma soldTotal_amountFor (l : list SellerSaleItem.t) (pid : string) :
  reduce_sum SellerSaleItem.quantity (filter (λ i, SellerSaleItem.productId i = pid) l)
  = amountFor pid ((λ i, (SellerSaleItem.productId i, SellerSaleItem.quantity i)) <$> l).
Proof.
  induction l as [|a l IH]; [reflexivity|].
  csimpl. rewrite amountFor_cons, filter_cons, <- IH. simpl.
  destruct (decide (SellerSaleItem.productId a = pid)); [rewrite reduce_sum_cons|]; lia.
Qed.

Lemma amountFor_nonneg_elem (pid : string) (ds : list (string * Z)) :
  (∀ d, d ∈ ds → 0 ≤ d.2) → 0 ≤ amountFor pid ds.
Proof.
  induction ds as [|d ds IH]; intros Hnn; [rewrite amountFor_nil; lia|].
  rewrite amountFor_cons.
  specialize (IH (λ d' Hd', Hnn d' (list_elem_of_further _ _ _ Hd'))).
  pose proof (Hnn d (list_elem_of_here _ _)).
  destruct (decide (d.1 = pid)); lia.
Qed.

(** X15: assigning merchandise moves it from the warehouse to the seller.
    With every cart product in the page's catalog at a stock of at least
    the cart quantity, every product document present and the seller
    document as the page shows it, the handler completes; each product's
    stock drops by the cart's quantity of it; the cart lines are appended
    to the seller's assigned stock, sales and returns untouched; so for
    every product the seller's consigned stock rises by exactly what the
    warehouse stock lost, and the page then shows the seller holding that
    consigned stock of each cart product. *)
Theorem confirm_assignment_moves_stock
    (seller : Seller) (cart : list Vendedores.AssignmentCartItem.t)
    (assignmentDiscounts : gmap string Z) (discounted : Z → Z → Z) (saleId now : string)
    (products : list Product) (db : Db) :
  cart ≠ [] →
  (∀ ci, ci ∈ cart →
     ∃ p, Firestore.findById (Firestore.id (Vendedores.AssignmentCartItem.item ci)) products
          = Some p
          ∧ Vendedores.AssignmentCartItem.quantity ci ≤ Product.stock (Firestore.fields p)) →
  (∀ ci, ci ∈ cart →
     is_Some (db_products db !! Firestore.id (Vendedores.AssignmentCartItem.item ci))) →
  db_sellers db !! Firestore.id seller = Some (Firestore.fields seller) →
  ∃ db' d',
    Vendedores.handleConfirmAssignment (Some seller) cart false assignmentDiscounts
      discounted saleId now products db = (db', Completed)
    ∧ (∀ pid, db_products db' !! pid
              = incrementStock (- amountFor pid (assignmentDebits cart))
                  <$> db_products db !! pid)
    ∧ db_sellers db' !! Firestore.id seller = Some d'
    ∧ Seller.sales d' = Seller.sales (Firestore.fields seller)
    ∧ Seller.returns d' = Seller.returns (Firestore.fields seller)
    ∧ (∀ pid, consigned d' pid
              = consigned (Firestore.fields seller) pid
                + amountFor pid (assignmentDebits cart))
    ∧ (∀ ci, ci ∈ cart →
         let pid := Firestore.id (Vendedores.AssignmentCartItem.item ci) in
         Vendedores.availableQuantity (Firestore.mkMapped (Firestore.id seller) d')
           products pid
         = Z.max 0 (consigned (Firestore.fields seller) pid
                    + amountFor pid (assignmentDebits cart)))
    ∧ (∀ k, k ≠ Firestore.id seller → db_sellers db' !! k = db_sellers db !! k).
Proof.
  intros Hne Hcat Hdocs Hseller.
  destruct (deductEach_debits cart (db_products db) Hdocs) as (c' & Hc' & Hlook).
  destruct (assignments_with_names cart products) as (l & Hl & Hdeb).
  { intros ci Hci. destruct (Hcat ci Hci) as (p & Hp & _). rewrite Hp. eauto. }
  unfold Vendedores.handleConfirmAssignment.
  rewrite bool_decide_eq_false_2
    by (intros Hlen; apply length_zero_iff_nil in Hlen; contradiction).
  rewrite (stock_check_passes cart products Hcat), Hc', Hl.
  unfold Firestore.updateDoc. simpl. rewrite Hseller.
  eexists _, _. split; [reflexivity|]. simpl.
  assert (Hcons : ∀ pid,
            consigned
              (Vendedores.assignedStockPatch
                 (Seller.assignedStock (Firestore.fields seller) ++ l) (Firestore.fields seller))
              pid
            = consigned (Firestore.fields seller) pid + amountFor pid (assignmentDebits cart)).
  { intros pid. unfold consigned, assignedTotal, soldTotal, returnedTotal. simpl.
    rewrite filter_app, reduce_sum_app, (assignedTotal_amountFor l), Hdeb. lia. }
  split; [exact Hlook|]. split; [apply lookup_insert_eq|].
  split; [reflexivity|]. split; [reflexivity|]. split; [exact Hcons|].
  split.
  - intros ci Hci.
    set (pid := Firestore.id (Vendedores.AssignmentCartItem.item ci)).
    rewrite availableQuantity_closed_form. simpl.
    rewrite Hcons. rewrite decide_True; [reflexivity|].
    split.
    + destruct (Hcat ci Hci) as (p & Hp & _). unfold pid. rewrite Hp. eauto.
    + unfold isAssigned. simpl. apply Exists_app. right.
      apply Exists_exists.
      assert (Hin : (pid, Vendedores.AssignmentCartItem.quantity ci) ∈ assignmentDebits cart).
      { apply list_elem_of_fmap. exists ci. split; [reflexivity | exact Hci]. }
      rewrite <- Hdeb in Hin. apply list_elem_of_fmap in Hin as (a & Ha & Hin).
      exists a. split; [exact Hin|]. injection Ha as -> _. reflexivity.
  - intros k Hk. apply lookup_insert_ne. congruence.
Qed.

Lemma confirm_assignment_moves_stock_witness :
  ∃ db' d',
    Vendedores.handleConfirmAssignment (Some example_seller) four_of_P false ∅
      no_discount "SELLSALE-9" "t5" [productP] sellers_db = (db', Completed)
    ∧ Product.stock <$> db_products db' !! "P" = Some 36
    ∧ db_sellers db' !! "v1" = Some d'
    ∧ consigned d' "P" = 6 + 4
    ∧ Vendedores.availableQuantity (Firestore.mkMapped "v1" d') [productP] "P" = 10.
Proof.
  destruct (confirm_assignment_moves_stock example_seller four_of_P ∅ no_discount
              "SELLSALE-9" "t5" [productP] sellers_db)
    as (db' & d' & Hrun & Hstock & Hd' & _ & _ & Hcons & Havail & _).
  - discriminate.
  - intros ci Hci. apply list_elem_of_singleton in Hci. subst ci.
    exists productP. split; [reflexivity | simpl; lia].
  - intros ci Hci. apply list_elem_of_singleton in Hci. subst ci. eexists. reflexivity.
  - reflexivity.
  - exists db', d'. split; [exact Hrun|].
    split; [rewrite Hstock; reflexivity|]. split; [exact Hd'|].
    split; [rewrite Hcons; reflexivity|].
    exact (Havail _ (list_elem_of_here _ _)).
Defined.

Lemma direct_sale_items (cart : list Vendedores.AssignmentCartItem.t)
    (products : list Product) (assignmentDiscounts : gmap string Z) (discounted : Z → Z → Z) :
  (∀ ci, ci ∈ cart →
     is_Some (Firestore.findById (Firestore.id (Vendedores.AssignmentCartItem.item ci))
                products)) →
  ∃ l, mapM (λ cartItem,
               match Firestore.findById
                       (Firestore.id (Vendedores.AssignmentCartItem.item cartItem))
                       products with
               | None => None
               | Some product =>
                   let discountPercentage :=
                     or0 (assignmentDiscounts !! Firestore.id product) in
                   Some {| SellerSaleItem.productId := Firestore.id product;
                           SellerSaleItem.quantity :=
                             Vendedores.AssignmentCartItem.quantity cartItem;
                           SellerSaleItem.price :=
                             discounted (Product.price (Firestore.fields product))
                               discountPercentage;
                           SellerSaleItem.originalPrice :=
                             Product.price (Firestore.fields product);
                           SellerSaleItem.discountPercentage := discountPercentage |}
               end) cart = Some l
       ∧ (λ i, (SellerSaleItem.productId i, SellerSaleItem.quantity i)) <$> l
         = assignmentDebits cart.
Proof.
  induction cart as [|ci cart IH]; intros Hcat.
  - exists []. split; reflexivity.
  - destruct IH as (l & Hl & Hd); [intros cj Hcj; apply Hcat; right; exact Hcj|].
    destruct (Hcat ci) as [p Hp]; [left|].
    eexists. split.
    + apply mapM_cons_Some; [rewrite Hp; reflexivity | exact Hl].
    + csimpl. rewrite Hd, (findById_id _ _ _ Hp). reflexivity.
Qed.

(** X16: a direct sale through a seller.  Under the conditions of an
    assignment, the handler takes the cart out of the warehouse stock and
    appends one sale to the seller's sales, with one item per cart line at
    the cart quantity and the sum of price times quantity as total; the
    assigned stock is not extended.  Since the seller's consigned stock
    subtracts every sale, it falls by the cart quantities as well: units
    sold directly leave the warehouse and are also counted against what
    the seller holds. *)
Theorem direct_sale_debits_warehouse_and_seller
    (seller : Seller) (cart : list Vendedores.AssignmentCartItem.t)
    (assignmentDiscounts : gmap string Z) (discounted : Z → Z → Z) (saleId now : string)
    (products : list Product) (db : Db) :
  cart ≠ [] →
  (∀ ci, ci ∈ cart →
     ∃ p, Firestore.findById (Firestore.id (Vendedores.AssignmentCartItem.item ci)) products
          = Some p
          ∧ Vendedores.AssignmentCartItem.quantity ci ≤ Product.stock (Firestore.fields p)) →
  (∀ ci, ci ∈ cart →
     is_Some (db_products db !! Firestore.id (Vendedores.AssignmentCartItem.item ci))) →
  db_sellers db !! Firestore.id seller = Some (Firestore.fields seller) →
  ∃ db' d' newSale,
    Vendedores.handleConfirmAssignment (Some seller) cart true assignmentDiscounts
      discounted saleId now products db = (db', Completed)
    ∧ (∀ pid, db_products db' !! pid
              = incrementStock (- amountFor pid (assignmentDebits cart))
                  <$> db_products db !! pid)
    ∧ db_sellers db' !! Firestore.id seller = Some d'
    ∧ Seller.assignedStock d' = Seller.assignedStock (Firestore.fields seller)
    ∧ Seller.returns d' = Seller.returns (Firestore.fields seller)
    ∧ Seller.sales d' = Seller.sales (Firestore.fields seller) ++ [newSale]
    ∧ SellerSale.id newSale = saleId
    ∧ (λ i, (SellerSaleItem.productId i, SellerSaleItem.quantity i))
        <$> SellerSale.items newSale = assignmentDebits cart
    ∧ SellerSale.total newSale
      = reduce_sum (λ i, SellerSaleItem.price i * SellerSaleItem.quantity i)
          (SellerSale.items newSale)
    ∧ (∀ pid, consigned d' pid
              = consigned (Firestore.fields seller) pid
                - amountFor pid (assignmentDebits cart)).
Proof.
  intros Hne Hcat Hdocs Hseller.
  destruct (deductEach_debits cart (db_products db) Hdocs) as (c' & Hc' & Hlook).
  destruct (direct_sale_items cart products assignmentDiscounts discounted)
    as (l & Hl & Hdeb).
  { intros ci Hci. destruct (Hcat ci Hci) as (p & Hp & _). rewrite Hp. eauto. }
  cbv zeta in Hl.
  unfold Vendedores.handleConfirmAssignment.
  rewrite bool_decide_eq_false_2
    by (intros Hlen; apply length_zero_iff_nil in Hlen; contradiction).
  rewrite (stock_check_passes cart products Hcat), Hc', Hl.
  unfold Firestore.updateDoc. simpl. rewrite Hseller.
  eexists _, _, _. split; [reflexivity|]. simpl.
  split; [exact Hlook|]. split; [apply lookup_insert_eq|].
  split; [reflexivity|]. split; [reflexivity|]. split; [reflexivity|].
  split; [reflexivity|]. split; [exact Hdeb|]. split; [reflexivity|].
  intros pid. unfold consigned, assignedTotal, soldTotal, returnedTotal. simpl.
  rewrite bind_app, filter_app, reduce_sum_app. csimpl. rewrite app_nil_r.
  rewrite (soldTotal_amountFor l), Hdeb. lia.
Qed.

Lemma direct_sale_debits_warehouse_and_seller_witness :
  ∃ db' d',
    Vendedores.handleConfirmAssignment (Some example_seller) four_of_P true ∅
      no_discount "SELLSALE-9" "t5" [productP] sellers_db = (db', Completed)
    ∧ Product.stock <$> db_products db' !! "P" = Some 36
    ∧ db_sellers db' !! "v1" = Some d'
    ∧ consigned (Firestore.fields example_seller) "P" = 6
    ∧ consigned d' "P" = 2.
Proof.
  destruct (direct_sale_debits_warehouse_and_seller example_seller four_of_P ∅ no_discount
              "SELLSALE-9" "t5" [productP] sellers_db)
    as (db' & d' & newSale & Hrun & Hstock & Hd' & _ & _ & _ & _ & _ & _ & Hcons).
  - discriminate.
  - intros ci Hci. apply list_elem_of_singleton in Hci. subst ci.
    exists productP. split; [reflexivity | simpl; lia].
  - intros ci Hci. apply list_elem_of_singleton in Hci. subst ci. eexists. reflexivity.
  - reflexivity.
  - exists db', d'. split; [exact Hrun|].
    split; [rewrite Hstock; reflexivity|]. split; [exact Hd'|].
    split; [reflexivity|]. rewrite Hcons. reflexivity.
Defined.

(** X17: the stock check of an assignment.  If the page's catalog lacks
    the product of some cart line, or has it at a stock below the line's
    quantity, nothing is written, for an assignment and for a direct sale
    alike, wherever the line stands in the cart. *)
Theorem confirm_assignment_refused_when_short
    (seller : Seller) (cart : list Vendedores.AssignmentCartItem.t) (isDirectSale : bool)
    (assignmentDiscounts : gmap string Z) (discounted : Z → Z → Z) (saleId now : string)
    (products : list Product) (db : Db) (ci : Vendedores.AssignmentCartItem.t) :
  ci ∈ cart →
  (∀ p, Firestore.findById (Firestore.id (Vendedores.AssignmentCartItem.item ci)) products
        = Some p →
        Product.stock (Firestore.fields p) < Vendedores.AssignmentCartItem.quantity ci) →
  Vendedores.handleConfirmAssignment (Some seller) cart isDirectSale assignmentDiscounts
    discounted saleId now products db = (db, Aborted).
Proof.
  intros Hin Hshort. unfold Vendedores.handleConfirmAssignment.
  destruct (bool_decide (length cart = 0%nat)); [reflexivity|].
  rewrite (stock_check_fails cart products ci Hin Hshort). reflexivity.
Qed.

Lemma confirm_assignment_refused_when_short_witness :
  Vendedores.handleConfirmAssignment (Some example_seller)
    [ {| Vendedores.AssignmentCartItem.item := productP;
         Vendedores.AssignmentCartItem.quantity := 41 |} ]
    false ∅ no_discount "SELLSALE-9" "t5" [productP] sellers_db = (sellers_db, Aborted).
Proof.
  apply (confirm_assignment_refused_when_short example_seller _ false ∅ no_discount
           "SELLSALE-9" "t5" [productP] sellers_db
           {| Vendedores.AssignmentCartItem.item := productP;
              Vendedores.AssignmentCartItem.quantity := 41 |}).
  - left.
  - intros p Hp. injection Hp as <-. simpl. lia.
Defined.

Lemma deductEach_app (pre rest : list Vendedores.AssignmentCartItem.t)
    (c c1 : gmap string Product.t) :
  Vendedores.deductEach pre c = (c1, true) →
  Vendedores.deductEach (pre ++ rest) c = Vendedores.deductEach rest c1.
Proof.
  revert c. induction pre as [|ci pre IH]; intros c; simpl.
  - intros [= <-]. reflexivity.
  - destruct (Firestore.updateDoc _ _ c) as [c2|]; [apply IH | discriminate].
Qed.

(** X18: the stock deductions of an assignment are separate writes, made
    one after the other before the seller is touched.  When the cart
    passes the check against the page's catalog but the product document
    of one line is gone, the lines before it have already been deducted
    and stay deducted, the lines after it are not, and the seller document
    is not changed: the handler reports an error with the merchandise of
    the earlier lines taken from the warehouse and assigned to no one. *)
Theorem confirm_assignment_partial_deduction
    (seller : Seller) (pre post : list Vendedores.AssignmentCartItem.t)
    (ci : Vendedores.AssignmentCartItem.t) (isDirectSale : bool)
    (assignmentDiscounts : gmap string Z) (discounted : Z → Z → Z) (saleId now : string)
    (products : list Product) (db : Db) :
  (∀ cj, cj ∈ pre ++ ci :: post →
     ∃ p, Firestore.findById (Firestore.id (Vendedores.AssignmentCartItem.item cj)) products
          = Some p
          ∧ Vendedores.AssignmentCartItem.quantity cj ≤ Product.stock (Firestore.fields p)) →
  (∀ cj, cj ∈ pre →
     is_Some (db_products db !! Firestore.id (Vendedores.AssignmentCartItem.item cj))) →
  db_products db !! Firestore.id (Vendedores.AssignmentCartItem.item ci) = None →
  ∃ db',
    Vendedores.handleConfirmAssignment (Some seller) (pre ++ ci :: post) isDirectSale
      assignmentDiscounts discounted saleId now products db = (db', Failed)
    ∧ (∀ pid, db_products db' !! pid
              = incrementStock (- amountFor pid (assignmentDebits pre))
                  <$> db_products db !! pid)
    ∧ db_sellers db' = db_sellers db.
Proof.
  intros Hcat Hdocs Hgone.
  destruct (deductEach_debits pre (db_products db) Hdocs) as (c1 & Hc1 & Hlook).
  unfold Vendedores.handleConfirmAssignment.
  rewrite bool_decide_eq_false_2
    by (rewrite length_app; simpl; lia).
  rewrite (stock_check_passes _ products Hcat).
  rewrite (deductEach_app pre (ci :: post) _ c1 Hc1). simpl.
  unfold Firestore.updateDoc. rewrite Hlook, Hgone. simpl.
  eexists. split; [reflexivity|]. split; [exact Hlook | reflexivity].
Qed.

Lemma confirm_assignment_partial_deduction_witness :
  ∃ db',
    Vendedores.handleConfirmAssignment (Some example_seller)
      (four_of_P ++ {| Vendedores.AssignmentCartItem.item := soap;
                       Vendedores.AssignmentCartItem.quantity := 1 |} :: [])
      false ∅ no_discount "SELLSALE-9" "t5" [productP; soap] sellers_db = (db', Failed)
    ∧ Product.stock <$> db_products db' !! "P" = Some 36
    ∧ db_sellers db' = db_sellers sellers_db.
Proof.
  destruct (confirm_assignment_partial_deduction example_seller four_of_P []
              {| Vendedores.AssignmentCartItem.item := soap;
                 Vendedores.AssignmentCartItem.quantity := 1 |}
              false ∅ no_discount "SELLSALE-9" "t5" [productP; soap] sellers_db)
    as (db' & Hrun & Hstock & Hsellers).
  - intros cj Hcj. apply elem_of_cons in Hcj as [->|Hcj].
    + exists productP. split; [reflexivity | simpl; lia].
    + apply list_elem_of_singleton in Hcj. subst cj.
      exists soap. split; [reflexivity | simpl; lia].
  - intros cj Hcj. apply list_elem_of_singleton in Hcj. subst cj. eexists. reflexivity.
  - reflexivity.
  - exists db'. split; [exact Hrun|]. split; [|exact Hsellers].
    rewrite Hstock. reflexivity.
Defined.

(** ** Sellers: sales by a seller *)

Lemma seller_sale_items (cart : list Vendedores.SaleCartItem.t)
    (products : list Product) (saleDiscounts : gmap string Z) (discounted : Z → Z → Z) :
  (∀ ci, ci ∈ cart →
     is_Some (Firestore.findById
                (Vendedores.SellerStock.productId (Vendedores.SaleCartItem.item ci))
                products)) →
  ∃ l, mapM (λ cartItem,
               match Firestore.findById
                       (Vendedores.SellerStock.productId
                          (Vendedores.SaleCartItem.item cartItem)) products with
               | None => None
               | Some baseProductInfo =>
                   Some {| SellerSaleItem.productId := Firestore.id baseProductInfo;
                           SellerSaleItem.quantity :=
                             Vendedores.SaleCartItem.quantity cartItem;
                           SellerSaleItem.price :=
                             discounted (Product.price (Firestore.fields baseProductInfo))
                               (or0 (saleDiscounts !! Firestore.id baseProductInfo));
                           SellerSaleItem.originalPrice :=
                             Product.price (Firestore.fields baseProductInfo);
                           SellerSaleItem.discountPercentage :=
                             or0 (saleDiscounts !! Firestore.id baseProductInfo) |}
               end) cart = Some l
       ∧ (λ i, (SellerSaleItem.productId i, SellerSaleItem.quantity i)) <$> l
         = saleDebits cart.
Proof.
  induction cart as [|ci cart IH]; intros Hcat.
  - exists []. split; reflexivity.
  - destruct IH as (l & Hl & Hd); [intros cj Hcj; apply Hcat; right; exact Hcj|].
    destruct (Hcat ci) as [p Hp]; [left|].
    eexists. split.
    + apply mapM_cons_Some; [rewrite Hp; reflexivity | exact Hl].
    + csimpl. rewrite Hd, (findById_id _ _ _ Hp). reflexivity.
Qed.

Lemma seller_sale_items_missing (cart : list Vendedores.SaleCartItem.t)
    (products : list Product) (saleDiscounts : gmap string Z) (discounted : Z → Z → Z)
    (ci : Vendedores.SaleCartItem.t) :
  ci ∈ cart →
  Firestore.findById (Vendedores.SellerStock.productId (Vendedores.SaleCartItem.item ci))
    products = None →
  mapM (λ cartItem,
          match Firestore.findById
                  (Vendedores.SellerStock.productId
                     (Vendedores.SaleCartItem.item cartItem)) products with
          | None => None
          | Some baseProductInfo =>
              Some {| SellerSaleItem.productId := Firestore.id baseProductInfo;
                      SellerSaleItem.quantity :=
                        Vendedores.SaleCartItem.quantity cartItem;
                      SellerSaleItem.price :=
                        discounted (Product.price (Firestore.fields baseProductInfo))
                          (or0 (saleDiscounts !! Firestore.id baseProductInfo));
                      SellerSaleItem.originalPrice :=
                        Product.price (Firestore.fields baseProductInfo);
                      SellerSaleItem.discountPercentage :=
                        or0 (saleDiscounts !! Firestore.id baseProductInfo) |}
          end) cart = None.
Proof.
  induction cart as [|cj cart IH]; intros Hin Hnone.
  - apply elem_of_nil in Hin. destruct Hin.
  - apply mapM_cons_None. apply elem_of_cons in Hin as [<-|Hin].
    + left. rewrite Hnone. reflexivity.
    + right. apply IH; assumption.
Qed.

(** X19: a sale by a seller is a write to the seller alone.  With every
    cart product in the page's catalog and the seller document as the page
    shows it, the handler appends one sale to the seller's sales and
    changes nothing else: no product's warehouse stock moves, and the
    seller's consigned stock of each product falls by the cart's quantity
    of it, so the page then shows the seller holding that much less (and
    nothing, once the sales exceed what is left).  The cart quantities are
    not compared with the seller's stock at this point. *)
Theorem confirm_sale_lowers_consigned_only
    (seller : Seller) (cart : list Vendedores.SaleCartItem.t)
    (saleDiscounts : gmap string Z) (discounted : Z → Z → Z) (saleId now : string)
    (products : list Product) (db : Db) :
  cart ≠ [] →
  (∀ ci, ci ∈ cart →
     is_Some (Firestore.findById
                (Vendedores.SellerStock.productId (Vendedores.SaleCartItem.item ci))
                products)) →
  db_sellers db !! Firestore.id seller = Some (Firestore.fields seller) →
  ∃ db' d' newSale,
    Vendedores.handleConfirmSale (Some seller) cart saleDiscounts discounted saleId now
      products db = (db', Completed)
    ∧ db_products db' = db_products db
    ∧ db_sellers db' !! Firestore.id seller = Some d'
    ∧ Seller.assignedStock d' = Seller.assignedStock (Firestore.fields seller)
    ∧ Seller.returns d' = Seller.returns (Firestore.fields seller)
    ∧ Seller.sales d' = Seller.sales (Firestore.fields seller) ++ [newSale]
    ∧ (λ i, (SellerSaleItem.productId i, SellerSaleItem.quantity i))
        <$> SellerSale.items newSale = saleDebits cart
    ∧ (∀ pid, consigned d' pid
              = consigned (Firestore.fields seller) pid - amountFor pid (saleDebits cart))
    ∧ (∀ pid, is_Some (Firestore.findById pid products) →
              isAssigned (Firestore.fields seller) pid →
              Vendedores.availableQuantity (Firestore.mkMapped (Firestore.id seller) d')
                products pid
              = Z.max 0 (consigned (Firestore.fields seller) pid
                         - amountFor pid (saleDebits cart)))
    ∧ (∀ k, k ≠ Firestore.id seller → db_sellers db' !! k = db_sellers db !! k).
Proof.
  intros Hne Hcat Hseller.
  destruct (seller_sale_items cart products saleDiscounts discounted Hcat)
    as (l & Hl & Hdeb).
  unfold Vendedores.handleConfirmSale.
  rewrite bool_decide_eq_false_2
    by (intros Hlen; apply length_zero_iff_nil in Hlen; contradiction).
  cbv zeta. rewrite Hl.
  unfold Firestore.updateDoc. rewrite Hseller.
  eexists _, _, _. split; [reflexivity|]. simpl.
  assert (Hcons : ∀ pid,
            consigned
              (Vendedores.salesPatch
                 (Seller.sales (Firestore.fields seller)
                  ++ [ {| SellerSale.id := saleId; SellerSale.items := l;
                          SellerSale.total := Vendedores.calculatedTotal l;
                          SellerSale.timestamp := now |} ])
                 (Firestore.fields seller)) pid
            = consigned (Firestore.fields seller) pid - amountFor pid (saleDebits cart)).
  { intros pid. unfold consigned, assignedTotal, soldTotal, returnedTotal. simpl.
    rewrite bind_app, filter_app, reduce_sum_app. csimpl. rewrite app_nil_r.
    rewrite (soldTotal_amountFor l), Hdeb. lia. }
  split; [reflexivity|]. split; [apply lookup_insert_eq|].
  split; [reflexivity|]. split; [reflexivity|]. split; [reflexivity|].
  split; [exact Hdeb|]. split; [exact Hcons|]. split.
  - intros pid Hcatalog Hassigned.
    rewrite availableQuantity_closed_form. simpl. rewrite Hcons.
    rewrite decide_True; [reflexivity|]. split; [exact Hcatalog | exact Hassigned].
  - intros k Hk. apply lookup_insert_ne. congruence.
Qed.

Lemma confirm_sale_lowers_consigned_only_witness :
  ∃ db' d',
    Vendedores.handleConfirmSale (Some example_seller) two_of_P_sold ∅ no_discount
      "SELLSALE-9" "t5" [productP] sellers_db = (db', Completed)
    ∧ db_products db' = db_products sellers_db
    ∧ db_sellers db' !! "v1" = Some d'
    ∧ Vendedores.availableQuantity example_seller [productP] "P" = 6
    ∧ Vendedores.availableQuantity (Firestore.mkMapped "v1" d') [productP] "P" = 4.
Proof.
  destruct (confirm_sale_lowers_consigned_only example_seller two_of_P_sold ∅ no_discount
              "SELLSALE-9" "t5" [productP] sellers_db)
    as (db' & d' & newSale & Hrun & Hprod & Hd' & _ & _ & _ & _ & _ & Havail & _).
  - discriminate.
  - intros ci Hci. apply list_elem_of_singleton in Hci. subst ci. eexists. reflexivity.
  - reflexivity.
  - exists db', d'. split; [exact Hrun|]. split; [exact Hprod|]. split; [exact Hd'|].
    split; [vm_compute; reflexivity|].
    apply (Havail "P"%string).
    + eexists. reflexivity.
    + apply Exists_cons_hd. reflexivity.
Defined.

(** X20: a sale by a seller whose cart holds a product that the page's
    catalog no longer has (the product was deleted after it was assigned)
    fails while the sale items are being built: nothing is written, not
    even for the other lines of the cart. *)
Theorem confirm_sale_fails_on_deleted_product
    (seller : Seller) (cart : list Vendedores.SaleCartItem.t)
    (saleDiscounts : gmap string Z) (discounted : Z → Z → Z) (saleId now : string)
    (products : list Product) (db : Db) (ci : Vendedores.SaleCartItem.t) :
  ci ∈ cart →
  Firestore.findById (Vendedores.SellerStock.productId (Vendedores.SaleCartItem.item ci))
    products = None →
  Vendedores.handleConfirmSale (Some seller) cart saleDiscounts discounted saleId now
    products db = (db, Failed).
Proof.
  intros Hin Hnone. unfold Vendedores.handleConfirmSale.
  rewrite bool_decide_eq_false_2.
  - cbv zeta.
    rewrite (seller_sale_items_missing cart products saleDiscounts discounted ci Hin Hnone).
    reflexivity.
  - intros Hlen. apply length_zero_iff_nil in Hlen. subst cart.
    apply elem_of_nil in Hin. exact Hin.
Qed.

Lemma confirm_sale_fails_on_deleted_product_witness :
  Vendedores.handleConfirmSale (Some example_seller) two_of_P_sold ∅ no_discount
    "SELLSALE-9" "t5" [soap] sellers_db = (sellers_db, Failed).
Proof.
  apply (confirm_sale_fails_on_deleted_product example_seller two_of_P_sold ∅ no_discount
           "SELLSALE-9" "t5" [soap] sellers_db
           {| Vendedores.SaleCartItem.item :=
                {| Vendedores.SellerStock.productId := "P";
                   Vendedores.SellerStock.name := "Detergente";
                   Vendedores.SellerStock.quantity := 6;
                   Vendedores.SellerStock.price := 25;
                   Vendedores.SellerStock.image := "";
                   Vendedores.SellerStock.dataAiHint := None |};
              Vendedores.SaleCartItem.quantity := 2 |}).
  - left.
  - reflexivity.
Defined.

(** ** Sellers: the balance kept by the listener *)

Lemma findById_absent {A : Type} (k : string) (xs : list (Firestore.Mapped A)) :
  k ∉ Firestore.id <$> xs → Firestore.findById k xs = None.
Proof.
  unfold Firestore.findById. induction xs as [|x xs IH]; csimpl; intros Hnin; [reflexivity|].
  rewrite bool_decide_eq_false_2.
  - apply IH. intros Hin. apply Hnin. right. exact Hin.
  - intros Hx. apply Hnin. rewrite Hx. left.
Qed.

Lemma findById_cons {A : Type} (k : string) (x : Firestore.Mapped A)
    (xs : list (Firestore.Mapped A)) :
  Firestore.findById k (x :: xs)
  = if decide (Firestore.id x = k) then Some x else Firestore.findById k xs.
Proof.
  unfold Firestore.findById. simpl.
  destruct (decide (Firestore.id x = k)) as [H|H].
  - rewrite bool_decide_eq_true_2 by exact H. reflexivity.
  - rewrite bool_decide_eq_false_2 by exact H. reflexivity.
Qed.

Lemma findById_fmap_same_id {A : Type} (g : Firestore.Mapped A → Firestore.Mapped A)
    (k : string) (xs : list (Firestore.Mapped A)) :
  (∀ x, Firestore.id (g x) = Firestore.id x) →
  Firestore.findById k (g <$> xs) = g <$> Firestore.findById k xs.
Proof.
  intros Hg. induction xs as [|x xs IH]; [reflexivity|].
  rewrite fmap_cons, !findById_cons, Hg, IH.
  destruct (decide (Firestore.id x = k)); reflexivity.
Qed.

Lemma newBalance_ignores_balance (products : list Product) (k : string) (b : Z) (d : Seller.t) :
  Vendedores.newBalance products (Firestore.mkMapped k (Vendedores.balancePatch b d))
  = Vendedores.newBalance products (Firestore.mkMapped k d).
Proof. reflexivity. Qed.

Lemma balancePatch_same (d : Seller.t) : Vendedores.balancePatch (Seller.balance d) d = d.
Proof. destruct d. reflexivity. Qed.

(** The listener's loop over sellers that the store holds as listed: every
    update is accepted, and each listed seller ends with the recomputed
    balance. *)
Lemma recalculate_loop (products : list Product) (sellersData : list Seller)
    (c : gmap string Seller.t) (ok : bool) :
  NoDup (Firestore.id <$> sellersData) →
  (∀ s, s ∈ sellersData → c !! Firestore.id s = Some (Firestore.fields s)) →
  ∃ c',
    foldl (λ (acc : gmap string Seller.t * bool) seller,
             if bool_decide (Seller.balance (Firestore.fields seller)
                             = Vendedores.newBalance products seller)
             then acc
             else
               match Firestore.updateDoc (Firestore.id seller)
                       (Vendedores.balancePatch (Vendedores.newBalance products seller))
                       acc.1 with
               | Some sellers' => (sellers', acc.2)
               | None => (acc.1, false)
               end)
          (c, ok) sellersData = (c', ok)
    ∧ ∀ k, c' !! k
           = match Firestore.findById k sellersData with
             | Some s =>
                 Some (Vendedores.balancePatch (Vendedores.newBalance products s)
                         (Firestore.fields s))
             | None => c !! k
             end.
Proof.
  revert c. induction sellersData as [|s rest IH]; intros c Hnd Hstored.
  - exists c. split; reflexivity.
  - csimpl in Hnd. apply NoDup_cons in Hnd as [Hs Hnd].
    pose proof (Hstored s (list_elem_of_here _ _)) as Hsd.
    set (c1 := <[Firestore.id s :=
                   Vendedores.balancePatch (Vendedores.newBalance products s)
                     (Firestore.fields s)]> c).
    assert (Hstep :
              (if bool_decide (Seller.balance (Firestore.fields s)
                               = Vendedores.newBalance products s)
               then (c, ok)
               else
                 match Firestore.updateDoc (Firestore.id s)
                         (Vendedores.balancePatch (Vendedores.newBalance products s)) c with
                 | Some sellers' => (sellers', ok)
                 | None => (c, false)
                 end) = (c1, ok)).
    { case_bool_decide as Hb.
      - unfold c1. rewrite <- Hb, balancePatch_same, insert_id by exact Hsd. reflexivity.
      - unfold Firestore.updateDoc. rewrite Hsd. reflexivity. }
    destruct (IH c1 Hnd) as (c' & Hc' & Hlook).
    { intros s' Hs'. unfold c1. rewrite lookup_insert_ne.
      - apply Hstored. right. exact Hs'.
      - intros Heq. apply Hs. rewrite Heq. apply list_elem_of_fmap.
        exists s'. split; [reflexivity | exact Hs']. }
    exists c'. split.
    + simpl. simpl in Hstep. rewrite Hstep. exact Hc'.
    + intros k. rewrite Hlook, findById_cons.
      destruct (decide (Firestore.id s = k)) as [<-|Hne].
      * rewrite (findById_absent _ _ Hs). unfold c1. apply lookup_insert_eq.
      * destruct (Firestore.findById k rest); [reflexivity|].
        unfold c1. apply lookup_insert_ne. exact Hne.
Qed.

Lemma recalculate_loop_balanced (products : list Product) (sellersData : list Seller)
    (acc : gmap string Seller.t * bool) :
  (∀ s, s ∈ sellersData →
        Seller.balance (Firestore.fields s) = Vendedores.newBalance products s) →
  foldl (λ (acc : gmap string Seller.t * bool) seller,
           if bool_decide (Seller.balance (Firestore.fields seller)
                           = Vendedores.newBalance products seller)
           then acc
           else
             match Firestore.updateDoc (Firestore.id seller)
                     (Vendedores.balancePatch (Vendedores.newBalance products seller))
                     acc.1 with
             | Some sellers' => (sellers', acc.2)
             | None => (acc.1, false)
             end)
        acc sellersData = acc.
Proof.
  induction sellersData as [|s rest IH]; intros Hbal; [reflexivity|].
  simpl. rewrite bool_decide_eq_true_2 by (apply Hbal; left).
  apply IH. intros s' Hs'. apply Hbal. right. exact Hs'.
Qed.

Lemma snapshot_ids {A : Type} (c : gmap string A) :
  Firestore.id <$> Firestore.snapshot noStoredId c = (map_to_list c).*1.
Proof.
  unfold Firestore.snapshot, Firestore.docs. rewrite <- list_fmap_compose.
  apply list_fmap_ext. intros i [k d] _. reflexivity.
Qed.

Lemma snapshot_elem {A : Type} (c : gmap string A) (s : Firestore.Mapped A) :
  s ∈ Firestore.snapshot noStoredId c ↔ c !! Firestore.id s = Some (Firestore.fields s).
Proof.
  unfold Firestore.snapshot, Firestore.docs. rewrite list_elem_of_fmap. split.
  - intros ([k d] & -> & Hin). apply elem_of_map_to_list in Hin. exact Hin.
  - intros Hs. exists (Firestore.id s, Firestore.fields s). split.
    + destruct s. reflexivity.
    + apply elem_of_map_to_list. exact Hs.
Qed.

(** X21: the balance written by the sellers listener settles in one
    round.  Run on a snapshot of the [sellers] collection, the listener's
    writes all succeed; they leave every seller with the value of the
    stock the seller holds as balance and with every other field as it
    was, create and delete no document, and touch no product; the list the
    page keeps is then what the collection holds.  The snapshot that these writes trigger finds every balance equal to the
    recomputed one and writes nothing more. *)
Theorem recalculate_balances_settles (products : list Product) (db : Db) :
  ∃ db',
    Vendedores.recalculateBalances products
      (Firestore.snapshot noStoredId (db_sellers db)) db = (db', Completed)
    ∧ (∀ k, db_sellers db' !! k
            = (λ d, Vendedores.balancePatch
                      (Vendedores.newBalance products (Firestore.mkMapped k d)) d)
                <$> db_sellers db !! k)
    ∧ db_products db' = db_products db
    ∧ (∀ k, Firestore.findById k
              (Vendedores.sellersWithRecalculatedBalance products
                 (Firestore.snapshot noStoredId (db_sellers db)))
            = Firestore.mkMapped k <$> db_sellers db' !! k)
    ∧ Vendedores.recalculateBalances products
        (Firestore.snapshot noStoredId (db_sellers db')) db' = (db', Completed).
Proof.
  destruct (recalculate_loop products (Firestore.snapshot noStoredId (db_sellers db))
              (db_sellers db) true) as (c' & Hc' & Hlook).
  { rewrite snapshot_ids. apply NoDup_fst_map_to_list. }
  { intros s Hs. apply snapshot_elem. exact Hs. }
  assert (Hlook' : ∀ k, c' !! k
            = (λ d, Vendedores.balancePatch
                      (Vendedores.newBalance products (Firestore.mkMapped k d)) d)
                <$> db_sellers db !! k).
  { intros k. rewrite Hlook, find_snapshot_lookup.
    destruct (db_sellers db !! k); reflexivity. }
  exists (with_sellers c' db).
  split; [unfold Vendedores.recalculateBalances; rewrite Hc'; reflexivity|].
  split; [exact Hlook'|]. split; [reflexivity|]. split.
  { intros k. simpl. rewrite Hlook'.
    unfold Vendedores.sellersWithRecalculatedBalance.
    rewrite findById_fmap_same_id by reflexivity.
    rewrite find_snapshot_lookup.
    destruct (db_sellers db !! k); reflexivity. }
  unfold Vendedores.recalculateBalances. rewrite recalculate_loop_balanced.
  - destruct db. reflexivity.
  - intros s Hs. apply snapshot_elem in Hs. simpl in Hs. rewrite Hlook' in Hs.
    destruct s as [k d']. simpl in *.
    destruct (db_sellers db !! k) as [d|]; [|discriminate].
    injection Hs as <-. reflexivity.
Qed.

(** ** Supplier orders: marking an order as received *)

Lemma default_rows_not_short (items : list SupplierOrderItem.t) :
  existsb (λ item, bool_decide (Proveedores.receivedQuantity item
                                < Proveedores.orderedQuantity item))
    ((λ item, {| Proveedores.name := SupplierOrderItem.name item;
                 Proveedores.unit := SupplierOrderItem.unit item;
                 Proveedores.orderedQuantity := SupplierOrderItem.quantity item;
                 Proveedores.receivedQuantity := SupplierOrderItem.quantity item |})
       <$> items) = false.
Proof.
  induction items as [|x items IH]; csimpl; [reflexivity|].
  rewrite bool_decide_eq_false_2 by lia. exact IH.
Qed.

(** X22: choosing "Marcar como Recibido" on an order of the page writes
    nothing; it opens the receive dialog on that order with one row per
    ordered line, the received quantity preset to the ordered one.
    Submitting the dialog as it opened completes the receipt in full: the
    stored order gets status Recibido, never Recibido (Parcial), the
    reception date, and the ordered lines as received items; its ordered
    lines and total are kept. *)
Theorem mark_received_defaults_to_full_receipt
    (orderId : string) (supplierOrders : list SupplierOrder) (order : SupplierOrder)
    (today now : string) (autoId : nat → string) (db : Db) :
  Firestore.findById orderId supplierOrders = Some order →
  db_supplier_orders db !! Firestore.id order = Some (Firestore.fields order) →
  ∃ dialog,
    Proveedores.handleOrderStatusChange orderId SupplierOrder.Recibido supplierOrders db
    = (db, Completed, Some dialog)
    ∧ Proveedores.orderToReceive dialog = order
    ∧ length (Proveedores.formItems dialog)
      = length (SupplierOrder.items (Firestore.fields order))
    ∧ Forall (λ row, Proveedores.receivedQuantity row = Proveedores.orderedQuantity row)
        (Proveedores.formItems dialog)
    ∧ ∃ db' stored,
        Proveedores.handleReceiveOrderSubmit (Some (Proveedores.orderToReceive dialog))
          (Proveedores.formItems dialog) today now autoId db = (db', Completed)
        ∧ db_supplier_orders db' !! Firestore.id order = Some stored
        ∧ SupplierOrder.status stored = SupplierOrder.Recibido
        ∧ SupplierOrder.receivedDate stored = Some now
        ∧ SupplierOrder.receivedItems stored
          = Some ((λ item, {| ReceivedItem.name := SupplierOrderItem.name item;
                              ReceivedItem.quantity := SupplierOrderItem.quantity item;
                              ReceivedItem.unit := SupplierOrderItem.unit item |})
                    <$> SupplierOrder.items (Firestore.fields order))
        ∧ SupplierOrder.items stored = SupplierOrder.items (Firestore.fields order)
        ∧ SupplierOrder.total stored = SupplierOrder.total (Firestore.fields order).
Proof.
  intros Hfind Hstored.
  unfold Proveedores.handleOrderStatusChange. rewrite Hfind.
  eexists. split; [reflexivity|]. simpl.
  split; [reflexivity|]. split; [apply length_fmap|].
  split; [apply Forall_fmap, Forall_forall; intros x _; reflexivity|].
  unfold Proveedores.handleReceiveOrderSubmit.
  rewrite default_rows_not_short.
  unfold Firestore.updateDoc. simpl. rewrite Hstored.
  eexists _, _. split; [reflexivity|]. simpl.
  split; [apply lookup_insert_eq|]. simpl.
  split; [reflexivity|]. split; [reflexivity|].
  split; [rewrite <- list_fmap_compose; reflexivity|].
  split; reflexivity.
Qed.

Lemma mark_received_defaults_to_full_receipt_witness :
  ∃ dialog,
    Proveedores.handleOrderStatusChange "so1" SupplierOrder.Recibido [bottles_order]
      bottles_db = (bottles_db, Completed, Some dialog)
    ∧ ∃ db' stored,
        Proveedores.handleReceiveOrderSubmit (Some (Proveedores.orderToReceive dialog))
          (Proveedores.formItems dialog) "2024-05-20" "2024-05-20T09:00:00Z" bottles_ids
          bottles_db = (db', Completed)
        ∧ db_supplier_orders db' !! "so1" = Some stored
        ∧ SupplierOrder.status stored = SupplierOrder.Recibido.
Proof.
  destruct (mark_received_defaults_to_full_receipt "so1" [bottles_order] bottles_order
              "2024-05-20" "2024-05-20T09:00:00Z" bottles_ids bottles_db eq_refl eq_refl)
    as (dialog & Hopen & _ & _ & _ & db' & stored & Hrun & Hlook & Hstatus & _).
  exists dialog. split; [exact Hopen|].
  exists db', stored. split; [exact Hrun|]. split; [exact Hlook | exact Hstatus].
Defined.

(** ** Delivery orders: putting an order on a customer's account *)

(** X23: an order document carries its own [PED-...] id among its fields,
    and the orders page takes that as the order's id.  For an order stored
    under a document id other than that (every order the point of sale
    creates: [addDoc] picks the document id), putting the order on a
    customer's account adds the billable item to [billable-items] and then
    fails on the update of the order, which aims at a document that does
    not exist: the order is left as it was, still to be collected, while
    the customer already has the item to be invoiced; doing it again adds
    the item a second time. *)
Theorem order_on_account_bills_without_delivering
    (docId cid now autoId : string) (stored : Order.t) (customers : list Client)
    (customer : Client) (db : Db) :
  db_orders db !! docId = Some stored →
  db_orders db !! Order.id stored = None →
  cid ≠ ""%string →
  Firestore.findById cid customers = Some customer →
  let order := Firestore.mapDocTo Pedidos.storedOrderId (docId, stored) in
  Firestore.id order = Order.id stored
  ∧ ∃ db',
      Pedidos.handleAddToCustomerAccount (Some cid) (Some order) customers now autoId db
      = (db', Failed)
      ∧ db_orders db' = db_orders db
      ∧ db_billable_items db'
        = <[autoId := Pedidos.billableItem order now cid customer]> (db_billable_items db)
      ∧ BillableItem.total (Pedidos.billableItem order now cid customer) = Order.total stored
      ∧ BillableItem.invoiced (Pedidos.billableItem order now cid customer) = false
      ∧ ∀ now2 autoId2,
          ∃ db'',
            Pedidos.handleAddToCustomerAccount (Some cid) (Some order) customers now2
              autoId2 db' = (db'', Failed)
            ∧ db_orders db'' = db_orders db
            ∧ db_billable_items db''
              = <[autoId2 := Pedidos.billableItem order now2 cid customer]>
                  (db_billable_items db').
Proof.
  intros Hdoc Hnone Hcid Hcust order. split; [reflexivity|].
  unfold Pedidos.handleAddToCustomerAccount.
  rewrite bool_decide_eq_false_2 by exact Hcid. rewrite Hcust.
  unfold Firestore.updateDoc. simpl. rewrite Hnone.
  eexists. split; [reflexivity|]. simpl.
  split; [reflexivity|]. split; [reflexivity|]. split; [reflexivity|].
  split; [reflexivity|].
  intros now2 autoId2. rewrite Hnone.
  eexists. split; [reflexivity|]. split; reflexivity.
Qed.

Lemma order_on_account_bills_without_delivering_witness :
  ∃ stored db',
    db_orders delivery_order_db !! "o1" = Some stored
    ∧ Order.status stored = Order.Pendiente
    ∧ Pedidos.handleAddToCustomerAccount (Some "cust1"%string)
        (Some (Firestore.mapDocTo Pedidos.storedOrderId ("o1"%string, stored)))
        [rosa] "t6" "b9" delivery_order_db = (db', Failed)
    ∧ db_orders db' = db_orders delivery_order_db
    ∧ is_Some (db_billable_items db' !! "b9").
Proof.
  assert (Hs : ∃ stored, db_orders delivery_order_db !! "o1" = Some stored
                         ∧ Order.id stored = "PED-000001"%string
                         ∧ Order.status stored = Order.Pendiente).
  { eexists. split; [vm_compute; reflexivity|]. split; reflexivity. }
  destruct Hs as (stored & Hstored & Hid & Hstatus).
  assert (Hnone : db_orders delivery_order_db !! Order.id stored = None).
  { rewrite Hid. vm_compute. reflexivity. }
  destruct (order_on_account_bills_without_delivering "o1" "cust1" "t6" "b9" stored [rosa]
              rosa delivery_order_db Hstored Hnone)
    as (_ & db' & Hrun & Horders & Hbill & _); [discriminate | reflexivity |].
  exists stored, db'. split; [exact Hstored|]. split; [exact Hstatus|].
  split; [exact Hrun|]. split; [exact Horders|].
  rewrite Hbill, lookup_insert_eq. eauto.
Defined.

(** ** Sellers: building the assignment cart *)

Lemma assignment_find_other (p : Product) (cart : list Vendedores.AssignmentCartItem.t) :
  (∀ ci, ci ∈ cart → Firestore.id (Vendedores.AssignmentCartItem.item ci) ≠ Firestore.id p) →
  find (λ cartItem, bool_decide (Firestore.id (Vendedores.AssignmentCartItem.item cartItem)
                                 = Firestore.id p)) cart = None
  ∧ (λ cartItem,
       if bool_decide (Firestore.id (Vendedores.AssignmentCartItem.item cartItem)
                       = Firestore.id p)
       then {| Vendedores.AssignmentCartItem.item :=
                 Vendedores.AssignmentCartItem.item cartItem;
               Vendedores.AssignmentCartItem.quantity :=
                 Vendedores.AssignmentCartItem.quantity cartItem + 0 |}
       else cartItem) <$> cart = cart.
Proof.
  induction cart as [|ci cart IH]; intros Hother; [split; reflexivity|].
  destruct IH as [IH1 IH2]; [intros cj Hcj; apply Hother; right; exact Hcj|].
  csimpl. rewrite bool_decide_eq_false_2 by (apply Hother; left).
  split; [exact IH1 | rewrite IH2; reflexivity].
Qed.

Lemma assignment_bump_other (p : Product) (n : Z) (cart : list Vendedores.AssignmentCartItem.t) :
  (∀ ci, ci ∈ cart → Firestore.id (Vendedores.AssignmentCartItem.item ci) ≠ Firestore.id p) →
  (λ cartItem,
     if bool_decide (Firestore.id (Vendedores.AssignmentCartItem.item cartItem)
                     = Firestore.id p)
     then {| Vendedores.AssignmentCartItem.item :=
               Vendedores.AssignmentCartItem.item cartItem;
             Vendedores.AssignmentCartItem.quantity :=
               Vendedores.AssignmentCartItem.quantity cartItem + n |}
     else cartItem) <$> cart = cart.
Proof.
  induction cart as [|ci cart IH]; intros Hother; [reflexivity|].
  csimpl. rewrite bool_decide_eq_false_2 by (apply Hother; left).
  rewrite IH; [reflexivity|]. intros cj Hcj. apply Hother. right. exact Hcj.
Qed.

Lemma assignment_find_last (p : Product) (n : Z) (cart : list Vendedores.AssignmentCartItem.t) :
  (∀ ci, ci ∈ cart → Firestore.id (Vendedores.AssignmentCartItem.item ci) ≠ Firestore.id p) →
  find (λ cartItem, bool_decide (Firestore.id (Vendedores.AssignmentCartItem.item cartItem)
                                 = Firestore.id p))
    (cart ++ [ {| Vendedores.AssignmentCartItem.item := p;
                  Vendedores.AssignmentCartItem.quantity := n |} ])
  = Some {| Vendedores.AssignmentCartItem.item := p;
            Vendedores.AssignmentCartItem.quantity := n |}.
Proof.
  induction cart as [|ci cart IH]; intros Hother; simpl.
  - rewrite bool_decide_eq_true_2 by reflexivity. reflexivity.
  - rewrite bool_decide_eq_false_2 by (apply Hother; left).
    apply IH. intros cj Hcj. apply Hother. right. exact Hcj.
Qed.

(** X24: the quantity box of the assignment dialog and the cart.  Whatever
    number is entered for a product, the box keeps it between 0 and the
    product's stock, and "Añadir" puts exactly that quantity in the cart,
    as a new line for a product the cart does not hold, and empties the
    box; so one add never exceeds the stock.  Adding the same product again
    raises the same line, with no regard to the stock: entering the same
    number twice gives a line of twice the quantity, and when that is more
    than the catalog's stock the confirmation is refused with nothing
    written. *)
Theorem assignment_cart_quantity_clamped
    (p : Product) (q : Z) (cart : list Vendedores.AssignmentCartItem.t)
    (itemQuantities : gmap string Z) :
  (∀ ci, ci ∈ cart → Firestore.id (Vendedores.AssignmentCartItem.item ci) ≠ Firestore.id p) →
  let stock := Product.stock (Firestore.fields p) in
  let n := Z.min (Z.max 0 q) stock in
  let enter st :=
    (st.1, Vendedores.handleQuantityChange (Firestore.id p) q (Some stock) st.2) in
  let st1 := Vendedores.handleAddToCart p (enter (cart, itemQuantities)) in
  let st2 := Vendedores.handleAddToCart p (enter st1) in
  0 < n →
  n ≤ stock
  ∧ st1.1 = cart ++ [ {| Vendedores.AssignmentCartItem.item := p;
                         Vendedores.AssignmentCartItem.quantity := n |} ]
  ∧ st1.2 !! Firestore.id p = Some 0
  ∧ st2.1 = cart ++ [ {| Vendedores.AssignmentCartItem.item := p;
                         Vendedores.AssignmentCartItem.quantity := n + n |} ]
  ∧ ∀ seller isDirectSale assignmentDiscounts discounted saleId now products db,
      Firestore.findById (Firestore.id p) products = Some p →
      stock < n + n →
      Vendedores.handleConfirmAssignment (Some seller) st2.1 isDirectSale
        assignmentDiscounts discounted saleId now products db = (db, Aborted).
Proof.
  intros Hother stock n enter st1 st2 Hn.
  assert (Hst1 : st1 = (cart ++ [ {| Vendedores.AssignmentCartItem.item := p;
                                     Vendedores.AssignmentCartItem.quantity := n |} ],
                        <[Firestore.id p := 0]>
                          (<[Firestore.id p := n]> itemQuantities))).
  { unfold st1, enter, Vendedores.handleAddToCart, Vendedores.handleQuantityChange. simpl.
    rewrite lookup_insert_eq. simpl. fold stock. fold n.
    rewrite bool_decide_eq_false_2 by lia.
    rewrite (proj1 (assignment_find_other p cart Hother)). reflexivity. }
  assert (Hst2 : st2.1 = cart ++ [ {| Vendedores.AssignmentCartItem.item := p;
                                      Vendedores.AssignmentCartItem.quantity := n + n |} ]).
  { unfold st2. rewrite Hst1.
    unfold enter, Vendedores.handleAddToCart, Vendedores.handleQuantityChange. simpl.
    rewrite lookup_insert_eq. simpl. fold stock. fold n.
    rewrite bool_decide_eq_false_2 by lia. simpl.
    rewrite (assignment_find_last p n cart Hother).
    rewrite fmap_app, (assignment_bump_other p n cart Hother). simpl.
    rewrite bool_decide_eq_true_2 by reflexivity. reflexivity. }
  split; [unfold n; lia|]. split; [rewrite Hst1; reflexivity|].
  split; [rewrite Hst1; apply lookup_insert_eq|]. split; [exact Hst2|].
  intros seller isDirectSale assignmentDiscounts discounted saleId now products db Hp Hlt.
  rewrite Hst2. unfold Vendedores.handleConfirmAssignment.
  rewrite bool_decide_eq_false_2 by (rewrite length_app; simpl; lia).
  rewrite (stock_check_fails _ products
             {| Vendedores.AssignmentCartItem.item := p;
                Vendedores.AssignmentCartItem.quantity := n + n |}).
  - reflexivity.
  - apply elem_of_app. right. left.
  - intros p' Hp'. simpl in Hp'. rewrite Hp in Hp'. injection Hp' as <-. simpl.
    fold stock. exact Hlt.
Qed.

Lemma assignment_cart_quantity_clamped_witness :
  let enter (st : list Vendedores.AssignmentCartItem.t * gmap string Z) :=
    (st.1, Vendedores.handleQuantityChange "P" 99 (Some 40) st.2) in
  let st1 := Vendedores.handleAddToCart productP (enter ([], ∅)) in
  let st2 := Vendedores.handleAddToCart productP (enter st1) in
  Vendedores.AssignmentCartItem.quantity <$> st1.1 = [40]
  ∧ Vendedores.AssignmentCartItem.quantity <$> st2.1 = [80]
  ∧ Vendedores.handleConfirmAssignment (Some example_seller) st2.1 false ∅ no_discount
      "SELLSALE-9" "t5" [productP] sellers_db = (sellers_db, Aborted).
Proof.
  intros enter st1 st2.
  destruct (assignment_cart_quantity_clamped productP 99 [] ∅) as (_ & H1 & _ & H2 & H3).
  - intros ci Hci. apply elem_of_nil in Hci. destruct Hci.
  - simpl. lia.
  - split; [exact (f_equal (fmap Vendedores.AssignmentCartItem.quantity) H1)|].
    split; [exact (f_equal (fmap Vendedores.AssignmentCartItem.quantity) H2)|].
    apply (H3 example_seller false ∅ no_discount "SELLSALE-9"%string "t5"%string
             [productP] sellers_db); [reflexivity | simpl; lia].
Defined.

(** ** Supplier orders: status changes *)

Lemma statusPatch_back (s : SupplierOrder.Status) (d : SupplierOrder.t) :
  Proveedores.statusPatch (SupplierOrder.status d) (Proveedores.statusPatch s d) = d.
Proof. destruct d. reflexivity. Qed.

(** X25: a status chosen from the list, other than "Recibido", changes the
    status of the stored order and nothing else: the order's lines, total
    and reception fields, the other orders and the general stock stay as
    they were, and no dialog opens.  Setting the previous status again
    restores the store exactly.  For an order whose document is gone the
    update is rejected and nothing is written. *)
Theorem status_change_touches_status_only
    (orderId : string) (newStatus : SupplierOrder.Status)
    (supplierOrders : list SupplierOrder) (d : SupplierOrder.t) (db : Db) :
  newStatus ≠ SupplierOrder.Recibido →
  db_supplier_orders db !! orderId = Some d →
  SupplierOrder.status d ≠ SupplierOrder.Recibido →
  ∃ db',
    Proveedores.handleOrderStatusChange orderId newStatus supplierOrders db
    = (db', Completed, None)
    ∧ db_supplier_orders db' !! orderId = Some (Proveedores.statusPatch newStatus d)
    ∧ SupplierOrder.items (Proveedores.statusPatch newStatus d) = SupplierOrder.items d
    ∧ SupplierOrder.receivedItems (Proveedores.statusPatch newStatus d)
      = SupplierOrder.receivedItems d
    ∧ (∀ k, k ≠ orderId → db_supplier_orders db' !! k = db_supplier_orders db !! k)
    ∧ db_general_stock db' = db_general_stock db
    ∧ Proveedores.handleOrderStatusChange orderId (SupplierOrder.status d) supplierOrders db'
      = (db, Completed, None)
    ∧ Proveedores.handleOrderStatusChange orderId newStatus supplierOrders
        (with_supplier_orders (delete orderId (db_supplier_orders db)) db)
      = (with_supplier_orders (delete orderId (db_supplier_orders db)) db, Failed, None).
Proof.
  intros Hnew Hd Hold.
  assert (Hrun : ∀ s c, s ≠ SupplierOrder.Recibido →
            Proveedores.handleOrderStatusChange orderId s supplierOrders c
            = match Firestore.updateDoc orderId (Proveedores.statusPatch s)
                      (db_supplier_orders c) with
              | Some orders' => (with_supplier_orders orders' c, Completed, None)
              | None => (c, Failed, None)
              end).
  { intros s c Hs. destruct s; try reflexivity. contradiction. }
  rewrite !Hrun by assumption. unfold Firestore.updateDoc. rewrite Hd.
  eexists. split; [reflexivity|]. simpl.
  split; [apply lookup_insert_eq|]. split; [reflexivity|]. split; [reflexivity|].
  split; [intros k Hk; apply lookup_insert_ne; congruence|].
  split; [reflexivity|]. split.
  - rewrite Hrun by assumption. unfold Firestore.updateDoc. simpl.
    rewrite lookup_insert_eq.
    rewrite insert_insert_eq, statusPatch_back, insert_id by exact Hd.
    destruct db. reflexivity.
  - rewrite lookup_delete_eq. reflexivity.
Qed.

Lemma status_change_touches_status_only_witness :
  ∃ db',
    Proveedores.handleOrderStatusChange "so1" SupplierOrder.Confirmado [bottles_order]
      bottles_db = (db', Completed, None)
    ∧ SupplierOrder.status <$> db_supplier_orders db' !! "so1"
      = Some SupplierOrder.Confirmado
    ∧ db_general_stock db' = db_general_stock bottles_db
    ∧ Proveedores.handleOrderStatusChange "so1" SupplierOrder.EnTransito [bottles_order] db'
      = (bottles_db, Completed, None).
Proof.
  destruct (status_change_touches_status_only "so1" SupplierOrder.Confirmado [bottles_order]
              (Firestore.fields bottles_order) bottles_db)
    as (db' & Hrun & Hlook & _ & _ & _ & Hstock & Hback & _);
    [discriminate | reflexivity | discriminate |].
  exists db'. split; [exact Hrun|]. split; [rewrite Hlook; reflexivity|].
  split; [exact Hstock | exact Hback].
Defined.
